(** * Wallet tracker bot: change detection, quota and alert dispatch

    A shallow embedding of [DemkAaZa_PublicBot.py]: the [WalletDatabase]
    class, [fetch_transactions], [format_alert], the [/check] command and the
    [auto_monitor] job, followed by the properties the specification states
    about them.

    Python dictionaries keep insertion order and the code depends on it (the
    scan by display name in [remove_wallet], the tenant loop of
    [auto_monitor]), so [users] and [wallets] are association lists with the
    dictionary operations; [tx_cache] is only ever asked for membership and
    is a finite map.  Text is held in UTF-8: a slice counts characters, not
    bytes.  [lower] of a display name is the fold of the 26 letters on ASCII
    text and is left to the environment on any other text; [title] and
    [int] are modelled on ASCII text. *)

From Stdlib Require Import ZArith String Ascii List Lia.
From Stdlib Require Import DecimalString DecimalZ DecimalPos.
From stdpp Require Import base strings list gmap.

Open Scope string_scope.
Open Scope list_scope.
Open Scope Z_scope.

(** ** Text *)

Module Text.

Definition nl : string := String (ascii_of_nat 10) EmptyString.

(** [str(n)] of a Python [int]. *)
Definition str (z : Z) : string := NilZero.string_of_int (Z.to_int z).

Definition is_upper (c : ascii) : bool :=
  (65 <=? nat_of_ascii c)%nat && (nat_of_ascii c <=? 90)%nat.
Definition is_lower (c : ascii) : bool :=
  (97 <=? nat_of_ascii c)%nat && (nat_of_ascii c <=? 122)%nat.
Definition to_lower (c : ascii) : ascii :=
  if is_upper c then ascii_of_nat (nat_of_ascii c + 32) else c.
Definition to_upper (c : ascii) : ascii :=
  if is_lower c then ascii_of_nat (nat_of_ascii c - 32) else c.

(** [s.lower()] on ASCII text. *)
Fixpoint lower (s : string) : string :=
  match s with
  | EmptyString => EmptyString
  | String c s' => String (to_lower c) (lower s')
  end.

(** [s.title()]: a cased letter is upper after an uncased character and
    lower after a cased one. *)
Fixpoint title_from (prev_cased : bool) (s : string) : string :=
  match s with
  | EmptyString => EmptyString
  | String c s' =>
      if is_lower c then
        String (if prev_cased then c else to_upper c) (title_from true s')
      else if is_upper c then
        String (if prev_cased then to_lower c else c) (title_from true s')
      else String c (title_from false s')
  end.
Definition title (s : string) : string := title_from false s.

(** [s.replace(a, b)] for single characters. *)
Fixpoint replace_char (a b : ascii) (s : string) : string :=
  match s with
  | EmptyString => EmptyString
  | String c s' =>
      String (if decide (c = a) then b else c) (replace_char a b s')
  end.

(** A byte [10xxxxxx] goes on with the character begun before it; every
    other byte begins a character. *)
Definition is_continuation (c : ascii) : bool :=
  (128 <=? nat_of_ascii c)%nat && (nat_of_ascii c <=? 191)%nat.

(** [len(s)]: the number of characters. *)
Fixpoint len (s : string) : nat :=
  match s with
  | EmptyString => 0%nat
  | String c s' => if is_continuation c then len s' else S (len s')
  end.

(** [s[:n]]: the first [n] characters, each with all its bytes. *)
Fixpoint slice_to (n : nat) (s : string) : string :=
  match s with
  | EmptyString => EmptyString
  | String c s' =>
      if is_continuation c then String c (slice_to n s')
      else match n with
           | O => EmptyString
           | S n' => String c (slice_to n' s')
           end
  end.

(** Text of ASCII characters only. *)
Fixpoint is_ascii (s : string) : bool :=
  match s with
  | EmptyString => true
  | String c s' => (nat_of_ascii c <? 128)%nat && is_ascii s'
  end.

Fixpoint starts_with (p s : string) : bool :=
  match p, s with
  | EmptyString, _ => true
  | String a p', String b s' => bool_decide (a = b) && starts_with p' s'
  | String _ _, EmptyString => false
  end.

(** [needle in hay] *)
Fixpoint str_in (needle hay : string) : bool :=
  starts_with needle hay ||
  match hay with
  | EmptyString => false
  | String _ hay' => str_in needle hay'
  end.

(** The text before the first underscore. *)
Fixpoint before_underscore (s : string) : string :=
  match s with
  | EmptyString => EmptyString
  | String c s' =>
      if decide (c = "_"%char) then EmptyString
      else String c (before_underscore s')
  end.

(** *** [int(s)] on ASCII text: surrounding white space, an optional sign,
    then decimal digits, single underscores allowed between digits. *)

Definition is_space (c : ascii) : bool :=
  let n := nat_of_ascii c in
  ((9 <=? n)%nat && (n <=? 13)%nat) || ((28 <=? n)%nat && (n <=? 32)%nat).

Definition digit_val (c : ascii) : option Z :=
  let n := nat_of_ascii c in
  if (48 <=? n)%nat && (n <=? 57)%nat then Some (Z.of_nat (n - 48)) else None.

Fixpoint lstrip (s : string) : string :=
  match s with
  | String c s' => if is_space c then lstrip s' else s
  | EmptyString => EmptyString
  end.

Fixpoint all_space (s : string) : bool :=
  match s with
  | EmptyString => true
  | String c s' => is_space c && all_space s'
  end.

(** [digits_from acc after_digit s]: [after_digit] tells whether the
    previous character was a digit, the only place an underscore or the
    end of the number may follow. *)
Fixpoint digits_from (acc : Z) (after_digit : bool) (s : string) : option Z :=
  match s with
  | EmptyString => if after_digit then Some acc else None
  | String c s' =>
      match digit_val c with
      | Some d => digits_from (10 * acc + d) true s'
      | None =>
          if decide (c = "_"%char) then
            if after_digit then digits_from acc false s' else None
          else if after_digit && all_space s then Some acc
          else None
      end
  end.

Definition py_int (s : string) : option Z :=
  match lstrip s with
  | String "-" s' => option_map Z.opp (digits_from 0 false s')
  | String "+" s' => digits_from 0 false s'
  | s' => digits_from 0 false s'
  end.

End Text.

Arguments Text.str : simpl never.

(** ** Insertion-ordered dictionaries *)

Section Dict.
Context {V : Type}.

Definition dict : Type := list (string * V).

(** [d.get(k)] *)
Fixpoint dict_get (k : string) (d : dict) : option V :=
  match d with
  | [] => None
  | (k', v) :: d' => if decide (k = k') then Some v else dict_get k d'
  end.

(** [k in d] *)
Definition dict_mem (k : string) (d : dict) : bool :=
  match dict_get k d with Some _ => true | None => false end.

(** [d[k] = v]: an existing key keeps its place, a new one goes last. *)
Fixpoint dict_set (k : string) (v : V) (d : dict) : dict :=
  match d with
  | [] => [(k, v)]
  | (k', v') :: d' =>
      if decide (k = k') then (k, v) :: d' else (k', v') :: dict_set k v d'
  end.

(** [del d[k]], for a key that is present. *)
Fixpoint dict_del (k : string) (d : dict) : dict :=
  match d with
  | [] => []
  | (k', v') :: d' =>
      if decide (k = k') then dict_del k d' else (k', v') :: dict_del k d'
  end.

(** In-place mutation of the object stored under [k]. *)
Fixpoint dict_update (k : string) (f : V -> V) (d : dict) : dict :=
  match d with
  | [] => []
  | (k', v') :: d' =>
      if decide (k = k') then (k', f v') :: d' else (k', v') :: dict_update k f d'
  end.

Definition dict_keys (d : dict) : list string := map fst d.

End Dict.

Arguments dict : clear implicits.
Arguments dict_keys : simpl never.

(** ** Data model *)

(** One entry of [user["wallets"]]. *)
Record wallet : Type := Wallet {
  name : string;
  added : string;
  last_tx : option string;
  tx_count : Z
}.

(** One entry of [db.users]. *)
Record user : Type := User {
  wallets : dict wallet;
  created : string;
  alert_count : Z
}.

(** An element of [tx["nativeTransfers"]]; a missing [amount] reads 0. *)
Record transfer : Type := Transfer { amount : Z }.

(** An activity record as the source returns it.  A key that is absent is
    [None] (an absent or empty [nativeTransfers] is the empty list).  The
    values have the types [format_alert] takes for granted: a signature and
    a type that are text, a timestamp that [datetime.fromtimestamp] accepts,
    amounts that are integers. *)
Record tx : Type := Tx {
  signature : option string;
  tx_type : option string;
  timestamp : option Z;
  nativeTransfers : list transfer
}.

(** [(tx, wallet_data["name"], address)] *)
Definition alert : Type := tx * string * string.

(** What the HTTP request of [fetch_transactions] can do: answer with a
    status and a decoded JSON body, or raise (network error, timeout,
    undecodable body). *)
Inductive http_outcome : Type :=
| HttpReply (status : Z) (body : list tx)
| HttpRaise (msg : string).

(** [update.effective_user.id] and the chat [update.message] replies to. *)
Record Update : Type := { effective_user_id : Z; chat_id : Z }.

Inductive exn : Type :=
| ValueError (msg : string)
| RuntimeError (msg : string)
| TelegramError (msg : string).

(** [str(e)] *)
Definition exn_str (e : exn) : string :=
  match e with ValueError m | RuntimeError m | TelegramError m => m end.

(** Effects that leave the process. *)
Inductive event : Type :=
| EvPrint (text : string)
| EvFetch (address : string) (limit : Z) (r : http_outcome)
| EvSend (chat : Z) (text : string) (err : option string)
| EvSleep (seconds : Z).

(** The environment.  Every interaction with it takes the number of
    interactions made so far, so that no two readings need agree.
    [unicode_lower] is [str.lower()] on text that is not ASCII. *)
Record World : Type := {
  clock : nat -> Z;
  isoformat : Z -> string;
  strftime_HMS : Z -> string;
  sol_4f : Z -> string;
  unicode_lower : string -> string;
  http_get : nat -> string -> Z -> http_outcome;
  telegram : nat -> Z -> string -> option string
}.

(** The [db] object with the two files it writes, the interaction counter
    and the effects so far, oldest first. *)
Record State : Type := mkState {
  users : dict user;
  tx_cache : gmap string string;
  db_file : dict user;
  cache_file : gmap string string;
  ticks : nat;
  trace : list event
}.

Definition set_users (f : dict user -> dict user) (st : State) : State :=
  mkState (f (users st)) (tx_cache st) (db_file st) (cache_file st) (ticks st) (trace st).
Definition set_tx_cache (f : gmap string string -> gmap string string) (st : State) : State :=
  mkState (users st) (f (tx_cache st)) (db_file st) (cache_file st) (ticks st) (trace st).
Definition set_trace (f : list event -> list event) (st : State) : State :=
  mkState (users st) (tx_cache st) (db_file st) (cache_file st) (ticks st) (f (trace st)).

Definition set_wallets (f : dict wallet -> dict wallet) (u : user) : user :=
  User (f (wallets u)) (created u) (alert_count u).

(** ** A state and exception monad *)

Inductive result (A : Type) : Type :=
| Ok (a : A)
| Raised (e : exn).
Arguments Ok {A} a.
Arguments Raised {A} e.

Definition M (A : Type) : Type := State -> result A * State.

Definition ret {A} (a : A) : M A := fun st => (Ok a, st).
Definition raise {A} (e : exn) : M A := fun st => (Raised e, st).
Definition bind {A B} (m : M A) (k : A -> M B) : M B :=
  fun st => match m st with
            | (Ok a, st') => k a st'
            | (Raised e, st') => (Raised e, st')
            end.
Definition try_except {A} (m : M A) (handler : exn -> M A) : M A :=
  fun st => match m st with
            | (Ok a, st') => (Ok a, st')
            | (Raised e, st') => handler e st'
            end.
Definition get_state : M State := fun st => (Ok st, st).
Definition modify (f : State -> State) : M unit := fun st => (Ok tt, f st).

Notation "x <- m ;; k" := (bind m (fun x => k))
  (at level 100, m at next level, right associativity).
Notation "m ;; k" := (bind m (fun _ => k))
  (at level 100, right associativity).

(** [for x in l: acc = body(acc, x)] *)
Fixpoint foldM {A B} (body : B -> A -> M B) (l : list A) (acc : B) : M B :=
  match l with
  | [] => ret acc
  | x :: l' => acc' <- body acc x ;; foldM body l' acc'
  end.

(** [for x in l: body(x)] *)
Definition for_each {A} (l : list A) (body : A -> M unit) : M unit :=
  foldM (fun _ x => body x) l tt.

Section Bot.
Variable W : World.

(** *** Primitive effects *)

Definition tick : M nat :=
  fun st => (Ok (ticks st),
             mkState (users st) (tx_cache st) (db_file st) (cache_file st)
                     (S (ticks st)) (trace st)).
Definition emit (e : event) : M unit := modify (set_trace (fun t => t ++ [e])).
Definition print (text : string) : M unit := emit (EvPrint text).
Definition sleep (seconds : Z) : M unit := emit (EvSleep seconds).

(** [datetime.now()] *)
Definition now : M Z := i <- tick ;; ret (clock W i).

(** [context.bot.send_message(chat_id, text)]: raises when Telegram
    refuses. *)
Definition send_message (chat : Z) (text : string) : M unit :=
  i <- tick ;;
  match telegram W i chat text with
  | None => emit (EvSend chat text None)
  | Some msg => emit (EvSend chat text (Some msg)) ;; raise (TelegramError msg)
  end.

(** [update.message.reply_text(text)] *)
Definition reply_text (update : Update) (text : string) : M unit :=
  send_message (chat_id update) text.

(** *** class WalletDatabase *)

Definition load_data : M unit :=
  modify (fun st => mkState (db_file st) (cache_file st) (db_file st)
                            (cache_file st) (ticks st) (trace st)).

Definition save_data : M unit :=
  modify (fun st => mkState (users st) (tx_cache st) (users st)
                            (tx_cache st) (ticks st) (trace st)).

(** Returns the object stored under [str(user_id)]; later writes through
    that reference are [set_users (dict_update (str user_id) _)]. *)
Definition get_user (user_id : Z) : M user :=
  let user_id := Text.str user_id in
  st <- get_state ;;
  match dict_get user_id (users st) with
  | Some u => ret u
  | None =>
      t <- now ;;
      let u := User [] (isoformat W t) 0 in
      modify (set_users (dict_set user_id u)) ;;
      save_data ;;
      ret u
  end.

Definition add_wallet (user_id : Z) (address name : string) : M (bool * string) :=
  user <- get_user user_id ;;
  if (10 <=? length (wallets user))%nat then
    ret (false, "❌ Maximum 10 wallets reached")
  else if dict_mem address (wallets user) then
    ret (false, "❌ This wallet is already tracked")
  else
    t <- now ;;
    let w := Wallet (Text.slice_to 20 name) (isoformat W t) None 0 in
    modify (set_users (dict_update (Text.str user_id)
                         (set_wallets (dict_set address w)))) ;;
    save_data ;;
    ret (true, "✅ *" +:+ name +:+ "* is now being tracked!").

(** [s.lower()] of a display name or an identifier: on ASCII text the
    fold of the 26 letters; on any other text the case mapping of the
    interpreter, which is the environment's. *)
Definition str_lower (s : string) : string :=
  if Text.is_ascii s then Text.lower s else unicode_lower W s.

(** [data["name"].lower() == identifier.lower()] *)
Definition name_matches (identifier : string) (aw : string * wallet) : bool :=
  bool_decide (str_lower (name (snd aw)) = str_lower identifier).

Definition remove_wallet (user_id : Z) (identifier : string) : M (bool * string) :=
  user <- get_user user_id ;;
  match dict_get identifier (wallets user) with
  | Some data =>
      modify (set_users (dict_update (Text.str user_id)
                           (set_wallets (dict_del identifier)))) ;;
      save_data ;;
      ret (true, "✅ Removed *" +:+ name data +:+ "*")
  | None =>
      match find (name_matches identifier) (wallets user) with
      | Some (addr, data) =>
          modify (set_users (dict_update (Text.str user_id)
                               (set_wallets (dict_del addr)))) ;;
          save_data ;;
          ret (true, "✅ Removed *" +:+ name data +:+ "*")
      | None => ret (false, "❌ Wallet not found")
      end
  end.

(** *** fetch_transactions *)

(** Every exception of the request is caught and printed; a reply whose
    status is not 200 falls through to the final [return []]. *)
Definition fetch_transactions (address : string) (limit : Z) : M (list tx) :=
  i <- tick ;;
  let r := http_get W i address limit in
  emit (EvFetch address limit r) ;;
  match r with
  | HttpReply status body => if status =? 200 then ret body else ret []
  | HttpRaise msg => print ("API Error: " +:+ msg) ;; ret []
  end.

(** *** format_alert *)

Definition format_alert (t : tx) (wallet_name wallet_address : string) : string :=
  let sig := default EmptyString (signature t) in
  let tx_id := Text.slice_to 12 sig +:+ "..." in
  let type := Text.title (Text.replace_char "_" " " (default "TRANSACTION" (tx_type t))) in
  let emoji :=
    if Text.str_in "SWAP" type then "🔀"
    else if Text.str_in "NFT" type then "🖼️"
    else if Text.str_in "TRANSFER" type then "💸"
    else "🔍" in
  let time_str :=
    match timestamp t with
    | Some ts => if ts =? 0 then "Just now" else strftime_HMS W ts
    | None => "Just now"
    end in
  let amount_info :=
    match nativeTransfers t with
    | transfer :: _ =>
        if 0 <? amount transfer
        then "💰 *Amount:* " +:+ sol_4f W (amount transfer) +:+ " SOL" +:+ Text.nl
        else EmptyString
    | [] => EmptyString
    end in
  (* message.strip(): the template starts with a newline and ends with a
     newline and four spaces *)
  emoji +:+ " *New Activity*" +:+ Text.nl +:+ Text.nl
  +:+ "📛 *Wallet:* " +:+ wallet_name +:+ Text.nl
  +:+ "📝 *TX:* `" +:+ tx_id +:+ "`" +:+ Text.nl
  +:+ "📊 *Type:* " +:+ type +:+ Text.nl
  +:+ "⏰ *Time:* " +:+ time_str +:+ Text.nl
  +:+ amount_info +:+ "🔗 [View on Solscan](https://solscan.io/tx/" +:+ sig +:+ ")"
  +:+ Text.nl +:+ Text.nl
  +:+ "📍 `" +:+ Text.slice_to 10 wallet_address +:+ "...`".

(** *** The poll cycle

    [check_command] (with [user_id] the sender) and [auto_monitor] (with
    [user_id] the key of [db.users]) run the same two nested loops; both
    print the tenant into the cache key as the text [uid]. *)

Definition cache_key (uid address tx_id : string) : string :=
  uid +:+ "_" +:+ address +:+ "_" +:+ tx_id.

(** The counters of a novel record: [tx_count] and [last_tx] of the wallet
    and [alert_count] of the tenant. *)
Definition bump_tx_count (w : wallet) : wallet :=
  Wallet (name w) (added w) (last_tx w) (tx_count w + 1).
Definition set_last_tx (ts : string) (w : wallet) : wallet :=
  Wallet (name w) (added w) (Some ts) (tx_count w).
Definition bump_alert_count (u : user) : user :=
  User (wallets u) (created u) (alert_count u + 1).

(** Body of [for tx in transactions].  [wallet_name] is
    [wallet_data["name"]], which the loop never writes. *)
Definition poll_tx (uid address wallet_name : string)
    (new_alerts : list alert) (t : tx) : M (list alert) :=
  match signature t with
  | None => ret new_alerts
  | Some tx_id =>
      if decide (tx_id = EmptyString) then ret new_alerts
      else
        st <- get_state ;;
        let key := cache_key uid address tx_id in
        match tx_cache st !! key with
        | Some _ => ret new_alerts
        | None =>
            t1 <- now ;;
            modify (set_tx_cache (insert key (isoformat W t1))) ;;
            modify (set_users (dict_update uid
                      (set_wallets (dict_update address bump_tx_count)))) ;;
            t2 <- now ;;
            modify (set_users (dict_update uid
                      (set_wallets (dict_update address
                                      (set_last_tx (isoformat W t2)))))) ;;
            modify (set_users (dict_update uid bump_alert_count)) ;;
            ret (new_alerts ++ [(t, wallet_name, address)])
        end
  end.

(** Body of [for address, wallet_data in user["wallets"].items()]. *)
Definition poll_wallet (uid : string) (new_alerts : list alert)
    (aw : string * wallet) : M (list alert) :=
  transactions <- fetch_transactions (fst aw) 5 ;;
  foldM (poll_tx uid (fst aw) (name (snd aw))) transactions new_alerts.

Definition poll (uid : string) (ws : dict wallet) : M (list alert) :=
  foldM (poll_wallet uid) ws [].

(** *** check_command *)

(** The end of [check_command], from [if new_alerts:] on. *)
Definition check_report (update : Update) (new_alerts : list alert) : M unit :=
  match new_alerts with
  | _ :: _ =>
      save_data ;;
      for_each (firstn 3 new_alerts)
        (fun '(t, name, addr) =>
           reply_text update (format_alert t name addr) ;;
           sleep 1) ;;
      if (3 <? length new_alerts)%nat then
        reply_text update
          ("📨 +" +:+ Text.str (Z.of_nat (length new_alerts) - 3)
           +:+ " more transactions...")
      else ret tt
  | [] => reply_text update "✅ No new transactions found."
  end.

Definition check_command (update : Update) : M unit :=
  let user_id := effective_user_id update in
  user <- get_user user_id ;;
  match wallets user with
  | [] => reply_text update "❌ No wallets to check. Add one with `/add`"
  | _ :: _ =>
      reply_text update "🔍 Checking for new transactions..." ;;
      new_alerts <- poll (Text.str user_id) (wallets user) ;;
      check_report update new_alerts
  end.

(** *** auto_monitor *)

(** [int(user_id_str)] *)
Definition int_of (s : string) : M Z :=
  match Text.py_int s with
  | Some z => ret z
  | None => raise (ValueError ("invalid literal for int() with base 10: '"
                               +:+ s +:+ "'"))
  end.

(** The test of the [except] clause around one send, on the ASCII text
    of the error. *)
Definition is_unreachable (e : exn) : bool :=
  Text.str_in "blocked" (Text.lower (exn_str e))
  || Text.str_in "forbidden" (Text.lower (exn_str e)).

(** [for tx, name, addr in new_alerts[:3]], each send in its own [try];
    the [break] is the branch that does not go on with [rest]. *)
Fixpoint send_alerts (user_id : Z) (user_id_str : string)
    (alerts : list alert) : M unit :=
  match alerts with
  | [] => ret tt
  | (t, name, addr) :: rest =>
      let message := format_alert t name addr in
      broke <- try_except
                 (send_message user_id message ;; sleep 1 ;; ret false)
                 (fun e =>
                    if is_unreachable e then
                      print ("User " +:+ Text.str user_id
                             +:+ " blocked bot, removing...") ;;
                      modify (set_users (dict_del user_id_str)) ;;
                      save_data ;;
                      ret true
                    else ret false) ;;
      if (broke : bool) then ret tt else send_alerts user_id user_id_str rest
  end.

(** The end of the [try] block, from [if new_alerts:] on. *)
Definition monitor_report (user_id : Z) (user_id_str : string)
    (new_alerts : list alert) : M unit :=
  match new_alerts with
  | _ :: _ =>
      save_data ;;
      send_alerts user_id user_id_str (firstn 3 new_alerts)
  | [] => ret tt
  end.

(** Body of [for user_id_str, user_data in db.users.items()]: the whole
    [try] with its [except Exception]. *)
Definition monitor_user (user_id_str : string) (user_data : user) : M unit :=
  try_except
    (user_id <- int_of user_id_str ;;
     new_alerts <- poll user_id_str (wallets user_data) ;;
     monitor_report user_id user_id_str new_alerts)
    (fun e => print ("Error monitoring user " +:+ user_id_str +:+ ": "
                     +:+ exn_str e)).

(** The dictionary iterator remembers the size [used] of [db.users] at
    its creation and raises when asked for the next item of a dictionary
    of another size; that request is outside the [try]. *)
Definition next_item (used : nat) : M unit :=
  st <- get_state ;;
  if decide (length (users st) = used) then ret tt
  else raise (RuntimeError "dictionary changed size during iteration").

Fixpoint monitor_loop (used : nat) (items : list (string * user)) : M unit :=
  match items with
  | [] => next_item used
  | (user_id_str, user_data) :: rest =>
      next_item used ;;
      monitor_user user_id_str user_data ;;
      monitor_loop used rest
  end.

Definition auto_monitor : M unit :=
  t <- now ;;
  print ("⏰ Auto-check at " +:+ strftime_HMS W t) ;;
  st <- get_state ;;
  monitor_loop (length (users st)) (users st).

(** The same loop with [user_data] looked up in [db.users] when the turn
    of the tenant comes: the iterator yields the stored object, not a copy
    made when the loop began.  With distinct keys the two loops coincide,
    see [monitor_loop_snapshot]. *)
Fixpoint monitor_loop_live (used : nat) (keys : list string) : M unit :=
  match keys with
  | [] => next_item used
  | user_id_str :: rest =>
      next_item used ;;
      st <- get_state ;;
      match dict_get user_id_str (users st) with
      | Some user_data => monitor_user user_id_str user_data
      | None => ret tt
      end ;;
      monitor_loop_live used rest
  end.

End Bot.

(** ** Derived notions used in the statements *)

(** [db.users[uid]["wallets"]], empty for a tenant that does not exist. *)
Definition wallets_of (uid : string) (st : State) : dict wallet :=
  match dict_get uid (users st) with
  | Some u => wallets u
  | None => []
  end.

(** Both files hold what the process holds. *)
Definition persisted (st : State) : Prop :=
  db_file st = users st /\ cache_file st = tx_cache st.

(** Every tenant is within the quota. *)
Definition quota_ok (st : State) : Prop :=
  Forall (fun ku : string * user => (length (wallets (snd ku)) <= 10)%nat) (users st).

(** The operations of the subscription store, as the front end calls them. *)
Inductive store_op : Type :=
| OpGetUser (user_id : Z)
| OpAddWallet (user_id : Z) (address name : string)
| OpRemoveWallet (user_id : Z) (identifier : string).

Definition run_op (W : World) (o : store_op) (st : State) : State :=
  match o with
  | OpGetUser uid => snd (get_user W uid st)
  | OpAddWallet uid address name => snd (add_wallet W uid address name st)
  | OpRemoveWallet uid identifier => snd (remove_wallet W uid identifier st)
  end.

Definition run_ops (W : World) (ops : list store_op) (st : State) : State :=
  fold_left (fun st o => run_op W o st) ops st.


(** The state after a write to the wallets of [uid] followed by
    [save_data]. *)
Definition after_write (uid : Z) (f : dict wallet -> dict wallet) (st : State) : State :=
  let us := dict_update (Text.str uid) (set_wallets f) (users st) in
  mkState us (tx_cache st) us (tx_cache st) (ticks st) (trace st).

(** ** Concrete environments and states for the examples *)

Module Examples.

Definition stamp : string := "2024-05-01T12:00:00".

Definition wallet_named (n : string) : wallet := Wallet n stamp None 0.

(** [str.lower()] on text of ASCII and Latin-1 letters, which is all the
    examples hold: in UTF-8 the capitals U+00C0 to U+00DE, the sign U+00D7
    apart, are the bytes [C3 80] to [C3 9E], and the small letter is 32
    places on. *)
Fixpoint latin_lower_from (after_c3 : bool) (s : string) : string :=
  match s with
  | EmptyString => EmptyString
  | String c s' =>
      let n := nat_of_ascii c in
      if after_c3 && (128 <=? n)%nat && (n <=? 158)%nat && negb (n =? 151)%nat
      then String (ascii_of_nat (n + 32)) (latin_lower_from false s')
      else String (Text.to_lower c) (latin_lower_from (n =? 195)%nat s')
  end.
Definition latin_lower : string -> string := latin_lower_from false.

(** An environment with a fixed clock, an activity source [src] and a
    delivery channel [tg]. *)
Definition world (src : nat -> string -> Z -> http_outcome)
    (tg : nat -> Z -> string -> option string) : World :=
  {| clock := fun i => Z.of_nat i;
     isoformat := Text.str;
     strftime_HMS := Text.str;
     sol_4f := Text.str;
     unicode_lower := latin_lower;
     http_get := src;
     telegram := tg |}.

Definition no_activity : nat -> string -> Z -> http_outcome :=
  fun _ _ _ => HttpReply 200 [].
Definition delivers : nat -> Z -> string -> option string :=
  fun _ _ _ => None.

Definition idle_world : World := world no_activity delivers.

Definition state_of (us : dict user) : State := mkState us ∅ us ∅ 0 [].

(** Tenant 7 at the quota. *)
Definition ten_wallets : dict wallet :=
  map (fun i => ("ADDR" +:+ Text.str (Z.of_nat i), wallet_named "w")) (seq 0 10).
Definition full_state : State := state_of [("7", User ten_wallets stamp 0)].

(** Tenant 7 tracks one address for which the source holds one record. *)
Definition record (sig : string) : tx := Tx (Some sig) (Some "TRANSFER") None [].
Definition one_record : nat -> string -> Z -> http_outcome :=
  fun _ _ _ => HttpReply 200 [record "sigA"].
Definition active_world : World := world one_record delivers.
Definition main_user : user := User [("ADDR1", wallet_named "Main")] stamp 0.
Definition main_state : State := state_of [("7", main_user)].
Definition update7 : Update := {| effective_user_id := 7; chat_id := 7 |}.

(** Two tenants tracking the same address. *)
Definition two_tenants : State := state_of [("7", main_user); ("8", main_user)].
Definition update8 : Update := {| effective_user_id := 8; chat_id := 8 |}.

(** The source holds seven records for every address. *)
Definition seven : list tx :=
  map record ["sig1"; "sig2"; "sig3"; "sig4"; "sig5"; "sig6"; "sig7"].
Definition seven_records : nat -> string -> Z -> http_outcome :=
  fun _ _ _ => HttpReply 200 seven.
Definition busy_world : World := world seven_records delivers.

(** Tenant 7 has blocked the bot; every other chat is delivered to. *)
Definition blocked_by_7 : nat -> Z -> string -> option string :=
  fun _ chat _ =>
    if chat =? 7 then Some "Forbidden: bot was blocked by the user" else None.
Definition blocked_world : World := world one_record blocked_by_7.

(** The channel times out on the message about [sig1] and delivers the
    others. *)
Definition times_out_once : nat -> Z -> string -> option string :=
  fun _ _ text => if Text.str_in "sig1" text then Some "Timed out" else None.
Definition flaky_world : World := world seven_records times_out_once.

(** A source that is down: the gateway answers 502. *)
Definition bad_gateway : nat -> string -> Z -> http_outcome :=
  fun _ _ _ => HttpReply 502 [].
Definition down_world : World := world bad_gateway delivers.

(** Tenant 7 with two wallets of the same name up to case, and a third
    whose address is the name of the first. *)
Definition twins : dict wallet :=
  [("ADDR1", wallet_named "Main"); ("ADDR2", wallet_named "MAIN");
   ("Main", wallet_named "Other")].
Definition twin_state : State := state_of [("7", User twins stamp 0)].

(** Tenant 7 with two wallets whose names differ by the case of a letter
    that is not ASCII. *)
Definition savings : dict wallet :=
  [("ADDR1", wallet_named "Épargne"); ("ADDR2", wallet_named "épargne")].
Definition savings_state : State := state_of [("7", User savings stamp 0)].

End Examples.

(** ** Notions about one run *)

(** The database part of the state is the same. *)
Definition same_db (st st' : State) : Prop :=
  users st' = users st /\ tx_cache st' = tx_cache st /\
  db_file st' = db_file st /\ cache_file st' = cache_file st.

(** What [fetch_transactions] makes of an outcome of the request. *)
Definition fetched (r : http_outcome) : list tx :=
  match r with
  | HttpReply status body => if status =? 200 then body else []
  | HttpRaise _ => []
  end.

(** The activity source answers a given request the same way whenever it is
    asked. *)
Definition steady_source (W : World) : Prop :=
  forall i j address limit, http_get W i address limit = http_get W j address limit.

(** The identifier the poll cycle takes from a record, if any. *)
Definition tx_id_of (t : tx) : option string :=
  match signature t with
  | Some s => if decide (s = EmptyString) then None else Some s
  | None => None
  end.

Definition is_send (e : event) : bool :=
  match e with EvSend _ _ _ => true | _ => false end.
Definition is_print (e : event) : bool :=
  match e with EvPrint _ => true | _ => false end.

(** The events of fetching: the request and the print of its failure. *)
Definition fetch_event (e : event) : Prop :=
  match e with EvFetch _ _ _ | EvPrint _ => True | _ => False end.

(** The three fixed replies of [check_command] that are not notifications. *)
Definition status_texts : list string :=
  ["❌ No wallets to check. Add one with `/add`";
   "🔍 Checking for new transactions...";
   "✅ No new transactions found."].

(** An event of a run that notifies nobody: no pacing delay and no message
    other than a status reply. *)
Definition no_notification (e : event) : Prop :=
  match e with
  | EvSend _ text _ => In text status_texts
  | EvSleep _ => False
  | _ => True
  end.

(** What the poll cycle of tenant [uid] may change between [st] and [st']:
    the counters of that tenant, never the set of tenants or of wallets;
    cache entries are only added, and only under keys of that tenant; the
    files are not written; nothing is sent. *)
Record poll_frame (uid : string) (st st' : State) : Prop := {
  pf_others : forall k, k <> uid -> dict_get k (users st') = dict_get k (users st);
  pf_keys : dict_keys (users st') = dict_keys (users st);
  pf_wallet_keys : dict_keys (wallets_of uid st') = dict_keys (wallets_of uid st);
  pf_cache_grows : tx_cache st ⊆ tx_cache st';
  pf_cache_own : forall k,
      tx_cache st !! k = None -> is_Some (tx_cache st' !! k) ->
      exists address tx_id, k = cache_key uid address tx_id;
  pf_db_file : db_file st' = db_file st;
  pf_cache_file : cache_file st' = cache_file st;
  pf_trace : exists evs, trace st' = trace st ++ evs /\ Forall fetch_event evs
}.

(** Every identified record the source holds for the addresses [addrs] is in
    the cache under tenant [uid]. *)
Definition all_cached (W : World) (uid : string) (addrs : list string) (st : State) : Prop :=
  forall address t s,
    In address addrs ->
    In t (fetched (http_get W 0 address 5)) ->
    tx_id_of t = Some s ->
    is_Some (tx_cache st !! cache_key uid address s).

(** The state after one call of the delivery channel. *)
Definition sent (W : World) (chat : Z) (text : string) (st : State) : State :=
  mkState (users st) (tx_cache st) (db_file st) (cache_file st) (S (ticks st))
          (trace st ++ [EvSend chat text (telegram W (ticks st) chat text)]).

(** The memory of the process is the same (the files may have been
    written). *)
Definition same_memory (st st' : State) : Prop :=
  users st' = users st /\ tx_cache st' = tx_cache st.

(** The run wrote nothing into the database and sent nothing. *)
Definition silent (st st' : State) : Prop :=
  same_db st st' /\
  exists evs, trace st' = trace st ++ evs /\ Forall no_notification evs.

(** A computation only takes states to [R]-related states, whether it
    returns or raises. *)
Definition preserves {A} (R : State -> State -> Prop) (m : M A) : Prop :=
  forall st, R st (snd (m st)).

(** The request for the records of an address failed: it raised, or the
    reply has another status than 200. *)
Definition fetch_fails (r : http_outcome) : Prop :=
  match r with
  | HttpReply status _ => status <> 200
  | HttpRaise _ => True
  end.

(** The state after a fetch with outcome [r]: only the request and, when it
    raised, the print of the error are added. *)
Definition after_fetch (address : string) (limit : Z) (r : http_outcome)
    (st : State) : State :=
  mkState (users st) (tx_cache st) (db_file st) (cache_file st) (S (ticks st))
          (trace st ++ EvFetch address limit r ::
             match r with
             | HttpRaise msg => [EvPrint ("API Error: " +:+ msg)]
             | HttpReply _ _ => []
             end).

(** What belongs to tenant [uid] is the same in [st'] as in [st]: its entry
    of [db.users], with wallets and counters, and the cache entries under
    its keys. *)
Definition untouched (uid : string) (st st' : State) : Prop :=
  dict_get uid (users st') = dict_get uid (users st) /\
  forall address tx_id,
    tx_cache st' !! cache_key uid address tx_id
    = tx_cache st !! cache_key uid address tx_id.

(** ** Notions about delivery *)

(** The state after the pacing delay. *)
Definition slept (seconds : Z) (st : State) : State :=
  set_trace (fun t => t ++ [EvSleep seconds]) st.

(** The state after the branch for a blocked recipient: the print, the
    deletion of the tenant and [save_data]. *)
Definition removed (user_id : Z) (user_id_str : string) (st : State) : State :=
  let us := dict_del user_id_str (users st) in
  mkState us (tx_cache st) us (tx_cache st) (ticks st)
          (trace st ++ [EvPrint ("User " +:+ Text.str user_id
                                 +:+ " blocked bot, removing...")]).

(** A send that failed with an error of the unreachable class. *)
Definition failed_unreachable (e : event) : bool :=
  match e with
  | EvSend _ _ (Some msg) => is_unreachable (TelegramError msg)
  | _ => false
  end.

(** No send follows the first send that failed as unreachable. *)
Fixpoint stops_at_unreachable (evs : list event) : bool :=
  match evs with
  | [] => true
  | e :: rest =>
      if failed_unreachable e then forallb (fun e' => negb (is_send e')) rest
      else stops_at_unreachable rest
  end.

(** The texts of the sends of a trace, in order. *)
Definition sent_texts (evs : list event) : list string :=
  flat_map (fun e => match e with EvSend _ text _ => [text] | _ => [] end) evs.

(** The entries of [db.users] other than that of [uid] are the same. *)
Definition others_kept (uid : string) (st st' : State) : Prop :=
  forall k, k <> uid -> dict_get k (users st') = dict_get k (users st).

(** The number a row of decimal digits stands for, after the digits that
    gave [acc]. *)
Fixpoint uint_val (d : Decimal.uint) (acc : Z) : Z :=
  match d with
  | Decimal.Nil => acc
  | Decimal.D0 d => uint_val d (10 * acc + 0)
  | Decimal.D1 d => uint_val d (10 * acc + 1)
  | Decimal.D2 d => uint_val d (10 * acc + 2)
  | Decimal.D3 d => uint_val d (10 * acc + 3)
  | Decimal.D4 d => uint_val d (10 * acc + 4)
  | Decimal.D5 d => uint_val d (10 * acc + 5)
  | Decimal.D6 d => uint_val d (10 * acc + 6)
  | Decimal.D7 d => uint_val d (10 * acc + 7)
  | Decimal.D8 d => uint_val d (10 * acc + 8)
  | Decimal.D9 d => uint_val d (10 * acc + 9)
  end.

(** * The rest of the bot: commands, accounting, durability *)

(** ** Notions about the counters and the alerts of a poll *)

(** [db.users[uid]["alert_count"]], 0 for a tenant that does not exist. *)
Definition alert_count_of (uid : string) (st : State) : Z :=
  match dict_get uid (users st) with
  | Some u => alert_count u
  | None => 0
  end.

(** The sum of [tx_count] over the wallets. *)
Definition total_tx_count (ws : dict wallet) : Z :=
  fold_right (fun aw s => tx_count (snd aw) + s) 0 ws.

(** The cache key under which the record of an alert was entered. *)
Definition alert_key (uid : string) (al : alert) : string :=
  cache_key uid (snd al) (default EmptyString (signature (fst (fst al)))).

(** An alert of a poll of [ws] that began in [st] and ended in [st']: its
    record has an identifier, it carries the address and the stored name
    of a wallet of [ws], and its key came into the cache during the poll. *)
Definition genuine_alert (uid : string) (ws : dict wallet) (st st' : State)
    (al : alert) : Prop :=
  (exists w, In (snd al, w) ws /\ name w = snd (fst al)) /\
  tx_id_of (fst (fst al)) <> None /\
  tx_cache st !! alert_key uid al = None /\
  is_Some (tx_cache st' !! alert_key uid al).

(** What a poll that began in [st], ended in [st'] and returned the alerts
    [new] has done to the cache. *)
Definition poll_yield (uid : string) (ws : dict wallet) (st st' : State)
    (new : list alert) : Prop :=
  tx_cache st ⊆ tx_cache st' /\
  size (tx_cache st') = (size (tx_cache st) + length new)%nat /\
  List.NoDup (map (alert_key uid) new) /\
  Forall (genuine_alert uid ws st st') new.

(** What a poll over addresses among [addrs] has done to the counters of
    a tenant that exists and tracks them. *)
Definition counted (uid : string) (addrs : list string) (st st' : State)
    (new : list alert) : Prop :=
  is_Some (dict_get uid (users st)) ->
  incl addrs (dict_keys (wallets_of uid st)) ->
  is_Some (dict_get uid (users st')) /\
  dict_keys (wallets_of uid st') = dict_keys (wallets_of uid st) /\
  alert_count_of uid st' = alert_count_of uid st + Z.of_nat (length new) /\
  total_tx_count (wallets_of uid st')
  = total_tx_count (wallets_of uid st) + Z.of_nat (length new).

(** ** The commands that change the store *)

Section Commands.
Variable W : World.

(** [" ".join(l)] *)
Fixpoint join_space (l : list string) : string :=
  match l with
  | [] => EmptyString
  | [s] => s
  | s :: l' => s +:+ " " +:+ join_space l'
  end.

Definition add_usage : string :=
  "📝 *Add a Wallet*" +:+ Text.nl +:+ Text.nl
  +:+ "Usage: `/add <solana_address> <wallet_name>`" +:+ Text.nl +:+ Text.nl
  +:+ "*Example:*" +:+ Text.nl
  +:+ "`/add 9xQeWvG816bUx9EPpV9wYJqM8N9ZJmRkXkG3E6ZP8hX MyWallet`"
  +:+ Text.nl +:+ Text.nl
  +:+ "*Note:* Max 10 wallets per user".

Definition remove_usage : string :=
  "🗑️ *Remove a Wallet*" +:+ Text.nl +:+ Text.nl
  +:+ "Usage: `/remove <wallet_name>`" +:+ Text.nl
  +:+ "or: `/remove <partial_address>`" +:+ Text.nl +:+ Text.nl
  +:+ "*Example:* `/remove MyWallet`".

(** [add_command], with [context.args] as [args]. *)
Definition add_command (update : Update) (args : list string) : M unit :=
  let user_id := effective_user_id update in
  match args with
  | address :: n :: names =>
      let name := join_space (n :: names) in
      r <- add_wallet W user_id address name ;;
      reply_text W update (snd r)
  | _ => (* len(context.args) < 2 *)
      reply_text W update add_usage
  end.

(** [remove_command] *)
Definition remove_command (update : Update) (args : list string) : M unit :=
  let user_id := effective_user_id update in
  match args with
  | [] => reply_text W update remove_usage
  | _ :: _ =>
      let identifier := join_space args in
      r <- remove_wallet W user_id identifier ;;
      reply_text W update (snd r)
  end.

(** What reaches the bot: a command of a user with its arguments, or the
    tick of the job queue that runs [auto_monitor]. *)
Inductive request : Type :=
| Add (update : Update) (args : list string)
| Remove (update : Update) (args : list string)
| Check (update : Update)
| Monitor.

Definition handle (r : request) : M unit :=
  match r with
  | Add update args => add_command update args
  | Remove update args => remove_command update args
  | Check update => check_command W update
  | Monitor => auto_monitor W
  end.

(** The state after a request; a handler that raises leaves the state it
    had reached. *)
Definition after_requests (rs : list request) (st : State) : State :=
  fold_left (fun st r => snd (handle r st)) rs st.

End Commands.

(** Memory and files of [st'] agree if those of [st] did. *)
Definition durable (st st' : State) : Prop := persisted st -> persisted st'.

(** No alert was found, so nothing was written. *)
Definition quiet_if_empty (st st' : State) (new : list alert) : Prop :=
  new = [] -> same_memory st st'.

(** ** Notions about who is written to *)

(** An event that is no message, or a message to [chat]. *)
Definition to_chat (chat : Z) (e : event) : Prop :=
  match e with
  | EvSend c _ _ => c = chat
  | _ => True
  end.

(** From [st] to [st'] the trace has grown by events that satisfy [P]. *)
Definition trace_grows (P : event -> Prop) (st st' : State) : Prop :=
  exists delta, trace st' = trace st ++ delta /\ Forall P delta.

(** The text [format_alert] makes of an alert. *)
Definition alert_text (W : World) (al : alert) : string :=
  format_alert W (fst (fst al)) (snd (fst al)) (snd al).

(** ** Notions about a pass of [auto_monitor] *)

(** The channel never answers with an error of the unreachable class. *)
Definition never_unreachable (W : World) : Prop :=
  forall i chat text msg,
    telegram W i chat text = Some msg -> is_unreachable (TelegramError msg) = false.

(** The records of [address] were requested. *)
Definition fetched_in (address : string) (evs : list event) : Prop :=
  exists r, In (EvFetch address 5 r) evs.

(** Every address of every tenant of [items] whose key reads as a number
    was requested. *)
Definition all_fetched (items : dict user) (evs : list event) : Prop :=
  forall k u address,
    In (k, u) items -> Text.py_int k <> None ->
    In address (dict_keys (wallets u)) -> fetched_in address evs.

(** ** Notions about the keys of the cache *)

(** Every key of the cache of [st'] was in the cache of [st] or is the key
    of one of the alerts. *)
Definition only_alert_keys (uid : string) (st st' : State) (new : list alert) : Prop :=
  forall k, is_Some (tx_cache st' !! k) ->
            is_Some (tx_cache st !! k) \/ In k (map (alert_key uid) new).

(** ** The shape of the database *)

(** A tenant is in order: at most 10 wallets under distinct addresses, no
    negative count, and an alert count that is at least the sum of the
    counts of the wallets it still tracks. *)
Definition user_ok (ku : string * user) : Prop :=
  (length (wallets (snd ku)) <= 10)%nat /\
  List.NoDup (dict_keys (wallets (snd ku))) /\
  Forall (fun aw : string * wallet => 0 <= tx_count (snd aw)) (wallets (snd ku)) /\
  total_tx_count (wallets (snd ku)) <= alert_count (snd ku).

(** The database is in order: distinct tenant keys, every tenant in
    order. *)
Definition well_formed (st : State) : Prop :=
  List.NoDup (dict_keys (users st)) /\ Forall user_ok (users st).

(** [st'] is in order if [st] was. *)
Definition keeps_order (st st' : State) : Prop := well_formed st -> well_formed st'.

(** ** The cache across requests *)

(** Every entry of the cache of [st] is in the cache of [st'], unchanged. *)
Definition cache_grows (st st' : State) : Prop := tx_cache st ⊆ tx_cache st'.
(** ** Dictionary lemmas *)

Section DictFacts.
Context {V : Type}.
Implicit Types (d : dict V) (k : string) (v : V).

Lemma dict_get_set_eq k v d : dict_get k (dict_set k v d) = Some v.
Proof.
  induction d as [|[k' v'] d IH]; simpl.
  - destruct (decide (k = k)); congruence.
  - destruct (decide (k = k')) as [->|Hne]; simpl.
    + destruct (decide (k' = k')); congruence.
    + destruct (decide (k = k')); [contradiction|exact IH].
Qed.

Lemma dict_get_set_ne k k' v d :
  k <> k' -> dict_get k' (dict_set k v d) = dict_get k' d.
Proof.
  intros Hne. induction d as [|[k0 v0] d IH]; simpl.
  - destruct (decide (k' = k)); congruence.
  - destruct (decide (k = k0)) as [->|Hk]; simpl.
    + destruct (decide (k' = k0)); congruence.
    + destruct (decide (k' = k0)); congruence.
Qed.

Lemma dict_get_update_eq k f d :
  dict_get k (dict_update k f d) = option_map f (dict_get k d).
Proof.
  induction d as [|[k' v'] d IH]; simpl; [reflexivity|].
  destruct (decide (k = k')) as [->|Hne]; simpl.
  - destruct (decide (k' = k')); congruence.
  - destruct (decide (k = k')); [contradiction|exact IH].
Qed.

Lemma dict_get_update_ne k k' f d :
  k <> k' -> dict_get k' (dict_update k f d) = dict_get k' d.
Proof.
  intros Hne. induction d as [|[k0 v0] d IH]; simpl; [reflexivity|].
  destruct (decide (k = k0)) as [->|Hk]; simpl.
  - destruct (decide (k' = k0)); congruence.
  - destruct (decide (k' = k0)); congruence.
Qed.

Lemma dict_get_del_eq k d : dict_get k (dict_del k d) = None.
Proof.
  induction d as [|[k' v'] d IH]; simpl; [reflexivity|].
  destruct (decide (k = k')) as [->|Hne]; simpl; [exact IH|].
  destruct (decide (k = k')); [contradiction|exact IH].
Qed.

Lemma dict_get_del_ne k k' d :
  k <> k' -> dict_get k' (dict_del k d) = dict_get k' d.
Proof.
  intros Hne. induction d as [|[k0 v0] d IH]; simpl; [reflexivity|].
  destruct (decide (k = k0)) as [->|Hk]; simpl.
  - destruct (decide (k' = k0)); congruence.
  - destruct (decide (k' = k0)); congruence.
Qed.

Lemma dict_get_None_keys k d : dict_get k d = None <-> ~ In k (dict_keys d).
Proof.
  unfold dict_keys. induction d as [|[k' v'] d IH]; simpl; [tauto|].
  destruct (decide (k = k')) as [->|Hne].
  - split; [discriminate|]. intros H. exfalso. apply H. now left.
  - rewrite IH. split; intros H; [intros [Heq|Hin]; [congruence|tauto]|tauto].
Qed.

Lemma dict_get_In k v d : dict_get k d = Some v -> In (k, v) d.
Proof.
  induction d as [|[k' v'] d IH]; simpl; [discriminate|].
  destruct (decide (k = k')) as [->|Hne]; [intros [= ->]; now left|auto].
Qed.

Lemma dict_keys_update k f d : dict_keys (dict_update k f d) = dict_keys d.
Proof.
  unfold dict_keys. induction d as [|[k' v'] d IH]; simpl; [reflexivity|].
  destruct (decide (k = k')); simpl; [reflexivity|]. f_equal. exact IH.
Qed.

Lemma length_dict_update k f d : length (dict_update k f d) = length d.
Proof.
  rewrite <- (length_map fst (dict_update k f d)), <- (length_map fst d).
  f_equal. apply dict_keys_update.
Qed.

Lemma length_dict_set_new k v d :
  dict_get k d = None -> length (dict_set k v d) = S (length d).
Proof.
  induction d as [|[k' v'] d IH]; simpl; [reflexivity|].
  destruct (decide (k = k')); [discriminate|]. intros H. simpl. now rewrite IH.
Qed.

Lemma length_dict_del k d : (length (dict_del k d) <= length d)%nat.
Proof.
  induction d as [|[k' v'] d IH]; simpl; [lia|].
  destruct (decide (k = k')); simpl; lia.
Qed.

(** Deleting a key that occurs nowhere is the identity. *)
Lemma dict_del_absent k d : ~ In k (dict_keys d) -> dict_del k d = d.
Proof.
  unfold dict_keys. induction d as [|[k' v'] d IH]; simpl; [reflexivity|].
  intros H. destruct (decide (k = k')) as [->|Hne]; [tauto|].
  f_equal. apply IH. tauto.
Qed.

(** With distinct keys, deletion takes out exactly the entry of the key. *)
Lemma dict_del_middle k v (l1 l2 : dict V) :
  List.NoDup (dict_keys (l1 ++ (k, v) :: l2)) ->
  dict_del k (l1 ++ (k, v) :: l2) = l1 ++ l2.
Proof.
  unfold dict_keys. rewrite map_app. simpl. intros Hnd.
  apply List.NoDup_remove_2 in Hnd. rewrite in_app_iff in Hnd.
  induction l1 as [|[k' v'] l1 IH]; simpl in *.
  - destruct (decide (k = k)); [|congruence]. apply dict_del_absent. tauto.
  - destruct (decide (k = k')) as [->|Hne]; [tauto|]. f_equal. apply IH. tauto.
Qed.

Lemma Forall_dict_set (P : string * V -> Prop) k v d :
  Forall P d -> P (k, v) -> Forall P (dict_set k v d).
Proof.
  intros Hd Hv. induction Hd as [|[k' v'] d Hx Hd IH]; simpl.
  - now repeat constructor.
  - destruct (decide (k = k')); constructor; auto.
Qed.

Lemma Forall_dict_del (P : string * V -> Prop) k d :
  Forall P d -> Forall P (dict_del k d).
Proof.
  intros Hd. induction Hd as [|[k' v'] d Hx Hd IH]; simpl; [constructor|].
  destruct (decide (k = k')); [exact IH|now constructor].
Qed.

Lemma Forall_dict_update (P : string * V -> Prop) k f d :
  Forall P d ->
  (forall v, dict_get k d = Some v -> P (k, v) -> P (k, f v)) ->
  Forall P (dict_update k f d).
Proof.
  intros Hd. induction Hd as [|[k' v'] d Hx Hd IH]; simpl; intros Hf; [constructor|].
  destruct (decide (k = k')) as [->|Hne].
  - constructor; [|exact Hd]. apply Hf; [reflexivity|exact Hx].
  - constructor; [exact Hx|]. apply IH. exact Hf.
Qed.

End DictFacts.

(** ** The subscription store *)

Ltac mrun :=
  unfold bind, ret, raise, modify, get_state, try_except, now, tick, save_data,
    emit, print, sleep, set_trace, set_users, set_tx_cache in *; cbn in *.

Section StoreFacts.
Variable W : World.

Lemma get_user_old uid st u :
  dict_get (Text.str uid) (users st) = Some u ->
  get_user W uid st = (Ok u, st).
Proof. intros H. unfold get_user. mrun. now rewrite H. Qed.

Lemma get_user_new uid st :
  dict_get (Text.str uid) (users st) = None ->
  get_user W uid st =
    (let u := User [] (isoformat W (clock W (ticks st))) 0 in
     let us := dict_set (Text.str uid) u (users st) in
     (Ok u, mkState us (tx_cache st) us (tx_cache st) (S (ticks st)) (trace st))).
Proof. intros H. unfold get_user. mrun. now rewrite H. Qed.

(** [get_user] never raises; it returns the stored object, creating and
    persisting an empty one for a tenant it has not seen. *)
Lemma get_user_cases uid st :
  exists u st',
    get_user W uid st = (Ok u, st') /\
    dict_get (Text.str uid) (users st') = Some u /\
    wallets u = wallets_of (Text.str uid) st /\
    tx_cache st' = tx_cache st /\ trace st' = trace st /\
    (forall k, k <> Text.str uid -> dict_get k (users st') = dict_get k (users st)) /\
    (quota_ok st -> quota_ok st') /\
    (st' = st \/ persisted st').
Proof.
  unfold wallets_of, quota_ok.
  destruct (dict_get (Text.str uid) (users st)) as [u|] eqn:E.
  - exists u, st. rewrite (get_user_old _ _ _ E). rewrite E. auto 10.
  - eexists _, _. rewrite (get_user_new _ _ E).
    split; [reflexivity|]. cbn. rewrite dict_get_set_eq.
    repeat split; auto.
    + intros k Hk. apply dict_get_set_ne. congruence.
    + intros H. apply Forall_dict_set; [exact H|simpl; lia].
    + right. split; reflexivity.
Qed.

Lemma wallets_of_after_write uid f st u :
  dict_get (Text.str uid) (users st) = Some u ->
  wallets_of (Text.str uid) (after_write uid f st) = f (wallets u).
Proof.
  intros H. unfold wallets_of, after_write. cbn.
  now rewrite dict_get_update_eq, H.
Qed.

Lemma quota_after_write uid f st :
  quota_ok st ->
  (forall u, dict_get (Text.str uid) (users st) = Some u ->
             (length (f (wallets u)) <= 10)%nat) ->
  quota_ok (after_write uid f st).
Proof.
  unfold quota_ok, after_write. cbn. intros Hq Hf.
  apply Forall_dict_update; [exact Hq|]. intros v Hv _. cbn. now apply Hf.
Qed.

Lemma add_wallet_run uid address name st u st1 :
  get_user W uid st = (Ok u, st1) ->
  add_wallet W uid address name st =
    if (10 <=? length (wallets u))%nat then
      (Ok (false, "❌ Maximum 10 wallets reached"), st1)
    else if dict_mem address (wallets u) then
      (Ok (false, "❌ This wallet is already tracked"), st1)
    else
      (Ok (true, "✅ *" +:+ name +:+ "* is now being tracked!"),
       after_write uid
         (dict_set address
            (Wallet (Text.slice_to 20 name)
                    (isoformat W (clock W (ticks st1))) None 0))
         (mkState (users st1) (tx_cache st1) (db_file st1) (cache_file st1)
                  (S (ticks st1)) (trace st1))).
Proof.
  intros H. unfold add_wallet, bind. rewrite H.
  destruct (10 <=? length (wallets u))%nat; [reflexivity|].
  destruct (dict_mem address (wallets u)); reflexivity.
Qed.

Lemma remove_wallet_run uid identifier st u st1 :
  get_user W uid st = (Ok u, st1) ->
  remove_wallet W uid identifier st =
    match dict_get identifier (wallets u) with
    | Some data =>
        (Ok (true, "✅ Removed *" +:+ name data +:+ "*"),
         after_write uid (dict_del identifier) st1)
    | None =>
        match find (name_matches W identifier) (wallets u) with
        | Some (addr, data) =>
            (Ok (true, "✅ Removed *" +:+ name data +:+ "*"),
             after_write uid (dict_del addr) st1)
        | None => (Ok (false, "❌ Wallet not found"), st1)
        end
    end.
Proof.
  intros H. unfold remove_wallet, bind. rewrite H.
  destruct (dict_get identifier (wallets u)); [reflexivity|].
  destruct (find (name_matches W identifier) (wallets u)) as [[addr data]|];
    reflexivity.
Qed.

Lemma add_wallet_quota uid address name st :
  quota_ok st -> quota_ok (snd (add_wallet W uid address name st)).
Proof.
  intros Hq.
  destruct (get_user_cases uid st) as (u & st1 & Hg & Hu & _ & _ & _ & _ & Hq1 & _).
  rewrite (add_wallet_run _ _ _ _ _ _ Hg).
  destruct (10 <=? length (wallets u))%nat eqn:Hlen; [now apply Hq1|].
  destruct (dict_mem address (wallets u)) eqn:Hmem; [now apply Hq1|].
  cbn [snd]. apply quota_after_write; [now apply Hq1|].
  cbn. intros u' Hu'. rewrite Hu in Hu'. injection Hu' as <-.
  unfold dict_mem in Hmem.
  destruct (dict_get address (wallets u)) eqn:E; [discriminate|].
  rewrite (length_dict_set_new _ _ _ E).
  apply Nat.leb_gt in Hlen. lia.
Qed.

Lemma remove_wallet_quota uid identifier st :
  quota_ok st -> quota_ok (snd (remove_wallet W uid identifier st)).
Proof.
  intros Hq.
  destruct (get_user_cases uid st) as (u & st1 & Hg & Hu & _ & _ & _ & _ & Hq1 & _).
  specialize (Hq1 Hq).
  assert (Hdel : forall a, quota_ok (after_write uid (dict_del a) st1)).
  { intros a. apply quota_after_write; [exact Hq1|].
    intros u' Hu'. pose proof (length_dict_del a (wallets u')) as Hl.
    unfold quota_ok in Hq1. rewrite List.Forall_forall in Hq1.
    specialize (Hq1 _ (dict_get_In _ _ _ Hu')). cbn in Hq1. lia. }
  rewrite (remove_wallet_run _ _ _ _ _ Hg).
  destruct (dict_get identifier (wallets u)); [apply Hdel|].
  destruct (find (name_matches W identifier) (wallets u)) as [[addr data]|];
    [apply Hdel|exact Hq1].
Qed.

Lemma run_op_quota o st : quota_ok st -> quota_ok (run_op W o st).
Proof.
  destruct o as [uid|uid address name|uid identifier]; unfold run_op.
  - destruct (get_user_cases uid st) as (u & st1 & Hg & _ & _ & _ & _ & _ & Hq1 & _).
    rewrite Hg. exact Hq1.
  - apply add_wallet_quota.
  - apply remove_wallet_quota.
Qed.

End StoreFacts.

(** *** Properties of the store *)

Lemma find_first {A} (f : A -> bool) (l1 l2 : list A) (x : A) :
  Forall (fun y => f y = false) l1 -> f x = true ->
  find f (l1 ++ x :: l2) = Some x.
Proof.
  intros H Hx. induction H as [|y l1 Hy _ IH]; simpl.
  - now rewrite Hx.
  - now rewrite Hy.
Qed.

Lemma find_absent {A} (f : A -> bool) (l : list A) :
  Forall (fun y => f y = false) l -> find f l = None.
Proof.
  intros H. induction H as [|y l Hy _ IH]; simpl; [reflexivity|now rewrite Hy].
Qed.

Lemma dict_get_of_In {V} (k : string) (v : V) (d : dict V) :
  List.NoDup (dict_keys d) -> In (k, v) d -> dict_get k d = Some v.
Proof.
  induction d as [|[k' v'] d IH]; cbn; [tauto|].
  intros Hnd Hin. apply List.NoDup_cons_iff in Hnd as [Hk Hnd].
  destruct (decide (k = k')) as [->|Hne].
  - destruct Hin as [[= ->]|Hin]; [reflexivity|].
    exfalso. apply Hk. apply (in_map fst) in Hin. exact Hin.
  - destruct Hin as [[= Heq _]|Hin]; [congruence|now apply IH].
Qed.

Lemma name_matches_false (W : World) identifier (l : dict wallet) :
  Forall (fun aw => str_lower W (name (snd aw)) <> str_lower W identifier) l ->
  Forall (fun aw => name_matches W identifier aw = false) l.
Proof.
  apply List.Forall_impl. intros aw H. unfold name_matches.
  now apply bool_decide_eq_false.
Qed.

(** C2.  Starting within the quota, any sequence of [get_user], [add_wallet]
    and [remove_wallet] calls leaves every tenant with at most 10 wallets;
    and in the state reached, [add_wallet] for a tenant that holds 10
    wallets returns [False] with the maximum-reached message and changes
    nothing at all. *)
Theorem quota_never_exceeded (W : World) (ops : list store_op) (st0 : State) :
  quota_ok st0 ->
  let st := run_ops W ops st0 in
  quota_ok st /\
  (forall user_id u address name,
      dict_get (Text.str user_id) (users st) = Some u ->
      length (wallets u) = 10%nat ->
      add_wallet W user_id address name st
      = (Ok (false, "❌ Maximum 10 wallets reached"), st)).
Proof.
  intros H0 st. split.
  - subst st. revert st0 H0. induction ops as [|o ops IH]; intros st0 H0; cbn.
    + exact H0.
    + apply IH. now apply run_op_quota.
  - intros uid u address nm Hu Hlen.
    rewrite (add_wallet_run W uid address nm st u st (get_user_old W uid st u Hu)).
    now rewrite Hlen.
Qed.

Lemma quota_never_exceeded_witness :
  quota_ok Examples.full_state /\
  let st := run_ops Examples.idle_world
              [OpAddWallet 7 "ADDR10" "eleventh"; OpGetUser 7] Examples.full_state in
  quota_ok st /\
  add_wallet Examples.idle_world 7 "ADDR11" "twelfth" st
  = (Ok (false, "❌ Maximum 10 wallets reached"), st).
Proof.
  assert (H0 : quota_ok Examples.full_state).
  { unfold quota_ok. repeat constructor. }
  split; [exact H0|].
  pose proof (quota_never_exceeded Examples.idle_world
                [OpAddWallet 7 "ADDR10" "eleventh"; OpGetUser 7]
                Examples.full_state H0) as [Hq Hfull].
  split; [exact Hq|].
  apply (Hfull 7 (User Examples.ten_wallets Examples.stamp 0)); reflexivity.
Defined.

Lemma dict_get_Some_keys {V} (k : string) (v : V) (d : dict V) :
  dict_get k d = Some v -> In k (dict_keys d).
Proof.
  intros H. apply dict_get_In in H. unfold dict_keys.
  exact (in_map fst _ _ H).
Qed.

(** With distinct keys, deleting a key that is there takes out one entry. *)
Lemma length_dict_del_NoDup {V} (k : string) (d : dict V) :
  In k (dict_keys d) -> List.NoDup (dict_keys d) ->
  S (length (dict_del k d)) = length d.
Proof.
  induction d as [|[k' v'] d IH]; [intros []|].
  intros Hin Hnd. unfold dict_keys in Hin, Hnd. cbn [map fst] in Hin, Hnd.
  apply List.NoDup_cons_iff in Hnd as [Hk Hnd].
  cbn [dict_del]. destruct (decide (k = k')) as [->|Hne].
  - now rewrite (dict_del_absent _ _ Hk).
  - destruct Hin as [Heq|Hin]; [congruence|].
    cbn [length]. f_equal. now apply IH.
Qed.

(** The three outcomes of [remove_wallet]. *)
Lemma remove_wallet_cases (W : World) (st : State) (user_id : Z)
    (identifier : string) :
  let ws := wallets_of (Text.str user_id) st in
  let r := remove_wallet W user_id identifier st in
  (forall data,
      dict_get identifier ws = Some data ->
      fst r = Ok (true, "✅ Removed *" +:+ name data +:+ "*") /\
      wallets_of (Text.str user_id) (snd r) = dict_del identifier ws /\
      persisted (snd r)) /\
  (forall l1 addr data l2,
      ~ In identifier (dict_keys ws) ->
      ws = l1 ++ (addr, data) :: l2 ->
      Forall (fun aw => str_lower W (name (snd aw)) <> str_lower W identifier) l1 ->
      str_lower W (name data) = str_lower W identifier ->
      fst r = Ok (true, "✅ Removed *" +:+ name data +:+ "*") /\
      wallets_of (Text.str user_id) (snd r) = dict_del addr ws /\
      persisted (snd r)) /\
  (~ In identifier (dict_keys ws) ->
   Forall (fun aw => str_lower W (name (snd aw)) <> str_lower W identifier) ws ->
   fst r = Ok (false, "❌ Wallet not found") /\
   wallets_of (Text.str user_id) (snd r) = ws).
Proof.
  intros ws r.
  destruct (get_user_cases W user_id st)
    as (u & st1 & Hg & Hu & Hws & _ & _ & _ & _ & _).
  fold ws in Hws. subst r.
  rewrite (remove_wallet_run W _ _ _ _ _ Hg), Hws.
  assert (Hdel : forall a,
             wallets_of (Text.str user_id) (after_write user_id (dict_del a) st1)
             = dict_del a ws /\
             persisted (after_write user_id (dict_del a) st1)).
  { intros a. rewrite (wallets_of_after_write _ _ _ _ Hu), Hws.
    split; [reflexivity|]. split; reflexivity. }
  split; [|split].
  - intros data Hd. rewrite Hd. cbn [fst snd].
    split; [reflexivity|apply Hdel].
  - intros l1 addr data l2 Hk Hsplit Hl1 Hm.
    apply dict_get_None_keys in Hk. rewrite Hk.
    assert (Hfind : find (name_matches W identifier) ws = Some (addr, data)).
    { rewrite Hsplit. apply find_first; [now apply name_matches_false|].
      unfold name_matches. now apply bool_decide_eq_true. }
    rewrite Hfind. cbn [fst snd]. split; [reflexivity|apply Hdel].
  - intros Hk Hall.
    apply dict_get_None_keys in Hk. rewrite Hk.
    rewrite (find_absent _ ws) by now apply name_matches_false.
    cbn [fst snd]. split; [reflexivity|].
    unfold wallets_of. now rewrite Hu.
Qed.

(** C9.  [remove_wallet] looks the identifier up as an address first: a
    wallet stored under it is the one removed, whatever the display names
    are.  Otherwise the first wallet whose display name equals the identifier
    up to case is removed.  After a removal the address is no longer among
    the tenant's wallets, there is one wallet less, every other address has
    the entry it had, and the files hold the result.  When neither an
    address nor a name matches, the call returns [False] with the not-found
    message and the tenant's wallets are what they were. *)
Theorem remove_wallet_matching (W : World) (st : State) (user_id : Z)
    (identifier : string) :
  let ws := wallets_of (Text.str user_id) st in
  let r := remove_wallet W user_id identifier st in
  let ws' := wallets_of (Text.str user_id) (snd r) in
  (forall data,
      dict_get identifier ws = Some data ->
      fst r = Ok (true, "✅ Removed *" +:+ name data +:+ "*") /\
      ws' = dict_del identifier ws /\
      dict_get identifier ws' = None /\
      (forall a, a <> identifier -> dict_get a ws' = dict_get a ws) /\
      (List.NoDup (dict_keys ws) -> S (length ws') = length ws) /\
      persisted (snd r)) /\
  (forall l1 addr data l2,
      ~ In identifier (dict_keys ws) ->
      ws = l1 ++ (addr, data) :: l2 ->
      Forall (fun aw => str_lower W (name (snd aw)) <> str_lower W identifier) l1 ->
      str_lower W (name data) = str_lower W identifier ->
      fst r = Ok (true, "✅ Removed *" +:+ name data +:+ "*") /\
      ws' = dict_del addr ws /\
      dict_get addr ws' = None /\
      (forall a, a <> addr -> dict_get a ws' = dict_get a ws) /\
      (List.NoDup (dict_keys ws) -> S (length ws') = length ws) /\
      persisted (snd r)) /\
  (~ In identifier (dict_keys ws) ->
   Forall (fun aw => str_lower W (name (snd aw)) <> str_lower W identifier) ws ->
   fst r = Ok (false, "❌ Wallet not found") /\
   ws' = ws).
Proof.
  intros ws r ws'.
  destruct (remove_wallet_cases W st user_id identifier) as (Ha & Hb & Hc).
  fold ws in Ha, Hb, Hc. fold r in Ha, Hb, Hc. fold ws' in Ha, Hb, Hc.
  assert (Hgone : forall a, In a (dict_keys ws) -> ws' = dict_del a ws ->
            dict_get a ws' = None /\
            (forall a', a' <> a -> dict_get a' ws' = dict_get a' ws) /\
            (List.NoDup (dict_keys ws) -> S (length ws') = length ws)).
  { intros a Hin ->. split; [apply dict_get_del_eq|].
    split; [intros a' Hne; apply dict_get_del_ne; congruence|].
    intros Hnd. now apply length_dict_del_NoDup. }
  split; [|split].
  - intros data Hd. destruct (Ha data Hd) as (H1 & H2 & H3).
    destruct (Hgone identifier) as (H4 & H5 & H6);
      [exact (dict_get_Some_keys _ _ _ Hd)|exact H2|]. auto 10.
  - intros l1 addr data l2 Hk Hsplit Hl1 Hm.
    destruct (Hb l1 addr data l2 Hk Hsplit Hl1 Hm) as (H1 & H2 & H3).
    destruct (Hgone addr) as (H4 & H5 & H6); [|exact H2|auto 10].
    rewrite Hsplit. unfold dict_keys. rewrite map_app. apply in_or_app.
    right. now left.
  - exact Hc.
Qed.

Lemma remove_wallet_matching_witness :
  let W := Examples.idle_world in
  let st := Examples.twin_state in
  (fst (remove_wallet W 7 "Main" st) = Ok (true, "✅ Removed *Other*") /\
   wallets_of "7" (snd (remove_wallet W 7 "Main" st))
   = [("ADDR1", Examples.wallet_named "Main");
      ("ADDR2", Examples.wallet_named "MAIN")] /\
   persisted (snd (remove_wallet W 7 "Main" st))) /\
  (fst (remove_wallet W 7 "main" st) = Ok (true, "✅ Removed *Main*") /\
   wallets_of "7" (snd (remove_wallet W 7 "main" st))
   = [("ADDR2", Examples.wallet_named "MAIN");
      ("Main", Examples.wallet_named "Other")] /\
   dict_get "ADDR1" (wallets_of "7" (snd (remove_wallet W 7 "main" st))) = None /\
   persisted (snd (remove_wallet W 7 "main" st))) /\
  (fst (remove_wallet W 7 "Savings" st) = Ok (false, "❌ Wallet not found") /\
   wallets_of "7" (snd (remove_wallet W 7 "Savings" st)) = Examples.twins) /\
  (fst (remove_wallet W 7 "ÉPARGNE" Examples.savings_state)
   = Ok (true, "✅ Removed *Épargne*") /\
   wallets_of "7" (snd (remove_wallet W 7 "ÉPARGNE" Examples.savings_state))
   = [("ADDR2", Examples.wallet_named "épargne")]).
Proof.
  intros W st. split; [|split; [|split]].
  - destruct (remove_wallet_matching W st 7 "Main") as (Ha & _ & _).
    destruct (Ha (Examples.wallet_named "Other")) as (H1 & H2 & _ & _ & _ & H6);
      [reflexivity|].
    split; [exact H1|]. split; [exact H2|exact H6].
  - destruct (remove_wallet_matching W st 7 "main") as (_ & Hb & _).
    destruct (Hb [] "ADDR1" (Examples.wallet_named "Main")
                [("ADDR2", Examples.wallet_named "MAIN");
                 ("Main", Examples.wallet_named "Other")])
      as (H1 & H2 & H3 & _ & _ & H6).
    + cbn. intros [H|[H|[H|[]]]]; discriminate H.
    + reflexivity.
    + constructor.
    + reflexivity.
    + split; [exact H1|]. split; [exact H2|]. split; [exact H3|exact H6].
  - destruct (remove_wallet_matching W st 7 "Savings") as (_ & _ & Hc).
    apply Hc.
    + cbn. intros [H|[H|[H|[]]]]; discriminate H.
    + repeat constructor; vm_compute; discriminate.
  - destruct (remove_wallet_matching W Examples.savings_state 7 "ÉPARGNE")
      as (_ & Hb & _).
    destruct (Hb [] "ADDR1" (Examples.wallet_named "Épargne")
                [("ADDR2", Examples.wallet_named "épargne")])
      as (H1 & H2 & _).
    + cbn. intros [H|[H|[]]]; discriminate H.
    + reflexivity.
    + constructor.
    + reflexivity.
    + split; [exact H1|exact H2].
Defined.

(** C10.  When no address equals the identifier and several wallets carry
    the name (up to case), [remove_wallet] succeeds and removes exactly the
    first of them in insertion order: the wallets before it and all the
    wallets after it, the other bearers of the name among them, stay. *)
Theorem remove_by_name_takes_first (W : World) (st : State) (user_id : Z)
    (identifier : string) (l1 l2 : dict wallet) (addr : string) (data : wallet) :
  wallets_of (Text.str user_id) st = l1 ++ (addr, data) :: l2 ->
  List.NoDup (dict_keys (l1 ++ (addr, data) :: l2)) ->
  ~ In identifier (dict_keys (l1 ++ (addr, data) :: l2)) ->
  Forall (fun aw => str_lower W (name (snd aw)) <> str_lower W identifier) l1 ->
  str_lower W (name data) = str_lower W identifier ->
  let r := remove_wallet W user_id identifier st in
  fst r = Ok (true, "✅ Removed *" +:+ name data +:+ "*") /\
  wallets_of (Text.str user_id) (snd r) = l1 ++ l2 /\
  (forall a2 d2, In (a2, d2) l2 ->
                 str_lower W (name d2) = str_lower W identifier ->
                 dict_get a2 (wallets_of (Text.str user_id) (snd r)) = Some d2).
Proof.
  intros Hws Hnd Hk Hl1 Hm r.
  destruct (remove_wallet_cases W st user_id identifier) as (_ & Hb & _).
  rewrite Hws in Hb.
  destruct (Hb l1 addr data l2 Hk eq_refl Hl1 Hm) as (H1 & H2 & _).
  rewrite (dict_del_middle _ _ _ _ Hnd) in H2.
  split; [exact H1|]. split; [exact H2|].
  intros a2 d2 Hin _. subst r. rewrite H2.
  apply dict_get_of_In.
  - unfold dict_keys in *. rewrite map_app in *. cbn in Hnd.
    apply List.NoDup_remove_1 in Hnd. exact Hnd.
  - apply in_or_app. now right.
Qed.

Lemma remove_by_name_takes_first_witness :
  let W := Examples.idle_world in
  let r := remove_wallet W 7 "main" Examples.twin_state in
  let r' := remove_wallet W 7 "épargne" Examples.savings_state in
  (fst r = Ok (true, "✅ Removed *Main*") /\
   wallets_of "7" (snd r)
   = [("ADDR2", Examples.wallet_named "MAIN");
      ("Main", Examples.wallet_named "Other")] /\
   dict_get "ADDR2" (wallets_of "7" (snd r)) = Some (Examples.wallet_named "MAIN")) /\
  (fst r' = Ok (true, "✅ Removed *Épargne*") /\
   wallets_of "7" (snd r') = [("ADDR2", Examples.wallet_named "épargne")] /\
   dict_get "ADDR2" (wallets_of "7" (snd r'))
   = Some (Examples.wallet_named "épargne")).
Proof.
  intros W r r'. split.
  - destruct (remove_by_name_takes_first W Examples.twin_state 7
                "main" []
                [("ADDR2", Examples.wallet_named "MAIN");
                 ("Main", Examples.wallet_named "Other")]
                "ADDR1" (Examples.wallet_named "Main")) as (H1 & H2 & H3).
    + reflexivity.
    + repeat constructor; cbn; intuition discriminate.
    + cbn. intros [H|[H|[H|[]]]]; discriminate H.
    + constructor.
    + reflexivity.
    + split; [exact H1|]. split; [exact H2|].
      apply H3; [now left|reflexivity].
  - destruct (remove_by_name_takes_first W Examples.savings_state 7
                "épargne" [] [("ADDR2", Examples.wallet_named "épargne")]
                "ADDR1" (Examples.wallet_named "Épargne")) as (H1 & H2 & H3).
    + reflexivity.
    + repeat constructor; cbn; intuition discriminate.
    + cbn. intros [H|[H|[]]]; discriminate H.
    + constructor.
    + reflexivity.
    + split; [exact H1|]. split; [exact H2|].
      apply H3; [now left|reflexivity].
Defined.

(** ** Loops *)

(** A loop whose body never raises never raises, and an invariant of the
    items done so far holds of all of them at the end. *)
Lemma foldM_invariant {A B} (body : B -> A -> M B)
    (Inv : list A -> B -> State -> Prop) (l : list A) :
  (forall done x rest acc st,
      l = done ++ x :: rest -> Inv done acc st ->
      exists acc' st', body acc x st = (Ok acc', st') /\ Inv (done ++ [x]) acc' st') ->
  forall acc st, Inv [] acc st ->
  exists acc' st', foldM body l acc st = (Ok acc', st') /\ Inv l acc' st'.
Proof.
  intros Hbody.
  assert (Hgen : forall rest done acc st,
             l = done ++ rest -> Inv done acc st ->
             exists acc' st', foldM body rest acc st = (Ok acc', st')
                              /\ Inv (done ++ rest) acc' st').
  { induction rest as [|x rest IH]; intros done acc st Hl Hinv.
    - exists acc, st. rewrite app_nil_r. split; [reflexivity|exact Hinv].
    - destruct (Hbody done x rest acc st Hl Hinv) as (acc1 & st1 & Hrun & Hinv1).
      destruct (IH (done ++ [x]) acc1 st1) as (acc2 & st2 & Hrun2 & Hinv2).
      + now rewrite <- app_assoc.
      + exact Hinv1.
      + exists acc2, st2. cbn. unfold bind. rewrite Hrun.
        split; [exact Hrun2|]. now rewrite <- app_assoc in Hinv2. }
  intros acc st Hinv. exact (Hgen l [] acc st eq_refl Hinv).
Qed.

(** ** The poll cycle *)

Section PollFacts.
Variable W : World.

Lemma fetch_transactions_run address limit st :
  let r := http_get W (ticks st) address limit in
  fetch_transactions W address limit st =
    (Ok (fetched r),
     mkState (users st) (tx_cache st) (db_file st) (cache_file st) (S (ticks st))
             (trace st ++ EvFetch address limit r ::
                match r with
                | HttpRaise msg => [EvPrint ("API Error: " +:+ msg)]
                | HttpReply _ _ => []
                end)).
Proof.
  intros r. unfold fetch_transactions. mrun. fold r.
  destruct r as [status body|msg]; mrun.
  - destruct (status =? 200); reflexivity.
  - now rewrite <- app_assoc.
Qed.

(** A record without identifier, or whose key is cached, changes nothing. *)
Lemma poll_tx_seen uid address wname acc t st :
  (forall s, tx_id_of t = Some s ->
             is_Some (tx_cache st !! cache_key uid address s)) ->
  poll_tx W uid address wname acc t st = (Ok acc, st).
Proof.
  unfold tx_id_of, poll_tx. intros H.
  destruct (signature t) as [s|]; [|reflexivity].
  destruct (decide (s = EmptyString)); [reflexivity|].
  mrun. destruct (H s eq_refl) as [ts ->]. reflexivity.
Qed.

(** A record whose key is not cached is entered into the cache, counted
    on its wallet and on the tenant, and appended to the result. *)
Lemma poll_tx_novel uid address wname acc t st s :
  tx_id_of t = Some s ->
  tx_cache st !! cache_key uid address s = None ->
  poll_tx W uid address wname acc t st =
    (Ok (acc ++ [(t, wname, address)]),
     mkState
       (dict_update uid bump_alert_count
          (dict_update uid
             (set_wallets (dict_update address
                (set_last_tx (isoformat W (clock W (S (ticks st)))))))
             (dict_update uid
                (set_wallets (dict_update address bump_tx_count)) (users st))))
       (<[cache_key uid address s := isoformat W (clock W (ticks st))]> (tx_cache st))
       (db_file st) (cache_file st) (S (S (ticks st))) (trace st)).
Proof.
  unfold tx_id_of, poll_tx. intros Hs Hk.
  destruct (signature t) as [s'|]; [|discriminate].
  destruct (decide (s' = EmptyString)); [discriminate|].
  injection Hs as ->. mrun. now rewrite Hk.
Qed.

End PollFacts.

Lemma poll_frame_refl uid st : poll_frame uid st st.
Proof.
  constructor; auto.
  - intros k Hk [v Hv]. congruence.
  - exists []. now rewrite app_nil_r.
Qed.

Lemma poll_frame_trans uid st1 st2 st3 :
  poll_frame uid st1 st2 -> poll_frame uid st2 st3 -> poll_frame uid st1 st3.
Proof.
  intros [A1 A2 A3 A4 A5 A6 A7 (e1 & A8 & A9)] [B1 B2 B3 B4 B5 B6 B7 (e2 & B8 & B9)].
  constructor; try congruence.
  - intros k Hk. rewrite B1, A1; auto.
  - now transitivity (tx_cache st2).
  - intros k Hk Hs. destruct (tx_cache st2 !! k) as [v|] eqn:E.
    + apply A5; [exact Hk|]. now exists v.
    + now apply B5.
  - exists (e1 ++ e2). rewrite B8, A8, <- app_assoc. split; [reflexivity|].
    apply Forall_app. now split.
Qed.

Lemma wallets_of_users uid st st' :
  users st' = users st -> wallets_of uid st' = wallets_of uid st.
Proof. unfold wallets_of. now intros ->. Qed.

Section PollFrame.
Variable W : World.

Lemma fetch_transactions_frame uid address limit st :
  poll_frame uid st (snd (fetch_transactions W address limit st)).
Proof.
  rewrite fetch_transactions_run. cbn.
  constructor; cbn; auto.
  - intros k Hk [v Hv]. congruence.
  - eexists. split; [reflexivity|].
    constructor; [exact I|]. destruct (http_get W (ticks st) address limit);
      repeat constructor.
Qed.

(** The two ways a record is handled. *)
Lemma poll_tx_cases uid address wname acc t st :
  (poll_tx W uid address wname acc t st = (Ok acc, st) /\
   forall s, tx_id_of t = Some s ->
             is_Some (tx_cache st !! cache_key uid address s))
  \/
  (exists s,
      tx_id_of t = Some s /\
      tx_cache st !! cache_key uid address s = None /\
      poll_tx W uid address wname acc t st =
      (Ok (acc ++ [(t, wname, address)]),
       mkState
         (dict_update uid bump_alert_count
            (dict_update uid
               (set_wallets (dict_update address
                  (set_last_tx (isoformat W (clock W (S (ticks st)))))))
               (dict_update uid
                  (set_wallets (dict_update address bump_tx_count)) (users st))))
         (<[cache_key uid address s := isoformat W (clock W (ticks st))]> (tx_cache st))
         (db_file st) (cache_file st) (S (S (ticks st))) (trace st))).
Proof.
  destruct (tx_id_of t) as [s|] eqn:Hid.
  - destruct (tx_cache st !! cache_key uid address s) as [ts|] eqn:Hk.
    + left. split.
      * apply poll_tx_seen. rewrite Hid. intros s' [= <-]. now exists ts.
      * intros s' [= <-]. now exists ts.
    + right. exists s. repeat split; [exact Hk|].
      now apply poll_tx_novel.
  - left. split; [|discriminate]. apply poll_tx_seen. rewrite Hid. discriminate.
Qed.

Lemma poll_tx_frame uid address wname acc t st :
  exists acc' st',
    poll_tx W uid address wname acc t st = (Ok acc', st') /\ poll_frame uid st st'.
Proof.
  destruct (poll_tx_cases uid address wname acc t st)
    as [[Hrun _]|(s & Hid & Hk & Hrun)]; rewrite Hrun.
  - eexists _, _. split; [reflexivity|apply poll_frame_refl].
  - eexists _, _. split; [reflexivity|].
    constructor; cbn.
    + intros k Hne. now rewrite !dict_get_update_ne by congruence.
    + now rewrite !dict_keys_update.
    + unfold wallets_of. cbn. rewrite !dict_get_update_eq.
      destruct (dict_get uid (users st)) as [u|]; cbn; [|reflexivity].
      now rewrite !dict_keys_update.
    + now apply insert_subseteq.
    + intros k Hnone [v Hv]. exists address, s.
      destruct (decide (cache_key uid address s = k)) as [<-|Hne]; [reflexivity|].
      rewrite lookup_insert_ne in Hv by exact Hne. congruence.
    + reflexivity.
    + reflexivity.
    + exists []. now rewrite app_nil_r.
Qed.

Lemma poll_txs_frame uid address wname txs acc st :
  exists acc' st',
    foldM (poll_tx W uid address wname) txs acc st = (Ok acc', st')
    /\ poll_frame uid st st'.
Proof.
  apply (foldM_invariant _ (fun _ _ st' => poll_frame uid st st')).
  - intros done x rest acc0 st0 _ Hf.
    destruct (poll_tx_frame uid address wname acc0 x st0) as (acc1 & st1 & Hrun & Hf1).
    exists acc1, st1. split; [exact Hrun|]. exact (poll_frame_trans _ _ _ _ Hf Hf1).
  - apply poll_frame_refl.
Qed.

Lemma poll_wallet_frame uid acc aw st :
  exists acc' st',
    poll_wallet W uid acc aw st = (Ok acc', st') /\ poll_frame uid st st'.
Proof.
  unfold poll_wallet, bind.
  pose proof (fetch_transactions_frame uid (fst aw) 5 st) as Hf.
  rewrite fetch_transactions_run in *. cbn [snd] in Hf.
  match goal with |- context [foldM ?b ?l ?a ?s] =>
    destruct (poll_txs_frame uid (fst aw) (name (snd aw)) l a s)
      as (acc1 & st1 & Hrun & Hf1) end.
  exists acc1, st1. split; [exact Hrun|]. exact (poll_frame_trans _ _ _ _ Hf Hf1).
Qed.

(** The poll cycle never raises and stays within its frame. *)
Lemma poll_frame_poll uid ws st :
  exists alerts st',
    poll W uid ws st = (Ok alerts, st') /\ poll_frame uid st st'.
Proof.
  apply (foldM_invariant _ (fun _ _ st' => poll_frame uid st st')).
  - intros done x rest acc0 st0 _ Hf.
    destruct (poll_wallet_frame uid acc0 x st0) as (acc1 & st1 & Hrun & Hf1).
    exists acc1, st1. split; [exact Hrun|]. exact (poll_frame_trans _ _ _ _ Hf Hf1).
  - apply poll_frame_refl.
Qed.

End PollFrame.

(** *** Two polls in a row *)

Lemma all_cached_grows W uid addrs st st' :
  tx_cache st ⊆ tx_cache st' -> all_cached W uid addrs st -> all_cached W uid addrs st'.
Proof.
  intros Hsub Hc address t s Ha Ht Hs.
  destruct (Hc address t s Ha Ht Hs) as [v Hv].
  exists v. exact (lookup_weaken _ _ _ _ Hv Hsub).
Qed.

Section PollTwice.
Variable W : World.
Hypothesis Hsteady : steady_source W.

(** After the inner loop every identified record of the list is cached. *)
Lemma poll_txs_cover uid address wname txs acc st :
  exists acc' st',
    foldM (poll_tx W uid address wname) txs acc st = (Ok acc', st') /\
    forall t s, In t txs -> tx_id_of t = Some s ->
                is_Some (tx_cache st' !! cache_key uid address s).
Proof.
  apply (foldM_invariant _
           (fun done _ st' =>
              forall t s, In t done -> tx_id_of t = Some s ->
                          is_Some (tx_cache st' !! cache_key uid address s))).
  - intros done x rest acc0 st0 _ Hinv.
    destruct (poll_tx_frame W uid address wname acc0 x st0)
      as (acc1 & st1 & Hrun & Hf).
    exists acc1, st1. split; [exact Hrun|].
    intros t s Hin Hs. apply in_app_or in Hin as [Hin|[<-|[]]].
    + destruct (Hinv t s Hin Hs) as [v Hv]. exists v.
      exact (lookup_weaken _ _ _ _ Hv (pf_cache_grows _ _ _ Hf)).
    + destruct (poll_tx_cases W uid address wname acc0 x st0)
        as [[Hrun' Hseen]|(s' & Hid & Hk & Hrun')];
        rewrite Hrun' in Hrun; injection Hrun as <- <-.
      * now apply Hseen.
      * assert (s' = s) as -> by congruence. cbn. rewrite lookup_insert_eq. now eexists.
  - intros t s [].
Qed.

Lemma poll_covers uid ws st :
  exists alerts st',
    poll W uid ws st = (Ok alerts, st') /\ all_cached W uid (dict_keys ws) st'.
Proof.
  apply (foldM_invariant _
           (fun done _ st' => all_cached W uid (dict_keys done) st')).
  - intros done aw rest acc0 st0 _ Hinv.
    destruct (poll_wallet_frame W uid acc0 aw st0) as (acc1 & st1 & Hrun & Hf).
    exists acc1, st1. split; [exact Hrun|].
    intros address t s Ha Ht Hs. unfold dict_keys in Ha.
    rewrite map_app in Ha. apply in_app_or in Ha as [Ha|[<-|[]]].
    + exact (all_cached_grows _ _ _ _ _ (pf_cache_grows _ _ _ Hf) Hinv _ _ _ Ha Ht Hs).
    + unfold poll_wallet, bind in Hrun. rewrite fetch_transactions_run in Hrun.
      match type of Hrun with foldM ?b ?l ?a ?s0 = _ =>
        destruct (poll_txs_cover uid (fst aw) (name (snd aw)) l a s0)
          as (acc2 & st2 & Hrun2 & Hcov) end.
      rewrite Hrun2 in Hrun. injection Hrun as <- <-.
      apply (Hcov t s); [|exact Hs].
      now rewrite (Hsteady (ticks st0) 0%nat).
  - intros address t s [].
Qed.

(** Records that are all cached leave the inner loop without effect. *)
Lemma poll_txs_seen uid address wname txs acc st :
  (forall t s, In t txs -> tx_id_of t = Some s ->
               is_Some (tx_cache st !! cache_key uid address s)) ->
  foldM (poll_tx W uid address wname) txs acc st = (Ok acc, st).
Proof.
  induction txs as [|t txs IH]; intros Hall; cbn; [reflexivity|].
  unfold bind. rewrite (poll_tx_seen W uid address wname acc t st).
  - apply IH. intros t' s Hin. apply Hall. now right.
  - intros s. apply Hall. now left.
Qed.

Lemma poll_seen uid ws st :
  all_cached W uid (dict_keys ws) st ->
  exists st', poll W uid ws st = (Ok [], st') /\
              same_db st st' /\
              exists evs, trace st' = trace st ++ evs /\ Forall fetch_event evs.
Proof.
  intros Hall.
  destruct (foldM_invariant (poll_wallet W uid)
              (fun _ acc st' =>
                 acc = [] /\ same_db st st' /\
                 exists evs, trace st' = trace st ++ evs /\ Forall fetch_event evs)
              ws) with (acc := @nil alert) (st := st)
    as (acc' & st' & Hrun & -> & Hdb & Hev).
  - intros done aw rest acc0 st0 Hws (-> & Hdb & evs & Htr & Hevs).
    unfold poll_wallet, bind. rewrite fetch_transactions_run.
    rewrite poll_txs_seen.
    + eexists _, _. split; [reflexivity|]. split; [reflexivity|].
      destruct Hdb as (H1 & H2 & H3 & H4).
      split; [repeat split; cbn; assumption|].
      cbn. eexists. rewrite Htr, <- app_assoc. split; [reflexivity|].
      apply Forall_app. split; [exact Hevs|].
      constructor; [exact I|].
      destruct (http_get W (ticks st0) (fst aw) 5); repeat constructor.
    + intros t s Hin Hs. cbn.
      destruct Hdb as (_ & -> & _).
      apply (Hall (fst aw) t s); [| |exact Hs].
      * rewrite Hws. unfold dict_keys. rewrite map_app. apply in_or_app.
        right. now left.
      * now rewrite <- (Hsteady (ticks st0) 0%nat).
  - split; [reflexivity|]. split; [repeat split|].
    exists []. now rewrite app_nil_r.
  - exists st'. now rewrite <- Hrun.
Qed.

End PollTwice.

(** ** Rules for relations between the state before and after *)

Section Preserves.
Variable R : State -> State -> Prop.
Hypothesis R_refl : forall st, R st st.
Hypothesis R_trans : forall st1 st2 st3, R st1 st2 -> R st2 st3 -> R st1 st3.

Lemma preserves_ret {A} (a : A) : preserves R (ret a).
Proof. intros st. apply R_refl. Qed.

Lemma preserves_raise {A} (e : exn) : preserves R (@raise A e).
Proof. intros st. apply R_refl. Qed.

Lemma preserves_get_state : preserves R get_state.
Proof. intros st. apply R_refl. Qed.

Lemma preserves_modify (f : State -> State) :
  (forall st, R st (f st)) -> preserves R (modify f).
Proof. intros H st. apply H. Qed.

Lemma preserves_bind {A B} (m : M A) (k : A -> M B) :
  preserves R m -> (forall a, preserves R (k a)) -> preserves R (bind m k).
Proof.
  intros Hm Hk st. unfold bind. specialize (Hm st).
  destruct (m st) as [[a|e] st']; cbn in *; [|exact Hm].
  exact (R_trans _ _ _ Hm (Hk a st')).
Qed.

Lemma preserves_try_except {A} (m : M A) (h : exn -> M A) :
  preserves R m -> (forall e, preserves R (h e)) -> preserves R (try_except m h).
Proof.
  intros Hm Hh st. unfold try_except. specialize (Hm st).
  destruct (m st) as [[a|e] st']; cbn in *; [exact Hm|].
  exact (R_trans _ _ _ Hm (Hh e st')).
Qed.

Lemma preserves_foldM {A B} (body : B -> A -> M B) (l : list A) (acc : B) :
  (forall acc x, preserves R (body acc x)) -> preserves R (foldM body l acc).
Proof.
  intros Hbody. revert acc. induction l as [|x l IH]; intros acc; cbn.
  - apply preserves_ret.
  - apply preserves_bind; [apply Hbody|apply IH].
Qed.

Lemma preserves_for_each {A} (body : A -> M unit) (l : list A) :
  (forall x, preserves R (body x)) -> preserves R (for_each l body).
Proof. intros H. apply preserves_foldM. intros _ x. apply H. Qed.

End Preserves.

Lemma same_memory_refl st : same_memory st st.
Proof. split; reflexivity. Qed.

Lemma same_memory_trans st1 st2 st3 :
  same_memory st1 st2 -> same_memory st2 st3 -> same_memory st1 st3.
Proof. intros [A1 A2] [B1 B2]. split; congruence. Qed.

(** ** Delivery *)

Section DeliveryFacts.
Variable W : World.

Lemma send_message_run chat text st :
  send_message W chat text st =
    (match telegram W (ticks st) chat text with
     | None => Ok tt
     | Some msg => Raised (TelegramError msg)
     end, sent W chat text st).
Proof.
  unfold send_message, sent. mrun.
  destruct (telegram W (ticks st) chat text); reflexivity.
Qed.

Lemma send_message_memory chat text : preserves same_memory (send_message W chat text).
Proof. intros st. rewrite send_message_run. split; reflexivity. Qed.

Lemma save_data_memory : preserves same_memory save_data.
Proof. intros st. split; reflexivity. Qed.

Lemma sleep_memory n : preserves same_memory (sleep n).
Proof. intros st. split; reflexivity. Qed.

Lemma print_memory s : preserves same_memory (print s).
Proof. intros st. split; reflexivity. Qed.

Lemma check_report_memory update alerts :
  preserves same_memory (check_report W update alerts).
Proof.
  pose proof same_memory_refl as Hr. pose proof same_memory_trans as Ht.
  unfold check_report, reply_text. destruct alerts as [|a alerts].
  - apply send_message_memory.
  - apply preserves_bind; [assumption|apply save_data_memory|intros _].
    apply preserves_bind; [assumption| |intros _].
    + apply preserves_for_each; [assumption..|]. intros [[t n] addr].
      apply preserves_bind; [assumption|apply send_message_memory|intros _].
      apply sleep_memory.
    + destruct (3 <? length (a :: alerts))%nat;
        [apply send_message_memory|now apply preserves_ret].
Qed.

(** Only the removal of the tenant changes the memory during delivery;
    the cache stays. *)
Lemma send_alerts_cache user_id user_id_str alerts st :
  tx_cache (snd (send_alerts W user_id user_id_str alerts st)) = tx_cache st.
Proof.
  revert st. induction alerts as [|[[t n] addr] rest IH]; intros st; [reflexivity|].
  cbn [send_alerts]. unfold try_except, bind at 1 2 3.
  rewrite send_message_run.
  destruct (telegram W (ticks st) user_id (format_alert W t n addr)) as [msg|].
  - destruct (is_unreachable (TelegramError msg)); mrun; [reflexivity|].
    now rewrite IH.
  - mrun. now rewrite IH.
Qed.

(** Delivery in the monitor catches every exception of a send. *)
Lemma send_alerts_returns user_id user_id_str alerts st :
  fst (send_alerts W user_id user_id_str alerts st) = Ok tt.
Proof.
  revert st. induction alerts as [|[[t n] addr] rest IH]; intros st; [reflexivity|].
  cbn [send_alerts]. unfold try_except, bind at 1 2 3.
  rewrite send_message_run.
  destruct (telegram W (ticks st) user_id (format_alert W t n addr)) as [msg|].
  - destruct (is_unreachable (TelegramError msg)); mrun; [reflexivity|].
    now rewrite IH.
  - mrun. now rewrite IH.
Qed.

End DeliveryFacts.

(** ** Runs of the two entry points *)

Lemma fetch_event_no_notification (evs : list event) :
  Forall fetch_event evs -> Forall no_notification evs.
Proof. apply List.Forall_impl. intros [ | | | ]; cbn; tauto. Qed.

Section Runs.
Variable W : World.

Lemma check_command_run update st u s1 :
  get_user W (effective_user_id update) st = (Ok u, s1) ->
  check_command W update st =
    match wallets u with
    | [] => send_message W (chat_id update)
              "❌ No wallets to check. Add one with `/add`" s1
    | _ :: _ =>
        let text := "🔍 Checking for new transactions..." in
        match telegram W (ticks s1) (chat_id update) text with
        | Some msg => (Raised (TelegramError msg), sent W (chat_id update) text s1)
        | None =>
            match poll W (Text.str (effective_user_id update)) (wallets u)
                       (sent W (chat_id update) text s1) with
            | (Ok new_alerts, s3) => check_report W update new_alerts s3
            | (Raised e, s3) => (Raised e, s3)
            end
        end
    end.
Proof.
  intros Hg. unfold check_command, bind at 1. rewrite Hg.
  destruct (wallets u) as [|aw ws]; [reflexivity|].
  unfold bind, reply_text. rewrite send_message_run.
  destruct (telegram W (ticks s1) (chat_id update) _); reflexivity.
Qed.

Lemma monitor_report_returns user_id user_id_str alerts st :
  fst (monitor_report W user_id user_id_str alerts st) = Ok tt.
Proof.
  unfold monitor_report. destruct alerts; [reflexivity|].
  unfold bind, save_data, modify. apply send_alerts_returns.
Qed.

Lemma monitor_report_cache user_id user_id_str alerts st :
  tx_cache (snd (monitor_report W user_id user_id_str alerts st)) = tx_cache st.
Proof.
  unfold monitor_report. destruct alerts; [reflexivity|].
  unfold bind, save_data, modify. now rewrite send_alerts_cache.
Qed.

(** A tenant whose key reads as a number: the poll, then the report; the
    [except] clause is not entered. *)
Lemma monitor_user_parsed user_id_str user_id user_data st alerts s1 :
  Text.py_int user_id_str = Some user_id ->
  poll W user_id_str (wallets user_data) st = (Ok alerts, s1) ->
  monitor_user W user_id_str user_data st
  = monitor_report W user_id user_id_str alerts s1.
Proof.
  intros Hint Hpoll. unfold monitor_user, try_except, bind, int_of.
  rewrite Hint. unfold ret at 1. rewrite Hpoll.
  pose proof (monitor_report_returns user_id user_id_str alerts s1) as Hok.
  destruct (monitor_report W user_id user_id_str alerts s1) as [[[]|e] s2];
    [reflexivity|discriminate].
Qed.

(** A tenant whose key does not read as a number is skipped with a
    printed error. *)
Lemma monitor_user_unparsed user_id_str user_data st :
  Text.py_int user_id_str = None ->
  monitor_user W user_id_str user_data st
  = print ("Error monitoring user " +:+ user_id_str +:+ ": "
           +:+ "invalid literal for int() with base 10: '" +:+ user_id_str +:+ "'") st.
Proof.
  intros Hint. unfold monitor_user, try_except, bind, int_of.
  rewrite Hint. reflexivity.
Qed.

End Runs.

(** C1.  With an activity source that answers the same way each time, a
    second poll of the same addresses right after a first one finds no novel
    record: every key the first run looked at is in the cache.  So the
    second run returns the empty list, leaves users, cache and files as
    they are, and nothing is delivered but the status replies of the manual
    check.  This holds of the poll loop itself, of [check_command] after a
    completed first run, and of the per-tenant step of [auto_monitor]. *)
Theorem second_run_finds_nothing (W : World) :
  steady_source W ->
  (forall uid ws ws' st,
      dict_keys ws' = dict_keys ws ->
      let st1 := snd (poll W uid ws st) in
      fst (poll W uid ws' st1) = Ok [] /\ silent st1 (snd (poll W uid ws' st1))) /\
  (forall update st,
      fst (check_command W update st) = Ok tt ->
      let st1 := snd (check_command W update st) in
      silent st1 (snd (check_command W update st1))) /\
  (forall user_id_str user_data user_data' st,
      dict_keys (wallets user_data') = dict_keys (wallets user_data) ->
      let st1 := snd (monitor_user W user_id_str user_data st) in
      silent st1 (snd (monitor_user W user_id_str user_data' st1))).
Proof.
  intros Hsteady.
  assert (Hpoll : forall uid (ws ws' : dict wallet) (st st1 : State),
             dict_keys ws' = dict_keys ws ->
             all_cached W uid (dict_keys ws) st1 ->
             fst (poll W uid ws' st1) = Ok [] /\ silent st1 (snd (poll W uid ws' st1))).
  { intros uid ws ws' st st1 Hkeys Hc. rewrite <- Hkeys in Hc.
    destruct (poll_seen W Hsteady uid ws' st1 Hc) as (st2 & Hrun & Hdb & evs & Htr & Hev).
    rewrite Hrun. split; [reflexivity|]. split; [exact Hdb|].
    exists evs. split; [exact Htr|now apply fetch_event_no_notification]. }
  assert (Hsent : forall chat text st,
             In text status_texts -> silent st (sent W chat text st)).
  { intros chat text st Hin. split; [repeat split|].
    eexists. split; [reflexivity|]. constructor; [exact Hin|constructor]. }
  assert (Hsilent_trans : forall s1 s2 s3, silent s1 s2 -> silent s2 s3 -> silent s1 s3).
  { intros s1 s2 s3 [(A1 & A2 & A3 & A4) (e1 & A5 & A6)]
           [(B1 & B2 & B3 & B4) (e2 & B5 & B6)].
    split; [repeat split; congruence|].
    exists (e1 ++ e2). rewrite B5, A5, <- app_assoc. split; [reflexivity|].
    apply Forall_app. now split. }
  split; [|split].
  - intros uid ws ws' st Hkeys st1.
    destruct (poll_covers W Hsteady uid ws st) as (alerts & st1' & Hrun & Hc).
    subst st1. rewrite Hrun. cbn [snd]. now apply (Hpoll uid ws ws' st).
  - intros update st Hok st1.
    set (uid := effective_user_id update) in *.
    destruct (get_user_cases W uid st)
      as (u & s1 & Hg & Hu & _ & _ & _ & _ & _ & _).
    pose proof (check_command_run W update st u s1 Hg) as Hrun.
    fold uid in Hrun.
    destruct (wallets u) as [|aw ws] eqn:Hws.
    + (* no wallet: both runs answer with the same status reply *)
      rewrite send_message_run in Hrun. subst st1. rewrite Hrun. cbn [snd].
      assert (Hg2 : get_user W uid (sent W (chat_id update)
                      "❌ No wallets to check. Add one with `/add`" s1)
                    = (Ok u, sent W (chat_id update)
                      "❌ No wallets to check. Add one with `/add`" s1))
        by (apply get_user_old; exact Hu).
      rewrite (check_command_run W update _ u _ Hg2), Hws, send_message_run.
      cbn [snd]. apply Hsent. cbn. tauto.
    + cbn zeta in Hrun.
      destruct (telegram W (ticks s1) (chat_id update)
                  "🔍 Checking for new transactions...") as [msg|] eqn:Htg.
      { rewrite Hrun in Hok. discriminate. }
      set (s2 := sent W (chat_id update) "🔍 Checking for new transactions..." s1) in *.
      destruct (poll_covers W Hsteady (Text.str uid) (aw :: ws) s2)
        as (alerts & s3 & Hp & Hc).
      destruct (poll_frame_poll W (Text.str uid) (aw :: ws) s2)
        as (alerts' & s3' & Hp' & Hf).
      rewrite Hp in Hp'. injection Hp' as <- <-.
      rewrite Hp in Hrun.
      destruct (check_report_memory W update alerts s3) as [Hm1 Hm2].
      rewrite <- Hrun in Hm1, Hm2. fold st1 in Hm1, Hm2.
      (* the tenant is still there, with the same addresses *)
      assert (Hkeys : dict_keys (wallets_of (Text.str uid) st1) = dict_keys (aw :: ws)).
      { rewrite (wallets_of_users _ _ _ Hm1), (pf_wallet_keys _ _ _ Hf).
        unfold wallets_of. subst s2. cbn. now rewrite Hu, Hws. }
      destruct (dict_get (Text.str uid) (users st1)) as [u1|] eqn:Hu1;
        [|unfold wallets_of in Hkeys; rewrite Hu1 in Hkeys; discriminate].
      unfold wallets_of in Hkeys. rewrite Hu1 in Hkeys.
      rewrite (check_command_run W update st1 u1 st1 (get_user_old W uid st1 u1 Hu1)).
      fold uid.
      destruct (wallets u1) as [|aw1 ws1] eqn:Hws1; [discriminate|].
      cbn zeta.
      destruct (telegram W (ticks st1) (chat_id update)
                  "🔍 Checking for new transactions...") as [msg|].
      { cbn [snd]. apply Hsent. cbn. tauto. }
      assert (Hc2 : all_cached W (Text.str uid) (dict_keys (aw :: ws))
                      (sent W (chat_id update)
                         "🔍 Checking for new transactions..." st1)).
      { intros address t s Ha Ht Hs. cbn. rewrite Hm2. now apply (Hc address t s). }
      destruct (Hpoll (Text.str uid) (aw :: ws) (aw1 :: ws1) st
                  _ Hkeys Hc2) as [Hnone Hsil].
      destruct (poll W (Text.str uid) (aw1 :: ws1) _) as [[new_alerts|e] s5];
        cbn in Hnone; [|discriminate].
      injection Hnone as ->. cbn [check_report snd] in *. unfold reply_text.
      rewrite send_message_run. cbn [snd].
      apply (Hsilent_trans _ _ _
               (Hsent (chat_id update) "🔍 Checking for new transactions..." st1
                      ltac:(cbn; tauto))).
      apply (Hsilent_trans _ _ _ Hsil). apply Hsent. cbn. tauto.
  - intros k u u' st Hkeys st1.
    destruct (Text.py_int k) as [z|] eqn:Hint.
    + destruct (poll_covers W Hsteady k (wallets u) st) as (alerts & s1 & Hp & Hc).
      pose proof (monitor_user_parsed W k z u st alerts s1 Hint Hp) as Hrun.
      assert (Hc1 : all_cached W k (dict_keys (wallets u)) st1).
      { intros address t s Ha Ht Hs. subst st1. rewrite Hrun, monitor_report_cache.
        now apply (Hc address t s). }
      destruct (Hpoll k (wallets u) (wallets u') st st1 Hkeys Hc1) as [Hnone Hsil].
      destruct (poll W k (wallets u') st1) as [[new_alerts|e] s3] eqn:Hp2;
        cbn in Hnone; [|discriminate].
      injection Hnone as ->.
      rewrite (monitor_user_parsed W k z u' st1 [] s3 Hint Hp2). exact Hsil.
    + rewrite (monitor_user_unparsed W k u' st1 Hint). split; [repeat split|].
      eexists. split; [reflexivity|]. constructor; [exact I|constructor].
Qed.

Lemma second_run_finds_nothing_witness :
  steady_source Examples.active_world /\
  let W := Examples.active_world in
  let st1 := snd (check_command W Examples.update7 Examples.main_state) in
  fst (check_command W Examples.update7 Examples.main_state) = Ok tt /\
  option_map alert_count (dict_get "7" (users st1)) = Some 1 /\
  silent st1 (snd (check_command W Examples.update7 st1)) /\
  silent (snd (monitor_user W "7" Examples.main_user Examples.main_state))
         (snd (monitor_user W "7" Examples.main_user
                 (snd (monitor_user W "7" Examples.main_user Examples.main_state)))).
Proof.
  assert (Hs : steady_source Examples.active_world) by (intros i j a l; reflexivity).
  split; [exact Hs|].
  destruct (second_run_finds_nothing Examples.active_world Hs) as (_ & Hcheck & Hmon).
  intros W st1.
  assert (Hok : fst (check_command W Examples.update7 Examples.main_state) = Ok tt)
    by (vm_compute; reflexivity).
  split; [exact Hok|]. split; [vm_compute; reflexivity|].
  split.
  - exact (Hcheck Examples.update7 Examples.main_state Hok).
  - exact (Hmon "7" Examples.main_user Examples.main_user Examples.main_state eq_refl).
Defined.

(** ** Failed fetches *)

(** Against C8 as stated: that every failed fetch is logged does not hold for a reply
    with a status other than 200: the fetch comes back empty and nothing is
    printed. *)
Lemma failed_status_is_not_logged :
  let st := snd (fetch_transactions Examples.down_world "ADDR1" 5 Examples.main_state) in
  fetch_fails (http_get Examples.down_world 0 "ADDR1" 5) /\
  fst (fetch_transactions Examples.down_world "ADDR1" 5 Examples.main_state) = Ok [] /\
  ~ (exists e, In e (trace st) /\ is_print e = true).
Proof.
  cbn. split; [discriminate|]. split; [reflexivity|].
  intros (e & [<-|[]] & He). discriminate He.
Qed.

(** C8 (amended).  When the request for an address fails, by an exception
    or by a status other than 200, [fetch_transactions] returns the empty
    list and does not raise; the failure is printed when the request raised,
    and a reply with another status leaves no log entry.  In the poll cycle
    the address adds no record and changes nothing in users, cache or files,
    and the loop goes on with the remaining addresses, for which it never
    raises either. *)
Theorem failed_fetch_is_skipped (W : World) (st : State) (uid address : string)
    (wallet_data : wallet) (new_alerts : list alert) (rest : dict wallet) :
  let r := http_get W (ticks st) address 5 in
  fetch_fails r ->
  let st' := after_fetch address 5 r st in
  fetch_transactions W address 5 st = (Ok [], st') /\
  same_db st st' /\
  (is_print (List.last (trace st') (EvSleep 0)) = true
   <-> exists msg, r = HttpRaise msg) /\
  poll_wallet W uid new_alerts (address, wallet_data) st = (Ok new_alerts, st') /\
  foldM (poll_wallet W uid) ((address, wallet_data) :: rest) new_alerts st
  = foldM (poll_wallet W uid) rest new_alerts st' /\
  exists alerts st'', foldM (poll_wallet W uid) rest new_alerts st' = (Ok alerts, st'').
Proof.
  intros r Hfail st'.
  assert (Hnone : fetched r = []).
  { destruct r as [status body|msg]; cbn in *; [|reflexivity].
    destruct (Z.eqb_spec status 200); [contradiction|reflexivity]. }
  assert (Hfetch : fetch_transactions W address 5 st = (Ok [], st')).
  { rewrite fetch_transactions_run. fold r. now rewrite Hnone. }
  assert (Hwallet : poll_wallet W uid new_alerts (address, wallet_data) st
                    = (Ok new_alerts, st')).
  { unfold poll_wallet, bind. cbn [fst snd]. now rewrite Hfetch. }
  split; [exact Hfetch|]. split; [repeat split|]. split; [|split; [exact Hwallet|split]].
  - subst st'. unfold after_fetch. cbn [trace]. destruct r as [status body|msg].
    + rewrite last_last. cbn. split; [discriminate|]. intros [msg Hm]. discriminate Hm.
    + change (EvFetch address 5 (HttpRaise msg) :: [EvPrint ("API Error: " +:+ msg)])
        with ([EvFetch address 5 (HttpRaise msg)] ++ [EvPrint ("API Error: " +:+ msg)]).
      rewrite app_assoc, last_last. cbn. split; [now exists msg|reflexivity].
  - cbn [foldM]. unfold bind. now rewrite Hwallet.
  - destruct (foldM_invariant (poll_wallet W uid) (fun _ _ _ => True) rest)
      with (acc := new_alerts) (st := st') as (alerts & st'' & Hrun & _).
    + intros done aw rest' acc0 st0 _ _.
      destruct (poll_wallet_frame W uid acc0 aw st0) as (acc1 & st1 & Hrun & _).
      now exists acc1, st1.
    + exact I.
    + now exists alerts, st''.
Qed.

Lemma failed_fetch_is_skipped_witness :
  let W := Examples.down_world in
  let st := Examples.main_state in
  fetch_fails (http_get W (ticks st) "ADDR1" 5) /\
  fetch_transactions W "ADDR1" 5 st
  = (Ok [], after_fetch "ADDR1" 5 (HttpReply 502 []) st) /\
  poll_wallet W "7" [] ("ADDR1", Examples.wallet_named "Main") st
  = (Ok [], after_fetch "ADDR1" 5 (HttpReply 502 []) st).
Proof.
  intros W st.
  assert (Hf : fetch_fails (http_get W (ticks st) "ADDR1" 5)) by (cbn; discriminate).
  split; [exact Hf|].
  destruct (failed_fetch_is_skipped W st "7" "ADDR1" (Examples.wallet_named "Main")
              [] [] Hf) as (H1 & _ & _ & H2 & _).
  split; [exact H1|exact H2].
Defined.

(** ** Tenant keys *)

Lemma str_inj (z1 z2 : Z) : Text.str z1 = Text.str z2 -> z1 = z2.
Proof.
  assert (Hnn : forall z, Z.to_int z <> Decimal.Pos Decimal.Nil
                          /\ Z.to_int z <> Decimal.Neg Decimal.Nil).
  { intros [|p|p]; cbn; split; try discriminate;
      intros [= H]; exact (DecimalPos.Unsigned.to_uint_nonnil p H). }
  unfold Text.str. intros H. apply DecimalZ.to_int_inj.
  destruct (Hnn z1) as [A1 A2]. destruct (Hnn z2) as [B1 B2].
  pose proof (NilZero.isi _ A1 A2) as H1. pose proof (NilZero.isi _ B1 B2) as H2.
  rewrite H in H1. congruence.
Qed.

Lemma append_cons (c : ascii) (s x : string) : String c s +:+ x = String c (s +:+ x).
Proof. reflexivity. Qed.

Lemma append_empty_l (x : string) : EmptyString +:+ x = x.
Proof. reflexivity. Qed.

Lemma append_empty_r (s : string) : s +:+ EmptyString = s.
Proof.
  induction s as [|c s IH]; [reflexivity|]. now rewrite append_cons, IH.
Qed.

Lemma before_underscore_uint (d : Decimal.uint) (x : string) :
  Text.before_underscore (NilEmpty.string_of_uint d +:+ x)
  = NilEmpty.string_of_uint d +:+ Text.before_underscore x.
Proof.
  induction d; cbn [NilEmpty.string_of_uint]; [reflexivity|..];
    (rewrite !append_cons; cbn [Text.before_underscore];
     destruct (decide _) as [Heq|_]; [discriminate Heq|now rewrite IHd]).
Qed.

(** The decimal text of a number holds no underscore, so the text of a
    cache key up to its first underscore is the tenant. *)
Lemma before_underscore_key (z : Z) (address tx_id : string) :
  Text.before_underscore (cache_key (Text.str z) address tx_id) = Text.str z.
Proof.
  unfold cache_key, Text.str.
  assert (Hn : forall d x,
             Text.before_underscore (NilEmpty.string_of_uint d +:+ "_" +:+ x)
             = NilEmpty.string_of_uint d).
  { intros d x. rewrite before_underscore_uint, append_cons.
    cbn [Text.before_underscore].
    destruct (decide _) as [_|Hne]; [apply append_empty_r|now contradiction Hne]. }
  assert (Hu : forall d x,
             Text.before_underscore (NilZero.string_of_uint d +:+ "_" +:+ x)
             = NilZero.string_of_uint d).
  { intros d x. destruct d; try apply Hn.
    unfold NilZero.string_of_uint. rewrite !append_cons, append_empty_l.
    cbn [Text.before_underscore].
    destruct (decide _) as [Heq|_]; [discriminate Heq|].
    destruct (decide _) as [_|Hne]; [reflexivity|now contradiction Hne]. }
  destruct (Z.to_int z) as [d|d]; cbn [NilZero.string_of_int].
  - apply Hu.
  - rewrite append_cons. cbn [Text.before_underscore].
    destruct (decide _) as [Heq|_]; [discriminate Heq|]. f_equal. apply Hu.
Qed.

Lemma cache_key_tenant (z1 z2 : Z) (a1 s1 a2 s2 : string) :
  cache_key (Text.str z1) a1 s1 = cache_key (Text.str z2) a2 s2 -> z1 = z2.
Proof.
  intros H. apply str_inj.
  rewrite <- (before_underscore_key z1 a1 s1), <- (before_underscore_key z2 a2 s2).
  now rewrite H.
Qed.

(** ** Isolation of tenants *)

Lemma untouched_refl uid st : untouched uid st st.
Proof. split; reflexivity. Qed.

Lemma untouched_trans uid st1 st2 st3 :
  untouched uid st1 st2 -> untouched uid st2 st3 -> untouched uid st1 st3.
Proof.
  intros [A1 A2] [B1 B2]. split; [congruence|].
  intros a s. now rewrite B2, A2.
Qed.

Lemma same_memory_untouched uid st st' : same_memory st st' -> untouched uid st st'.
Proof. intros [H1 H2]. split; [now rewrite H1|]. intros a s. now rewrite H2. Qed.

Lemma preserves_weaken {A} (R R' : State -> State -> Prop) (m : M A) :
  (forall st st', R st st' -> R' st st') -> preserves R m -> preserves R' m.
Proof. intros H Hm st. apply H, Hm. Qed.

(** A poll of one tenant leaves every other tenant untouched. *)
Lemma poll_frame_untouched (me other : Z) st st' :
  me <> other ->
  poll_frame (Text.str me) st st' -> untouched (Text.str other) st st'.
Proof.
  intros Hne Hf. split.
  - apply (pf_others _ _ _ Hf). intros H. apply Hne. symmetry. now apply str_inj.
  - intros a s. destruct (tx_cache st !! cache_key (Text.str other) a s) as [v|] eqn:E.
    + exact (lookup_weaken _ _ _ _ E (pf_cache_grows _ _ _ Hf)).
    + destruct (tx_cache st' !! cache_key (Text.str other) a s) as [v|] eqn:E';
        [|reflexivity].
      destruct (pf_cache_own _ _ _ Hf _ E) as (a' & s' & Hk); [now exists v|].
      symmetry in Hk. apply cache_key_tenant in Hk. contradiction.
Qed.

Section Isolation.
Variable W : World.
Variables me other : Z.
Hypothesis Hne : me <> other.

Lemma str_ne : Text.str me <> Text.str other.
Proof. intros H. apply Hne. now apply str_inj. Qed.

Lemma get_user_untouched : preserves (untouched (Text.str other)) (get_user W me).
Proof.
  intros st.
  destruct (get_user_cases W me st) as (u & st' & Hg & _ & _ & Hc & _ & Ho & _).
  rewrite Hg. cbn. split.
  - apply Ho. intros H. apply str_ne. now symmetry.
  - intros a s. now rewrite Hc.
Qed.

Lemma after_write_untouched f st :
  untouched (Text.str other) st (after_write me f st).
Proof.
  split; [|reflexivity]. cbn. apply dict_get_update_ne, str_ne.
Qed.

Lemma add_wallet_untouched address name :
  preserves (untouched (Text.str other)) (add_wallet W me address name).
Proof.
  intros st. pose proof (get_user_untouched st) as Hg.
  destruct (get_user W me st) as [[u|e] st1] eqn:E;
    [|destruct (get_user_cases W me st) as (? & ? & ? & _); congruence].
  rewrite (add_wallet_run W _ _ _ _ _ _ E). cbn [snd] in Hg.
  destruct (10 <=? length (wallets u))%nat; [exact Hg|].
  destruct (dict_mem address (wallets u)); [exact Hg|].
  cbn [snd]. apply (untouched_trans _ _ _ _ Hg).
  split; [|reflexivity]. cbn. apply dict_get_update_ne, str_ne.
Qed.

Lemma remove_wallet_untouched identifier :
  preserves (untouched (Text.str other)) (remove_wallet W me identifier).
Proof.
  intros st. pose proof (get_user_untouched st) as Hg.
  destruct (get_user W me st) as [[u|e] st1] eqn:E;
    [|destruct (get_user_cases W me st) as (? & ? & ? & _); congruence].
  rewrite (remove_wallet_run W _ _ _ _ _ E). cbn [snd] in Hg.
  destruct (dict_get identifier (wallets u)).
  - exact (untouched_trans _ _ _ _ Hg (after_write_untouched _ _)).
  - destruct (find (name_matches W identifier) (wallets u)) as [[addr data]|].
    + exact (untouched_trans _ _ _ _ Hg (after_write_untouched _ _)).
    + exact Hg.
Qed.

Lemma poll_untouched ws : preserves (untouched (Text.str other)) (poll W (Text.str me) ws).
Proof.
  intros st. destruct (poll_frame_poll W (Text.str me) ws st) as (al & st' & Hrun & Hf).
  rewrite Hrun. exact (poll_frame_untouched me other st st' Hne Hf).
Qed.

Lemma check_command_untouched update :
  effective_user_id update = me -> preserves (untouched (Text.str other)) (check_command W update).
Proof.
  intros Hme. unfold check_command. rewrite Hme.
  pose proof (untouched_refl (Text.str other)) as Hr.
  pose proof (untouched_trans (Text.str other)) as Ht.
  assert (Hsend : forall text, preserves (untouched (Text.str other)) (reply_text W update text)).
  { intros text. apply (preserves_weaken same_memory);
      [apply same_memory_untouched|apply send_message_memory]. }
  apply preserves_bind; [assumption|apply get_user_untouched|intros u].
  destruct (wallets u) as [|aw ws]; [apply Hsend|].
  apply preserves_bind; [assumption|apply Hsend|intros _].
  apply preserves_bind; [assumption|apply poll_untouched|intros alerts].
  apply (preserves_weaken same_memory);
    [apply same_memory_untouched|apply check_report_memory].
Qed.

Lemma send_alerts_untouched user_id alerts :
  preserves (untouched (Text.str other)) (send_alerts W user_id (Text.str me) alerts).
Proof.
  pose proof (untouched_refl (Text.str other)) as Hr.
  pose proof (untouched_trans (Text.str other)) as Ht.
  induction alerts as [|[[t n] addr] rest IH]; cbn [send_alerts].
  - now apply preserves_ret.
  - apply preserves_bind; [assumption| |].
    + apply preserves_try_except; [assumption| |].
      * apply (preserves_weaken same_memory); [apply same_memory_untouched|].
        apply preserves_bind;
          [apply same_memory_trans|apply send_message_memory|intros _].
        apply preserves_bind;
          [apply same_memory_trans|apply sleep_memory|intros _].
        apply preserves_ret, same_memory_refl.
      * intros e. destruct (is_unreachable e); [|now apply preserves_ret].
        apply preserves_bind; [assumption| |intros _].
        { apply (preserves_weaken same_memory);
            [apply same_memory_untouched|apply print_memory]. }
        apply preserves_bind; [assumption| |intros _].
        { apply preserves_modify. intros st. split; [|reflexivity].
          cbn. apply dict_get_del_ne, str_ne. }
        apply preserves_bind; [assumption| |intros _; now apply preserves_ret].
        apply (preserves_weaken same_memory);
          [apply same_memory_untouched|apply save_data_memory].
    + intros [|]; [now apply preserves_ret|exact IH].
Qed.

Lemma monitor_user_untouched user_data :
  preserves (untouched (Text.str other)) (monitor_user W (Text.str me) user_data).
Proof.
  pose proof (untouched_refl (Text.str other)) as Hr.
  pose proof (untouched_trans (Text.str other)) as Ht.
  unfold monitor_user.
  apply preserves_try_except; [assumption| |].
  - apply preserves_bind; [assumption| |intros z].
    + unfold int_of. destruct (Text.py_int (Text.str me));
        [now apply preserves_ret|now apply preserves_raise].
    + apply preserves_bind; [assumption|apply poll_untouched|intros alerts].
      unfold monitor_report. destruct alerts as [|a alerts];
        [now apply preserves_ret|].
      apply preserves_bind; [assumption| |intros _; apply send_alerts_untouched].
      apply (preserves_weaken same_memory);
        [apply same_memory_untouched|apply save_data_memory].
  - intros e. apply (preserves_weaken same_memory);
      [apply same_memory_untouched|apply print_memory].
Qed.

End Isolation.

(** C6.  Two distinct tenants never share a cache key, whatever the
    addresses and signatures, the same address included.  Adding and
    removing a wallet, the manual check, the scheduled step with its
    delivery, and the deletion of one tenant leave the other tenant's entry
    of [db.users] (wallets and counters) and every cache entry under the
    other tenant's keys as they were; and whether a record is novel for the
    other tenant is decided the same way before and after. *)
Theorem tenants_are_isolated (W : World) (me other : Z) :
  me <> other ->
  let R := untouched (Text.str other) in
  (forall a s a' s',
      cache_key (Text.str me) a s <> cache_key (Text.str other) a' s') /\
  (forall address name, preserves R (add_wallet W me address name)) /\
  (forall identifier, preserves R (remove_wallet W me identifier)) /\
  (forall update, effective_user_id update = me ->
                  preserves R (check_command W update)) /\
  (forall user_data, preserves R (monitor_user W (Text.str me) user_data)) /\
  (forall st, R st (set_users (dict_del (Text.str me)) st)) /\
  (forall st st' address wname acc t,
      R st st' ->
      fst (poll_tx W (Text.str other) address wname acc t st')
      = fst (poll_tx W (Text.str other) address wname acc t st)).
Proof.
  intros Hne R. subst R.
  split; [|split; [|split; [|split; [|split; [|split]]]]].
  - intros a s a' s' H. apply Hne. exact (cache_key_tenant _ _ _ _ _ _ H).
  - intros address name. now apply add_wallet_untouched.
  - intros identifier. now apply remove_wallet_untouched.
  - intros update Hme. exact (check_command_untouched W me other Hne update Hme).
  - intros user_data. now apply monitor_user_untouched.
  - intros st. split; [|reflexivity]. cbn. apply dict_get_del_ne. now apply str_ne.
  - intros st st' address wname acc t [_ Hc].
    unfold poll_tx. destruct (signature t) as [s|]; [|reflexivity].
    destruct (decide (s = EmptyString)); [reflexivity|].
    mrun. rewrite Hc.
    destruct (tx_cache st !! cache_key (Text.str other) address s); reflexivity.
Qed.

Lemma tenants_are_isolated_witness :
  let W := Examples.active_world in
  let st := Examples.state_of [("7", Examples.main_user); ("8", Examples.main_user)] in
  7 <> 8 /\
  cache_key "7" "ADDR1" "sigA" <> cache_key "8" "ADDR1" "sigA" /\
  untouched "8" st (snd (check_command W Examples.update7 st)) /\
  untouched "8" st (snd (monitor_user W "7" Examples.main_user st)).
Proof.
  intros W st.
  assert (Hne : 7 <> 8) by discriminate.
  split; [exact Hne|].
  destruct (tenants_are_isolated W 7 8 Hne) as (Hk & _ & _ & Hc & Hm & _).
  split; [exact (Hk "ADDR1" "sigA" "ADDR1" "sigA")|].
  split; [exact (Hc Examples.update7 eq_refl st)|exact (Hm Examples.main_user st)].
Defined.

(** ** Delivery in the scheduled cycle *)

Lemma stops_at_unreachable_split (pre post : list event) (e : event) :
  stops_at_unreachable (pre ++ e :: post) = true ->
  failed_unreachable e = true ->
  forallb (fun e' => negb (is_send e')) post = true.
Proof.
  intros H He. induction pre as [|x pre IH]; cbn in H.
  - now rewrite He in H.
  - destruct (failed_unreachable x); [|now apply IH].
    rewrite forallb_app in H. apply andb_true_iff in H as [_ H].
    cbn in H. now apply andb_true_iff in H as [_ H].
Qed.

Lemma stops_at_unreachable_app (evs delta : list event) :
  Forall fetch_event evs ->
  stops_at_unreachable (evs ++ delta) = stops_at_unreachable delta /\
  existsb failed_unreachable (evs ++ delta) = existsb failed_unreachable delta.
Proof.
  intros H. induction H as [|e evs He _ [IH1 IH2]]; cbn; [now split|].
  destruct e; cbn in *; try contradiction; now split.
Qed.

Section MonitorDelivery.
Variable W : World.

(** One round of [send_alerts]: a delivered message is followed by the
    pacing delay and the next alert; a failure of the unreachable class
    removes the tenant and ends the loop; any other failure is followed by
    the next alert at once. *)
Lemma send_alerts_step user_id user_id_str t name addr rest st :
  send_alerts W user_id user_id_str ((t, name, addr) :: rest) st =
    let text := format_alert W t name addr in
    match telegram W (ticks st) user_id text with
    | None =>
        send_alerts W user_id user_id_str rest (slept 1 (sent W user_id text st))
    | Some msg =>
        if is_unreachable (TelegramError msg)
        then (Ok tt, removed user_id user_id_str (sent W user_id text st))
        else send_alerts W user_id user_id_str rest (sent W user_id text st)
    end.
Proof.
  cbn [send_alerts]. unfold try_except, bind at 1 2 3.
  rewrite send_message_run. cbn zeta.
  destruct (telegram W (ticks st) user_id (format_alert W t name addr)) as [msg|].
  - destruct (is_unreachable (TelegramError msg)); reflexivity.
  - reflexivity.
Qed.

Lemma send_alerts_trace user_id user_id_str alerts st :
  let st' := snd (send_alerts W user_id user_id_str alerts st) in
  exists delta,
    trace st' = trace st ++ delta /\
    stops_at_unreachable delta = true /\
    (existsb failed_unreachable delta = true ->
     dict_get user_id_str (users st') = None /\ persisted st').
Proof.
  revert st. induction alerts as [|[[t n] addr] rest IH]; intros st.
  - exists []. cbn. rewrite app_nil_r. repeat split; discriminate.
  - cbn zeta. rewrite send_alerts_step. cbn zeta.
    destruct (telegram W (ticks st) user_id (format_alert W t n addr))
      as [msg|] eqn:Htg.
    + destruct (is_unreachable (TelegramError msg)) eqn:Hun.
      * eexists. cbn. rewrite Htg, <- app_assoc. split; [reflexivity|].
        cbn. rewrite Hun. cbn. split; [reflexivity|]. intros _.
        split; [apply dict_get_del_eq|split; reflexivity].
      * destruct (IH (sent W user_id (format_alert W t n addr) st))
          as (delta & Htr & Hstop & Hdel).
        eexists. rewrite Htr. cbn. rewrite Htg, <- app_assoc.
        split; [reflexivity|]. cbn. rewrite Hun. cbn. now split.
    + destruct (IH (slept 1 (sent W user_id (format_alert W t n addr) st)))
        as (delta & Htr & Hstop & Hdel).
      eexists. rewrite Htr. cbn. rewrite Htg, <- !app_assoc.
      split; [reflexivity|]. cbn. now split.
Qed.

Lemma monitor_user_trace user_id_str user_data st :
  let st' := snd (monitor_user W user_id_str user_data st) in
  exists delta,
    trace st' = trace st ++ delta /\
    stops_at_unreachable delta = true /\
    (existsb failed_unreachable delta = true ->
     dict_get user_id_str (users st') = None /\ persisted st').
Proof.
  cbn zeta. destruct (Text.py_int user_id_str) as [z|] eqn:Hint.
  - destruct (poll_frame_poll W user_id_str (wallets user_data) st)
      as (alerts & s1 & Hp & Hf).
    rewrite (monitor_user_parsed W _ _ _ _ _ _ Hint Hp).
    destruct (pf_trace _ _ _ Hf) as (evs & Htr & Hevs).
    destruct (stops_at_unreachable_app evs [] Hevs) as [Hs0 He0].
    unfold monitor_report. destruct alerts as [|a alerts].
    + exists evs. cbn. split; [exact Htr|]. rewrite app_nil_r in Hs0, He0.
      rewrite Hs0, He0. cbn. split; [reflexivity|discriminate].
    + unfold bind, save_data, modify.
      match goal with |- context [send_alerts W z user_id_str ?l ?s] =>
        destruct (send_alerts_trace z user_id_str l s) as (delta & Htr2 & Hstop & Hdel)
      end.
      exists (evs ++ delta). cbn [trace] in Htr2.
      split; [now rewrite Htr2, Htr, <- app_assoc|].
      destruct (stops_at_unreachable_app evs delta Hevs) as [-> ->].
      now split.
  - rewrite (monitor_user_unparsed W _ _ _ Hint).
    eexists. split; [reflexivity|]. cbn. split; [reflexivity|discriminate].
Qed.

End MonitorDelivery.

(** The test of the [except] clause accepts a message that contains
    [blocked] or [forbidden] as written, and in any other letter case. *)
Lemma starts_with_lower (p s : string) :
  Text.starts_with p s = true ->
  Text.starts_with (Text.lower p) (Text.lower s) = true.
Proof.
  revert s. induction p as [|a p IH]; intros [|b s]; cbn; try easy.
  intros H. apply andb_true_iff in H as [Hab Hps].
  apply bool_decide_eq_true in Hab as ->.
  rewrite bool_decide_eq_true_2 by reflexivity. now apply IH.
Qed.

Lemma str_in_lower (p s : string) :
  Text.str_in p s = true -> Text.str_in (Text.lower p) (Text.lower s) = true.
Proof.
  induction s as [|c s IH]; cbn.
  - rewrite !orb_false_r. apply (starts_with_lower p EmptyString).
  - intros H. apply orb_true_iff in H as [H|H]; apply orb_true_iff.
    + left. apply (starts_with_lower p (String c s) H).
    + right. now apply IH.
Qed.

Lemma containing_is_unreachable (msg : string) :
  Text.str_in "blocked" msg = true \/ Text.str_in "forbidden" msg = true ->
  is_unreachable (TelegramError msg) = true.
Proof.
  unfold is_unreachable. cbn [exn_str].
  intros [H|H]; apply str_in_lower in H; apply orb_true_iff; [left|right]; exact H.
Qed.

(** C4.  When a send of the scheduled step of a tenant fails with an error
    of the unreachable class, then at the end of the step the tenant is no
    longer in [db.users], both files hold the state without the tenant, and
    no send was attempted after the failed one. *)
Theorem unreachable_tenant_is_removed (W : World) (user_id_str : string)
    (user_data : user) (st : State) (pre post : list event) (chat : Z)
    (text msg : string) :
  let st' := snd (monitor_user W user_id_str user_data st) in
  trace st' = trace st ++ pre ++ EvSend chat text (Some msg) :: post ->
  is_unreachable (TelegramError msg) = true ->
  dict_get user_id_str (users st') = None /\
  persisted st' /\
  Forall (fun e => is_send e = false) post.
Proof.
  intros st' Htr Hun.
  destruct (monitor_user_trace W user_id_str user_data st)
    as (delta & Htr' & Hstop & Hdel).
  fold st' in Htr', Hdel. rewrite Htr in Htr'. apply app_inv_head in Htr'.
  subst delta.
  assert (He : failed_unreachable (EvSend chat text (Some msg)) = true) by exact Hun.
  destruct Hdel as [Hgone Hpers].
  { rewrite existsb_app. cbn [existsb]. rewrite He. now rewrite orb_true_r. }
  split; [exact Hgone|]. split; [exact Hpers|].
  pose proof (stops_at_unreachable_split _ _ _ Hstop He) as Hpost.
  rewrite forallb_forall in Hpost. apply List.Forall_forall.
  intros e Hin. specialize (Hpost e Hin). now apply negb_true_iff in Hpost.
Qed.

Lemma unreachable_tenant_is_removed_witness :
  let W := Examples.blocked_world in
  let st' := snd (monitor_user W "7" Examples.main_user Examples.two_tenants) in
  is_unreachable (TelegramError "Forbidden: bot was blocked by the user") = true /\
  dict_get "7" (users st') = None /\
  dict_get "7" (db_file st') = None /\
  sent_texts (trace st')
  = [format_alert W (Examples.record "sigA") "Main" "ADDR1"].
Proof.
  intros W st'.
  assert (Hun : is_unreachable
                  (TelegramError "Forbidden: bot was blocked by the user") = true)
    by reflexivity.
  split; [exact Hun|].
  destruct (unreachable_tenant_is_removed W "7" Examples.main_user
              Examples.two_tenants
              [EvFetch "ADDR1" 5 (HttpReply 200 [Examples.record "sigA"])]
              [EvPrint "User 7 blocked bot, removing..."]
              7 (format_alert W (Examples.record "sigA") "Main" "ADDR1")
              "Forbidden: bot was blocked by the user")
    as (Hgone & [Hfile _] & _).
  - vm_compute. reflexivity.
  - exact Hun.
  - split; [exact Hgone|]. split; [|vm_compute; reflexivity].
    fold st' in Hfile. rewrite Hfile. exact Hgone.
Defined.




(** ** The cap of three alerts *)

Section Cap.
Variable W : World.
Hypothesis Hdelivers : forall i chat text, telegram W i chat text = None.

(** The manual check sends the first three alerts, each followed by the
    pacing delay, and then one summary with the number of the others. *)
Lemma check_report_caps_at_three update (a1 a2 a3 a4 : alert) (more : list alert) st :
  let alerts := a1 :: a2 :: a3 :: a4 :: more in
  let text (a : alert) := format_alert W (fst (fst a)) (snd (fst a)) (snd a) in
  fst (check_report W update alerts st) = Ok tt /\
  trace (snd (check_report W update alerts st))
  = trace st ++
    [EvSend (chat_id update) (text a1) None; EvSleep 1;
     EvSend (chat_id update) (text a2) None; EvSleep 1;
     EvSend (chat_id update) (text a3) None; EvSleep 1;
     EvSend (chat_id update)
       ("📨 +" +:+ Text.str (Z.of_nat (length alerts) - 3)
        +:+ " more transactions...") None].
Proof.
  destruct a1 as [[t1 n1] d1], a2 as [[t2 n2] d2], a3 as [[t3 n3] d3].
  cbn zeta. unfold check_report, for_each, reply_text.
  cbn [firstn foldM length Nat.ltb Nat.leb].
  unfold bind, save_data, sleep, emit, modify, ret, set_trace.
  repeat (rewrite send_message_run, Hdelivers; cbv beta iota zeta).
  split; [reflexivity|]. cbn. now rewrite !Hdelivers, <- !app_assoc.
Qed.

Lemma monitor_report_cons user_id user_id_str (a : alert) alerts st :
  monitor_report W user_id user_id_str (a :: alerts) st
  = send_alerts W user_id user_id_str (firstn 3 (a :: alerts))
      (mkState (users st) (tx_cache st) (users st) (tx_cache st)
               (ticks st) (trace st)).
Proof. reflexivity. Qed.

(** The scheduled cycle sends the first three alerts, each followed by
    the pacing delay, and nothing more: the others are not reported. *)
Lemma monitor_report_caps_at_three user_id user_id_str
    (a1 a2 a3 a4 : alert) (more : list alert) st :
  let alerts := a1 :: a2 :: a3 :: a4 :: more in
  let text (a : alert) := format_alert W (fst (fst a)) (snd (fst a)) (snd a) in
  fst (monitor_report W user_id user_id_str alerts st) = Ok tt /\
  trace (snd (monitor_report W user_id user_id_str alerts st))
  = trace st ++
    [EvSend user_id (text a1) None; EvSleep 1;
     EvSend user_id (text a2) None; EvSleep 1;
     EvSend user_id (text a3) None; EvSleep 1].
Proof.
  destruct a1 as [[t1 n1] d1], a2 as [[t2 n2] d2], a3 as [[t3 n3] d3].
  cbn zeta.
  rewrite !monitor_report_cons. cbn [firstn].
  repeat (rewrite send_alerts_step; cbv zeta; rewrite Hdelivers).
  cbn. split; [reflexivity|]. now rewrite !Hdelivers, <- !app_assoc.
Qed.

End Cap.

(** C3, on the input of the specification: seven novel records for one
    tenant and a channel that delivers.  The manual check sends three alerts
    and the summary of the four others; the scheduled cycle counts the seven
    records and sends the three alerts only, without any summary. *)
Theorem monitor_sends_no_summary :
  let W := Examples.busy_world in
  let st := Examples.main_state in
  let text s := format_alert W (Examples.record s) "Main" "ADDR1" in
  sent_texts (trace (snd (check_command W Examples.update7 st)))
  = ["🔍 Checking for new transactions...";
     text "sig1"; text "sig2"; text "sig3"; "📨 +4 more transactions..."] /\
  option_map alert_count (dict_get "7" (users (snd (auto_monitor W st)))) = Some 7 /\
  fst (auto_monitor W st) = Ok tt /\
  trace (snd (auto_monitor W st))
  = [EvPrint "⏰ Auto-check at 0";
     EvFetch "ADDR1" 5 (HttpReply 200 Examples.seven);
     EvSend 7 (text "sig1") None; EvSleep 1;
     EvSend 7 (text "sig2") None; EvSleep 1;
     EvSend 7 (text "sig3") None; EvSleep 1].
Proof. vm_compute. repeat split. Qed.

(** ** The tenant loop *)

Section TenantLoop.
Variable W : World.

(** Whatever is raised inside the [try] of a tenant is caught there. *)
Lemma monitor_user_returns user_id_str user_data st :
  fst (monitor_user W user_id_str user_data st) = Ok tt.
Proof.
  destruct (Text.py_int user_id_str) as [z|] eqn:Hint.
  - destruct (poll_frame_poll W user_id_str (wallets user_data) st)
      as (alerts & s1 & Hp & _).
    rewrite (monitor_user_parsed W _ _ _ _ _ _ Hint Hp).
    apply monitor_report_returns.
  - now rewrite (monitor_user_unparsed W _ _ _ Hint).
Qed.

(** The loop goes on to the next tenant as long as [db.users] keeps its
    size... *)
Lemma monitor_loop_goes_on used user_id_str user_data rest st :
  length (users st) = used ->
  monitor_loop W used ((user_id_str, user_data) :: rest) st
  = monitor_loop W used rest (snd (monitor_user W user_id_str user_data st)).
Proof.
  intros Hlen. cbn [monitor_loop]. unfold bind at 1, next_item, bind, get_state, ret.
  destruct (decide (length (users st) = used)); [|contradiction].
  pose proof (monitor_user_returns user_id_str user_data st) as Hok.
  destruct (monitor_user W user_id_str user_data st) as [[[]|err] st1];
    [reflexivity|discriminate].
Qed.

(** ... and ends with [RuntimeError], outside any [try], at the first
    request for a next tenant after the size has changed. *)
Lemma monitor_loop_aborts used items st :
  length (users st) <> used ->
  monitor_loop W used items st
  = (Raised (RuntimeError "dictionary changed size during iteration"), st).
Proof.
  intros Hlen.
  destruct items as [|[k u] rest]; cbn [monitor_loop];
    unfold bind, next_item, bind, get_state, raise;
    destruct (decide (length (users st) = used)); try contradiction; reflexivity.
Qed.

End TenantLoop.

(** C5, on two tenants of which the first has blocked the bot: the removal
    of the first tenant changes the size of [db.users] while the loop runs
    over it, the request for the next tenant raises outside the [try], and
    the second tenant is not processed, although a poll of it would find a
    novel record. *)
Theorem blocked_tenant_aborts_the_pass :
  let W := Examples.blocked_world in
  let r := auto_monitor W Examples.two_tenants in
  fst r = Raised (RuntimeError "dictionary changed size during iteration") /\
  dict_keys (users (snd r)) = ["8"] /\
  dict_get "8" (users (snd r)) = Some Examples.main_user /\
  List.filter (fun e => negb (is_print e)) (trace (snd r))
  = [EvFetch "ADDR1" 5 (HttpReply 200 [Examples.record "sigA"]);
     EvSend 7 (format_alert W (Examples.record "sigA") "Main" "ADDR1")
       (Some "Forbidden: bot was blocked by the user")] /\
  fst (poll W "8" (wallets Examples.main_user) (snd r))
  = Ok [(Examples.record "sigA", "Main", "ADDR1")].
Proof. vm_compute. repeat split. Qed.

(** ** The objects the tenant loop works on *)

Lemma others_kept_refl uid st : others_kept uid st st.
Proof. intros k _. reflexivity. Qed.

Lemma others_kept_trans uid st1 st2 st3 :
  others_kept uid st1 st2 -> others_kept uid st2 st3 -> others_kept uid st1 st3.
Proof. intros H1 H2 k Hk. now rewrite H2, H1. Qed.

Lemma same_memory_others_kept uid st st' : same_memory st st' -> others_kept uid st st'.
Proof. intros [H _] k _. now rewrite H. Qed.

Section Snapshot.
Variable W : World.

Lemma send_alerts_others user_id user_id_str alerts :
  preserves (others_kept user_id_str) (send_alerts W user_id user_id_str alerts).
Proof.
  intros st. revert st.
  induction alerts as [|[[t n] addr] rest IH]; intros st;
    [apply others_kept_refl|].
  rewrite send_alerts_step. cbn zeta.
  assert (Hsent : forall text, others_kept user_id_str st (sent W user_id text st))
    by (intros text k _; reflexivity).
  destruct (telegram W (ticks st) user_id (format_alert W t n addr)) as [msg|].
  - destruct (is_unreachable (TelegramError msg)).
    + intros k Hk. cbn. now apply dict_get_del_ne.
    + exact (others_kept_trans _ _ _ _ (Hsent _) (IH _)).
  - refine (others_kept_trans _ _ _ _ _ (IH _)). intros k _. reflexivity.
Qed.

(** The step of a tenant touches no other entry of [db.users]. *)
Lemma monitor_user_others user_id_str user_data :
  preserves (others_kept user_id_str) (monitor_user W user_id_str user_data).
Proof.
  intros st. destruct (Text.py_int user_id_str) as [z|] eqn:Hint.
  - destruct (poll_frame_poll W user_id_str (wallets user_data) st)
      as (alerts & s1 & Hp & Hf).
    rewrite (monitor_user_parsed W _ _ _ _ _ _ Hint Hp).
    assert (H1 : others_kept user_id_str st s1) by exact (pf_others _ _ _ Hf).
    apply (others_kept_trans _ _ _ _ H1).
    destruct alerts as [|a alerts]; [apply others_kept_refl|].
    rewrite monitor_report_cons.
    refine (others_kept_trans _ _ _ _ _ (send_alerts_others _ _ _ _)).
    intros k _. reflexivity.
  - rewrite (monitor_user_unparsed W _ _ _ Hint). intros k _. reflexivity.
Qed.

(** The loop over the items taken at its start does what the loop over
    the stored objects does. *)
Lemma monitor_loop_snapshot used items st :
  List.NoDup (dict_keys items) ->
  (forall k u, In (k, u) items -> dict_get k (users st) = Some u) ->
  monitor_loop W used items st = monitor_loop_live W used (dict_keys items) st.
Proof.
  revert st. induction items as [|[k u] rest IH]; intros st Hnd Hlive;
    [reflexivity|].
  unfold dict_keys in *. cbn [map fst] in *.
  apply List.NoDup_cons_iff in Hnd as [Hk Hnd].
  destruct (decide (length (users st) = used)) as [Hlen|Hlen].
  - rewrite (monitor_loop_goes_on W used k u rest st Hlen).
    cbn [monitor_loop_live]. unfold bind at 1, next_item, bind at 1, get_state at 1, ret at 1.
    destruct (decide (length (users st) = used)); [|contradiction].
    unfold bind at 1, bind at 1, get_state at 1.
    rewrite (Hlive k u (or_introl eq_refl)).
    pose proof (monitor_user_returns W k u st) as Hok.
    pose proof (monitor_user_others k u st) as Hothers.
    destruct (monitor_user W k u st) as [[[]|err] st1]; [|discriminate].
    cbn [snd] in *. apply IH; [exact Hnd|].
    intros k' u' Hin. rewrite Hothers.
    + apply Hlive. now right.
    + intros ->. apply Hk. apply (in_map fst) in Hin. exact Hin.
  - rewrite (monitor_loop_aborts W used _ st Hlen).
    destruct rest as [|]; cbn [monitor_loop_live map];
      unfold bind, next_item, bind, get_state, raise;
      destruct (decide (length (users st) = used)); try contradiction; reflexivity.
Qed.

End Snapshot.

(** ** Keys written by [get_user] are read back by [auto_monitor] *)

Lemma uint_val_acc (d : Decimal.uint) (acc : positive) :
  uint_val d (Z.pos acc) = Z.pos (Pos.of_uint_acc d acc).
Proof.
  revert acc. induction d; intros acc; cbn [uint_val Pos.of_uint_acc];
    [reflexivity|..]; rewrite <- IHd; f_equal; lia.
Qed.

Lemma uint_val_of_uint (d : Decimal.uint) : uint_val d 0 = Z.of_N (Pos.of_uint d).
Proof.
  induction d; cbn [uint_val Pos.of_uint Z.of_N]; [reflexivity|exact IHd|..];
    (rewrite <- uint_val_acc; reflexivity).
Qed.

Lemma digits_from_uint (d : Decimal.uint) (acc : Z) :
  Text.digits_from acc true (NilEmpty.string_of_uint d) = Some (uint_val d acc).
Proof.
  revert acc. induction d; intros acc; cbn [NilEmpty.string_of_uint uint_val];
    [reflexivity|..]; (cbn [Text.digits_from]; cbn; apply IHd).
Qed.

Lemma py_int_uint (d : Decimal.uint) :
  d <> Decimal.Nil ->
  Text.py_int (NilEmpty.string_of_uint d) = Some (uint_val d 0) /\
  Text.digits_from 0 false (NilEmpty.string_of_uint d) = Some (uint_val d 0).
Proof.
  intros Hd. destruct d; [contradiction|..];
    (split; [unfold Text.py_int|]; cbn; apply digits_from_uint).
Qed.

Lemma py_int_str (z : Z) : Text.py_int (Text.str z) = Some z.
Proof.
  unfold Text.str. destruct z as [|p|p]; [reflexivity|..];
    cbn [Z.to_int NilZero.string_of_int];
    pose proof (DecimalPos.Unsigned.to_uint_nonnil p) as Hnn;
    pose proof (DecimalPos.Unsigned.of_to p) as Hof;
    destruct (py_int_uint (Pos.to_uint p) Hnn) as [H1 H2];
    assert (Hs : NilZero.string_of_uint (Pos.to_uint p)
                 = NilEmpty.string_of_uint (Pos.to_uint p))
      by (destruct (Pos.to_uint p); [contradiction|reflexivity..]);
    rewrite Hs, uint_val_of_uint, Hof in *.
  - exact H1.
  - unfold Text.py_int. cbn [Text.lstrip].
    change (Text.is_space "-") with false. cbv beta iota.
    rewrite H2. reflexivity.
Qed.

(** For a tenant that [get_user] created, the scheduled step runs the poll
    and then the report. *)
Lemma monitor_user_of_tenant (W : World) (user_id : Z) (user_data : user)
    (st s1 : State) (alerts : list alert) :
  poll W (Text.str user_id) (wallets user_data) st = (Ok alerts, s1) ->
  monitor_user W (Text.str user_id) user_data st
  = monitor_report W user_id (Text.str user_id) alerts s1.
Proof. apply monitor_user_parsed, py_int_str. Qed.

(** ** The scenario of the specification *)

(** Tenant 7 adds [ADDR1] as [Main]; adding it again is refused; a manual
    check with one record at the source raises the alert count to 1 and
    sends one alert; the same check again sends no alert and the count
    stays 1. *)
Example scenario :
  let W := Examples.active_world in
  let s0 := Examples.state_of [] in
  let s1 := snd (add_wallet W 7 "ADDR1" "Main" s0) in
  let s2 := snd (check_command W Examples.update7 s1) in
  let s3 := snd (check_command W Examples.update7 s2) in
  fst (add_wallet W 7 "ADDR1" "Main" s0)
  = Ok (true, "✅ *Main* is now being tracked!") /\
  fst (add_wallet W 7 "ADDR1" "Main" s1)
  = Ok (false, "❌ This wallet is already tracked") /\
  length (wallets_of "7" s1) = 1%nat /\
  option_map alert_count (dict_get "7" (users s2)) = Some 1 /\
  sent_texts (trace s2)
  = ["🔍 Checking for new transactions...";
     format_alert W (Examples.record "sigA") "Main" "ADDR1"] /\
  option_map alert_count (dict_get "7" (users s3)) = Some 1 /\
  sent_texts (skipn (length (trace s2)) (trace s3))
  = ["🔍 Checking for new transactions..."; "✅ No new transactions found."].
Proof. vm_compute. repeat split. Qed.

(** * Properties beyond the claims *)

(** ** What a poll returns *)

(** A loop that only appends to its accumulator, with a relation between
    the states and the items appended. *)
Lemma foldM_collect {A X} (J : State -> State -> list X -> Prop)
    (body : list X -> A -> M (list X)) (l : list A) :
  (forall st, J st st []) ->
  (forall s1 s2 s3 n1 n2, J s1 s2 n1 -> J s2 s3 n2 -> J s1 s3 (n1 ++ n2)) ->
  (forall acc x st, In x l ->
     exists new st', body acc x st = (Ok (acc ++ new), st') /\ J st st' new) ->
  forall acc st,
    exists new st', foldM body l acc st = (Ok (acc ++ new), st') /\ J st st' new.
Proof.
  intros Hnil Hcomp Hbody acc st.
  destruct (foldM_invariant body
              (fun _ acc' st' => exists new, acc' = acc ++ new /\ J st st' new) l)
    with (acc := acc) (st := st) as (acc' & st' & Hrun & new & -> & HJ).
  - intros done x rest acc0 st0 Hl (new & -> & HJ).
    destruct (Hbody (acc ++ new) x st0) as (new' & st1 & Hrun & HJ').
    { rewrite Hl. apply in_or_app. right. now left. }
    exists ((acc ++ new) ++ new'), st1. split; [exact Hrun|].
    exists (new ++ new'). split; [now rewrite app_assoc|].
    exact (Hcomp _ _ _ _ _ HJ HJ').
  - exists []. split; [now rewrite app_nil_r|apply Hnil].
  - now exists new, st'.
Qed.

Lemma poll_yield_nil uid ws st : poll_yield uid ws st st [].
Proof.
  split; [reflexivity|]. split; [cbn; lia|]. split; constructor.
Qed.

Lemma genuine_alert_widen uid ws s1 s2 s3 s4 al :
  tx_cache s1 ⊆ tx_cache s2 -> tx_cache s3 ⊆ tx_cache s4 ->
  genuine_alert uid ws s2 s3 al -> genuine_alert uid ws s1 s4 al.
Proof.
  intros H12 H34 (Hw & Hid & Hnone & [v Hv]).
  split; [exact Hw|]. split; [exact Hid|]. split.
  - destruct (tx_cache s1 !! alert_key uid al) as [v'|] eqn:E; [|reflexivity].
    rewrite (lookup_weaken _ _ _ _ E H12) in Hnone. discriminate.
  - exists v. exact (lookup_weaken _ _ _ _ Hv H34).
Qed.

Lemma poll_yield_app uid ws s1 s2 s3 n1 n2 :
  poll_yield uid ws s1 s2 n1 -> poll_yield uid ws s2 s3 n2 ->
  poll_yield uid ws s1 s3 (n1 ++ n2).
Proof.
  intros (A1 & A2 & A3 & A4) (B1 & B2 & B3 & B4).
  split; [now transitivity (tx_cache s2)|].
  split; [rewrite length_app; lia|]. split.
  - rewrite map_app. apply List.NoDup_app; [exact A3|exact B3|].
    intros k Hk1 Hk2. apply in_map_iff in Hk1 as (a1 & <- & Hin1).
    apply in_map_iff in Hk2 as (a2 & Heq & Hin2).
    rewrite List.Forall_forall in A4, B4.
    destruct (A4 _ Hin1) as (_ & _ & _ & [v Hv]).
    destruct (B4 _ Hin2) as (_ & _ & Hnone & _).
    rewrite Heq in Hnone. congruence.
  - apply Forall_app. split.
    + revert A4. apply List.Forall_impl. intros al.
      now apply genuine_alert_widen.
    + revert B4. apply List.Forall_impl. intros al.
      now apply genuine_alert_widen.
Qed.

Section PollYield.
Variable W : World.

Lemma poll_tx_yield uid ws aw acc t st :
  In aw ws ->
  exists new st',
    poll_tx W uid (fst aw) (name (snd aw)) acc t st = (Ok (acc ++ new), st') /\
    poll_yield uid ws st st' new.
Proof.
  intros Hin.
  destruct (poll_tx_cases W uid (fst aw) (name (snd aw)) acc t st)
    as [[Hrun _]|(s & Hid & Hk & Hrun)]; rewrite Hrun.
  - exists [], st. rewrite app_nil_r. split; [reflexivity|apply poll_yield_nil].
  - eexists [_], _. split; [reflexivity|].
    assert (Hkey : alert_key uid (t, name (snd aw), fst aw)
                   = cache_key uid (fst aw) s).
    { unfold alert_key, tx_id_of in *. cbn [fst snd].
      destruct (signature t) as [s'|]; [|discriminate].
      destruct (decide (s' = EmptyString)); [discriminate|]. now injection Hid as ->. }
    split; [now apply insert_subseteq|]. cbn [tx_cache length].
    split; [rewrite (map_size_insert_None _ _ _ Hk); lia|].
    split; [repeat constructor; intros []|].
    constructor; [|constructor].
    split; [exists (snd aw); split; [now destruct aw|reflexivity]|].
    split; [cbn [fst]; now rewrite Hid|].
    rewrite Hkey. split; [exact Hk|]. cbn. rewrite lookup_insert_eq. now eexists.
Qed.

Lemma poll_wallet_yield uid ws acc aw st :
  In aw ws ->
  exists new st',
    poll_wallet W uid acc aw st = (Ok (acc ++ new), st') /\
    poll_yield uid ws st st' new.
Proof.
  intros Hin. unfold poll_wallet, bind. rewrite fetch_transactions_run.
  match goal with |- context [foldM ?b ?l ?a ?s] =>
    destruct (foldM_collect (poll_yield uid ws) b l
                (poll_yield_nil uid ws) (poll_yield_app uid ws)) with
      (acc := a) (st := s) as (new & st' & Hrun & HJ) end.
  - intros acc0 t st0 _. now apply poll_tx_yield.
  - exists new, st'. split; [exact Hrun|]. exact HJ.
Qed.

Lemma poll_yields uid ws st :
  exists alerts st',
    poll W uid ws st = (Ok alerts, st') /\ poll_yield uid ws st st' alerts.
Proof.
  destruct (foldM_collect (poll_yield uid ws) (poll_wallet W uid) ws
              (poll_yield_nil uid ws) (poll_yield_app uid ws)) with
    (acc := @nil alert) (st := st) as (new & st' & Hrun & HJ).
  - intros acc aw st0 Hin. now apply poll_wallet_yield.
  - now exists new, st'.
Qed.

End PollYield.

(** ** The counters of a poll *)

Lemma total_tx_count_cons k w (ws : dict wallet) :
  total_tx_count ((k, w) :: ws) = tx_count w + total_tx_count ws.
Proof. reflexivity. Qed.

Lemma total_tx_count_bump a (ws : dict wallet) :
  In a (dict_keys ws) ->
  total_tx_count (dict_update a bump_tx_count ws) = total_tx_count ws + 1.
Proof.
  unfold dict_keys. induction ws as [|[k w] ws IH]; cbn [map fst]; [intros []|].
  intros Hin. cbn [dict_update]. destruct (decide (a = k)) as [->|Hne].
  - rewrite !total_tx_count_cons. cbn [bump_tx_count tx_count]. lia.
  - destruct Hin as [Heq|Hin]; [congruence|].
    rewrite !total_tx_count_cons, (IH Hin). lia.
Qed.

Lemma total_tx_count_last_tx a ts (ws : dict wallet) :
  total_tx_count (dict_update a (set_last_tx ts) ws) = total_tx_count ws.
Proof.
  induction ws as [|[k w] ws IH]; [reflexivity|].
  cbn [dict_update]. destruct (decide (a = k)); rewrite !total_tx_count_cons;
    [reflexivity|now rewrite IH].
Qed.

Lemma counted_nil uid addrs st : counted uid addrs st st [].
Proof. intros Hu _. repeat split; [exact Hu|cbn; lia..]. Qed.

Lemma counted_app uid addrs s1 s2 s3 n1 n2 :
  counted uid addrs s1 s2 n1 -> counted uid addrs s2 s3 n2 ->
  counted uid addrs s1 s3 (n1 ++ n2).
Proof.
  intros H1 H2 Hu Hk. destruct (H1 Hu Hk) as (A1 & A2 & A3 & A4).
  destruct (H2 A1) as (B1 & B2 & B3 & B4); [now rewrite A2|].
  split; [exact B1|]. split; [congruence|].
  rewrite length_app, Nat2Z.inj_add. split; lia.
Qed.

Section PollCounters.
Variable W : World.

Lemma poll_tx_counted uid addrs address wname acc t st :
  In address addrs ->
  exists new st',
    poll_tx W uid address wname acc t st = (Ok (acc ++ new), st') /\
    counted uid addrs st st' new.
Proof.
  intros Hin.
  destruct (poll_tx_cases W uid address wname acc t st)
    as [[Hrun _]|(s & Hid & Hk & Hrun)]; rewrite Hrun.
  - exists [], st. rewrite app_nil_r. split; [reflexivity|apply counted_nil].
  - eexists [_], _. split; [reflexivity|].
    intros [u Hu] Hkeys. unfold alert_count_of, wallets_of in *. cbn [users].
    rewrite !dict_get_update_eq, Hu in *. cbn [option_map].
    split; [now eexists|]. cbn.
    split; [now rewrite !dict_keys_update|].
    split; [lia|].
    rewrite total_tx_count_last_tx, total_tx_count_bump; [lia|].
    now apply Hkeys.
Qed.

Lemma poll_wallet_counted uid addrs acc aw st :
  In (fst aw) addrs ->
  exists new st',
    poll_wallet W uid acc aw st = (Ok (acc ++ new), st') /\
    counted uid addrs st st' new.
Proof.
  intros Hin. unfold poll_wallet, bind. rewrite fetch_transactions_run.
  match goal with |- context [foldM ?b ?l ?a ?s] =>
    destruct (foldM_collect (counted uid addrs) b l
                (counted_nil uid addrs) (counted_app uid addrs)) with
      (acc := a) (st := s) as (new & st' & Hrun & HJ) end.
  - intros acc0 t st0 _. now apply poll_tx_counted.
  - exists new, st'. split; [exact Hrun|]. exact HJ.
Qed.

Lemma poll_counted uid ws st :
  exists alerts st',
    poll W uid ws st = (Ok alerts, st') /\
    counted uid (dict_keys ws) st st' alerts.
Proof.
  destruct (foldM_collect (counted uid (dict_keys ws)) (poll_wallet W uid) ws
              (counted_nil uid _) (counted_app uid _)) with
    (acc := @nil alert) (st := st) as (new & st' & Hrun & HJ).
  - intros acc aw st0 Hin. apply poll_wallet_counted.
    unfold dict_keys. now apply in_map.
  - now exists new, st'.
Qed.

End PollCounters.

(** X1.  Every alert a poll returns is for a record with an identifier, on
    an address of the wallets polled and under the stored name of that
    wallet; its cache key was absent when the poll began and is present
    when it ends; no two alerts of the poll have the same key; and the
    cache has grown by exactly one entry per alert. *)
Theorem poll_alerts_are_new (W : World) (uid : string) (ws : dict wallet) (st : State) :
  exists alerts,
    fst (poll W uid ws st) = Ok alerts /\
    Forall (genuine_alert uid ws st (snd (poll W uid ws st))) alerts /\
    List.NoDup (map (alert_key uid) alerts) /\
    size (tx_cache (snd (poll W uid ws st)))
    = (size (tx_cache st) + length alerts)%nat.
Proof.
  destruct (poll_yields W uid ws st) as (alerts & st' & Hrun & _ & Hsize & Hnd & Hgen).
  exists alerts. rewrite Hrun. cbn [fst snd]. auto.
Qed.

(** X2.  A poll of the wallets of a tenant raises the tenant's
    [alert_count] and the sum of the [tx_count] of its wallets by the number
    of alerts it returns, and keeps the tenant and its addresses. *)
Theorem poll_counts_every_alert (W : World) (uid : string) (u : user) (st : State) :
  dict_get uid (users st) = Some u ->
  exists alerts,
    let st' := snd (poll W uid (wallets u) st) in
    fst (poll W uid (wallets u) st) = Ok alerts /\
    alert_count_of uid st' = alert_count u + Z.of_nat (length alerts) /\
    total_tx_count (wallets_of uid st')
    = total_tx_count (wallets u) + Z.of_nat (length alerts) /\
    dict_keys (wallets_of uid st') = dict_keys (wallets u).
Proof.
  intros Hu. destruct (poll_counted W uid (wallets u) st) as (alerts & st' & Hrun & Hc).
  exists alerts. rewrite Hrun. cbn [fst snd].
  destruct Hc as (_ & Hk & Ha & Ht).
  - now exists u.
  - unfold wallets_of. rewrite Hu. apply incl_refl.
  - unfold alert_count_of, wallets_of in *. rewrite Hu in *. auto.
Qed.

Lemma poll_counts_every_alert_witness :
  let W := Examples.busy_world in
  let st' := snd (poll W "7" (wallets Examples.main_user) Examples.main_state) in
  dict_get "7" (users Examples.main_state) = Some Examples.main_user /\
  alert_count_of "7" st' = 7 /\
  total_tx_count (wallets_of "7" st') = 7.
Proof.
  intros W st'.
  assert (Hu : dict_get "7" (users Examples.main_state) = Some Examples.main_user)
    by reflexivity.
  split; [exact Hu|].
  destruct (poll_counts_every_alert W "7" Examples.main_user Examples.main_state Hu)
    as (alerts & Hrun & Ha & Ht & _).
  fold st' in Ha, Ht.
  vm_compute in Hrun. injection Hrun as <-.
  split; [exact Ha|exact Ht].
Defined.

(** ** Durability *)

Lemma quiet_if_empty_nil st : quiet_if_empty st st [].
Proof. intros _. apply same_memory_refl. Qed.

Lemma quiet_if_empty_app s1 s2 s3 (n1 n2 : list alert) :
  quiet_if_empty s1 s2 n1 -> quiet_if_empty s2 s3 n2 ->
  quiet_if_empty s1 s3 (n1 ++ n2).
Proof.
  intros H1 H2 Hnil. apply app_eq_nil in Hnil as [-> ->].
  exact (same_memory_trans _ _ _ (H1 eq_refl) (H2 eq_refl)).
Qed.

Lemma durable_refl st : durable st st.
Proof. intros H. exact H. Qed.

Lemma durable_trans s1 s2 s3 : durable s1 s2 -> durable s2 s3 -> durable s1 s3.
Proof. intros H1 H2 H. exact (H2 (H1 H)). Qed.

Lemma same_db_refl st : same_db st st.
Proof. repeat split. Qed.

Lemma same_db_trans s1 s2 s3 : same_db s1 s2 -> same_db s2 s3 -> same_db s1 s3.
Proof.
  intros (A1 & A2 & A3 & A4) (B1 & B2 & B3 & B4). repeat split; congruence.
Qed.

Lemma same_db_durable st st' : same_db st st' -> durable st st'.
Proof.
  intros (H1 & H2 & H3 & H4) [P1 P2]. split; congruence.
Qed.

Section Durability.
Variable W : World.

Lemma send_message_same_db chat text : preserves same_db (send_message W chat text).
Proof. intros st. rewrite send_message_run. repeat split. Qed.

Lemma sleep_same_db n : preserves same_db (sleep n).
Proof. intros st. repeat split. Qed.

Lemma print_same_db s : preserves same_db (print s).
Proof. intros st. repeat split. Qed.

(** A poll that returns no alert has written nothing. *)
Lemma poll_quiet uid ws st :
  exists alerts st',
    poll W uid ws st = (Ok alerts, st') /\
    quiet_if_empty st st' alerts /\ poll_frame uid st st'.
Proof.
  destruct (poll_frame_poll W uid ws st) as (alerts & st' & Hrun & Hf).
  exists alerts, st'. split; [exact Hrun|]. split; [|exact Hf].
  destruct (foldM_collect quiet_if_empty (poll_wallet W uid) ws
              quiet_if_empty_nil quiet_if_empty_app) with
    (acc := @nil alert) (st := st) as (new & st2 & Hrun2 & HJ).
  - intros acc aw st0 _. unfold poll_wallet, bind.
    rewrite fetch_transactions_run.
    match goal with |- context [foldM ?b ?l ?a ?s] =>
      destruct (foldM_collect quiet_if_empty b l
                  quiet_if_empty_nil quiet_if_empty_app) with
        (acc := a) (st := s) as (new & st1 & Hrun1 & HJ) end.
    + intros acc0 t st1 _.
      destruct (poll_tx_cases W uid (fst aw) (name (snd aw)) acc0 t st1)
        as [[Hr _]|(s & _ & _ & Hr)]; rewrite Hr.
      * exists [], st1. rewrite app_nil_r. split; [reflexivity|].
        apply quiet_if_empty_nil.
      * eexists [_], _. split; [reflexivity|]. intros H. discriminate H.
    + exists new, st1. split; [exact Hrun1|].
      intros Hn. destruct (HJ Hn) as [H1 H2]. split; [exact H1|exact H2].
  - unfold poll in Hrun. rewrite Hrun2 in Hrun. now injection Hrun as <- <-.
Qed.

Lemma poll_then_persisted uid ws st alerts st' :
  poll W uid ws st = (Ok alerts, st') ->
  persisted st -> alerts = [] -> persisted st'.
Proof.
  intros Hrun [P1 P2] Hnil.
  destruct (poll_quiet uid ws st) as (al & s1 & Hrun' & Hq & Hf).
  rewrite Hrun in Hrun'. injection Hrun' as <- <-.
  destruct (Hq Hnil) as [H1 H2].
  split; [rewrite (pf_db_file _ _ _ Hf)|rewrite (pf_cache_file _ _ _ Hf)];
    congruence.
Qed.

Lemma check_report_persisted update alerts st :
  (alerts = [] -> persisted st) ->
  persisted (snd (check_report W update alerts st)).
Proof.
  intros Hp. unfold check_report, reply_text. destruct alerts as [|a alerts].
  - apply (same_db_durable _ _ (send_message_same_db _ _ st)). now apply Hp.
  - unfold bind at 1, save_data, modify.
    match goal with |- persisted (snd (?m ?s)) =>
      assert (Hs : persisted s) by (split; reflexivity);
      assert (Hm : preserves same_db m); [|exact (same_db_durable _ _ (Hm s) Hs)]
    end.
    apply preserves_bind; [apply same_db_trans| |intros _].
    + apply preserves_for_each; [apply same_db_refl|apply same_db_trans|].
      intros [[t n] addr].
      apply preserves_bind;
        [apply same_db_trans|apply send_message_same_db|intros _; apply sleep_same_db].
    + destruct (3 <? length (a :: alerts))%nat;
        [apply send_message_same_db|apply preserves_ret, same_db_refl].
Qed.

Lemma send_alerts_durable user_id user_id_str alerts :
  preserves durable (send_alerts W user_id user_id_str alerts).
Proof.
  intros st. revert st.
  induction alerts as [|[[t n] addr] rest IH]; intros st; [apply durable_refl|].
  rewrite send_alerts_step. cbn zeta.
  assert (Hsent : forall text, durable st (sent W user_id text st))
    by (intros text; apply same_db_durable; repeat split).
  destruct (telegram W (ticks st) user_id (format_alert W t n addr)) as [msg|].
  - destruct (is_unreachable (TelegramError msg)).
    + intros _. split; reflexivity.
    + exact (durable_trans _ _ _ (Hsent _) (IH _)).
  - apply (durable_trans _ (slept 1 (sent W user_id (format_alert W t n addr) st)));
      [apply same_db_durable; repeat split|apply IH].
Qed.

Lemma monitor_report_persisted user_id user_id_str alerts st :
  (alerts = [] -> persisted st) ->
  persisted (snd (monitor_report W user_id user_id_str alerts st)).
Proof.
  intros Hp. destruct alerts as [|a alerts]; [now apply Hp|].
  rewrite monitor_report_cons. apply send_alerts_durable. split; reflexivity.
Qed.

Lemma check_command_durable update : preserves durable (check_command W update).
Proof.
  intros st Hp.
  destruct (get_user_cases W (effective_user_id update) st)
    as (u & s1 & Hg & _ & _ & _ & _ & _ & _ & Hs1).
  assert (Hp1 : persisted s1) by (destruct Hs1 as [->|H]; assumption).
  rewrite (check_command_run W update st u s1 Hg).
  destruct (wallets u) as [|aw ws].
  - exact (same_db_durable _ _ (send_message_same_db _ _ s1) Hp1).
  - cbn zeta.
    destruct (telegram W (ticks s1) (chat_id update) _) as [msg|].
    + cbn [snd]. destruct Hp1 as [P1 P2]. split; assumption.
    + match goal with |- context [poll W ?k ?l ?s] =>
        destruct (poll_frame_poll W k l s) as (alerts & s3 & Hrun & _);
        assert (Hps : persisted s) by (destruct Hp1; split; assumption)
      end.
      rewrite Hrun. apply check_report_persisted. intros Hnil.
      exact (poll_then_persisted _ _ _ _ _ Hrun Hps Hnil).
Qed.

Lemma monitor_user_durable user_id_str user_data :
  preserves durable (monitor_user W user_id_str user_data).
Proof.
  intros st Hp. destruct (Text.py_int user_id_str) as [z|] eqn:Hint.
  - destruct (poll_frame_poll W user_id_str (wallets user_data) st)
      as (alerts & s1 & Hrun & _).
    rewrite (monitor_user_parsed W _ _ _ _ _ _ Hint Hrun).
    apply monitor_report_persisted. intros Hnil.
    exact (poll_then_persisted _ _ _ _ _ Hrun Hp Hnil).
  - rewrite (monitor_user_unparsed W _ _ _ Hint).
    exact (same_db_durable _ _ (print_same_db _ st) Hp).
Qed.

Lemma monitor_loop_durable used items : preserves durable (monitor_loop W used items).
Proof.
  induction items as [|[k u] rest IH]; cbn [monitor_loop].
  - intros st. unfold next_item, bind, get_state.
    destruct (decide _); apply durable_refl.
  - apply preserves_bind; [apply durable_trans| |intros _].
    + intros st. unfold next_item, bind, get_state.
      destruct (decide _); apply durable_refl.
    + apply preserves_bind;
        [apply durable_trans|apply monitor_user_durable|intros _; exact IH].
Qed.

Lemma auto_monitor_durable : preserves durable (auto_monitor W).
Proof.
  intros st Hp. unfold auto_monitor, bind, now, tick, ret, print, emit, modify,
    get_state. cbn [fst snd].
  apply monitor_loop_durable. destruct Hp. split; assumption.
Qed.

Lemma add_wallet_durable uid address name :
  preserves durable (add_wallet W uid address name).
Proof.
  intros st Hp.
  destruct (get_user_cases W uid st) as (u & s1 & Hg & _ & _ & _ & _ & _ & _ & Hs1).
  assert (Hp1 : persisted s1) by (destruct Hs1 as [->|H]; assumption).
  rewrite (add_wallet_run W _ _ _ _ _ _ Hg).
  destruct (10 <=? length (wallets u))%nat; [exact Hp1|].
  destruct (dict_mem address (wallets u)); [exact Hp1|split; reflexivity].
Qed.

Lemma remove_wallet_durable uid identifier :
  preserves durable (remove_wallet W uid identifier).
Proof.
  intros st Hp.
  destruct (get_user_cases W uid st) as (u & s1 & Hg & _ & _ & _ & _ & _ & _ & Hs1).
  assert (Hp1 : persisted s1) by (destruct Hs1 as [->|H]; assumption).
  rewrite (remove_wallet_run W _ _ _ _ _ Hg).
  destruct (dict_get identifier (wallets u)); [split; reflexivity|].
  destruct (find _ _) as [[addr data]|]; [split; reflexivity|exact Hp1].
Qed.

Lemma handle_durable r : preserves durable (handle W r).
Proof.
  assert (Hreply : forall update text, preserves durable (reply_text W update text)).
  { intros update text st. apply same_db_durable, send_message_same_db. }
  destruct r as [update args|update args|update|]; cbn [handle].
  - unfold add_command. destruct args as [|address [|n names]]; try apply Hreply.
    apply preserves_bind;
      [apply durable_trans|apply add_wallet_durable|intros r; apply Hreply].
  - unfold remove_command. destruct args as [|a args]; [apply Hreply|].
    apply preserves_bind;
      [apply durable_trans|apply remove_wallet_durable|intros r; apply Hreply].
  - apply check_command_durable.
  - apply auto_monitor_durable.
Qed.

End Durability.

(** X3.  After [load_data] the files hold what the process holds, and every
    command and every run of [auto_monitor] keeps it so, whether it returns
    or raises: reading the files again after any sequence of requests gives
    back the users and the cache the process has. *)
Theorem files_follow_memory (W : World) (rs : list request) (st : State) :
  persisted (snd (load_data st)) /\
  (persisted st ->
   let st' := after_requests W rs st in
   persisted st' /\
   users (snd (load_data st')) = users st' /\
   tx_cache (snd (load_data st')) = tx_cache st').
Proof.
  split; [split; reflexivity|]. intros Hp.
  assert (H : persisted (after_requests W rs st)).
  { revert st Hp. induction rs as [|r rs IH]; intros st Hp; [exact Hp|].
    cbn. apply IH. now apply handle_durable. }
  cbn zeta. split; [exact H|]. destruct H as [H1 H2]. split; assumption.
Qed.

Lemma files_follow_memory_witness :
  let W := Examples.busy_world in
  let rs := [Add Examples.update8 ["ADDR2"; "Second"]; Check Examples.update7;
             Remove Examples.update8 ["second"]; Monitor] in
  persisted Examples.main_state /\
  persisted (after_requests W rs Examples.main_state) /\
  alert_count_of "7" (snd (load_data (after_requests W rs Examples.main_state))) = 7.
Proof.
  intros W rs.
  assert (Hp : persisted Examples.main_state) by (split; reflexivity).
  split; [exact Hp|].
  destruct (files_follow_memory W rs Examples.main_state) as (_ & H).
  destruct (H Hp) as (Hp' & Hu & _).
  split; [exact Hp'|]. unfold alert_count_of. rewrite Hu. vm_compute. reflexivity.
Defined.

(** ** Adding a wallet, and removing it again *)

Lemma dict_set_new {V} (k : string) (v : V) (d : dict V) :
  dict_get k d = None -> dict_set k v d = d ++ [(k, v)].
Proof.
  induction d as [|[k' v'] d IH]; cbn; [reflexivity|].
  destruct (decide (k = k')); [discriminate|]. intros H. now rewrite IH.
Qed.

Lemma dict_del_last {V} (k : string) (v : V) (d : dict V) :
  dict_get k d = None -> dict_del k (d ++ [(k, v)]) = d.
Proof.
  induction d as [|[k' v'] d IH]; cbn.
  - intros _. destruct (decide (k = k)); [reflexivity|contradiction].
  - destruct (decide (k = k')); [discriminate|]. intros H. now rewrite IH.
Qed.

Lemma dict_get_app_new {V} (k k' : string) (v : V) (d : dict V) :
  dict_get k d = None -> k <> k' -> dict_get k (d ++ [(k', v)]) = None.
Proof.
  intros Hd Hne. induction d as [|[k0 v0] d IH]; cbn in *.
  - destruct (decide (k = k')); [contradiction|reflexivity].
  - destruct (decide (k = k0)); [discriminate|now apply IH].
Qed.

Lemma to_lower_continuation (c : ascii) :
  Text.is_continuation (Text.to_lower c) = Text.is_continuation c.
Proof. destruct c as [[] [] [] [] [] [] [] []]; reflexivity. Qed.

(** The fold of the ASCII letters keeps the number of characters. *)
Lemma len_lower (s : string) : Text.len (Text.lower s) = Text.len s.
Proof.
  induction s as [|c s IH]; [reflexivity|].
  cbn [Text.lower Text.len]. now rewrite to_lower_continuation, IH.
Qed.

(** A slice has the characters asked for, or all there are. *)
Lemma len_slice_to (n : nat) (s : string) :
  Text.len (Text.slice_to n s) = Nat.min n (Text.len s).
Proof.
  revert n. induction s as [|c s IH]; intros n; [now destruct n|].
  cbn [Text.slice_to Text.len]. destruct (Text.is_continuation c) eqn:E.
  - cbn [Text.len]. rewrite E. apply IH.
  - destruct n as [|n]; [reflexivity|]. cbn [Text.len]. rewrite E, IH. reflexivity.
Qed.

Lemma slice_to_short (n : nat) (s : string) :
  (Text.len s <= n)%nat -> Text.slice_to n s = s.
Proof.
  revert n. induction s as [|c s IH]; intros n; [reflexivity|].
  cbn [Text.slice_to Text.len]. destruct (Text.is_continuation c).
  - intros H. now rewrite IH.
  - destruct n as [|n]; intros H; [lia|]. rewrite IH; [reflexivity|lia].
Qed.

Lemma is_ascii_slice_to (n : nat) (s : string) :
  Text.is_ascii s = true -> Text.is_ascii (Text.slice_to n s) = true.
Proof.
  revert n. induction s as [|c s IH]; intros n; [reflexivity|].
  cbn [Text.slice_to Text.is_ascii]. intros H.
  apply andb_true_iff in H as [Hc Hs].
  destruct (Text.is_continuation c).
  - cbn [Text.is_ascii]. now rewrite Hc, IH.
  - destruct n as [|n]; [reflexivity|]. cbn [Text.is_ascii]. now rewrite Hc, IH.
Qed.

Lemma str_lower_ascii (W : World) (s : string) :
  Text.is_ascii s = true -> str_lower W s = Text.lower s.
Proof. unfold str_lower. now intros ->. Qed.

(** An ASCII name of more than [n] characters and its first [n] characters
    are not equal up to case. *)
Lemma long_ascii_name_differs (W : World) (n : nat) (s : string) :
  Text.is_ascii s = true -> (n < Text.len s)%nat ->
  str_lower W (Text.slice_to n s) <> str_lower W s.
Proof.
  intros Ha Hlong Heq.
  rewrite !str_lower_ascii in Heq by (try apply is_ascii_slice_to; exact Ha).
  apply (f_equal Text.len) in Heq.
  rewrite !len_lower, len_slice_to in Heq. lia.
Qed.

Section AddRemove.
Variable W : World.

(** The state in which a new wallet is written: after [get_user] and the
    reading of the clock. *)
Lemma add_wallet_new uid address name st :
  let ws := wallets_of (Text.str uid) st in
  (length ws < 10)%nat ->
  dict_get address ws = None ->
  exists ts st',
    add_wallet W uid address name st
    = (Ok (true, "✅ *" +:+ name +:+ "* is now being tracked!"), st') /\
    wallets_of (Text.str uid) st'
    = ws ++ [(address, Wallet (Text.slice_to 20 name) ts None 0)] /\
    persisted st' /\
    dict_get (Text.str uid) (users st') <> None.
Proof.
  intros ws Hlen Hnew.
  destruct (get_user_cases W uid st) as (u & s1 & Hg & Hu & Hws & _).
  fold ws in Hws. rewrite (add_wallet_run W _ _ _ _ _ _ Hg), Hws.
  destruct (Nat.leb_spec 10 (length ws)) as [Hge|_]; [lia|].
  unfold dict_mem. rewrite Hnew.
  eexists _, _. split; [reflexivity|].
  rewrite (wallets_of_after_write uid _ _ u) by exact Hu.
  rewrite Hws, (dict_set_new _ _ _ Hnew).
  split; [reflexivity|]. split; [split; reflexivity|].
  cbn. rewrite dict_get_update_eq, Hu. discriminate.
Qed.

End AddRemove.

(** X4.  For a tenant below the quota, [add_wallet] with an address that is
    not tracked succeeds, appends the wallet after the others with the first
    20 characters of the name (the whole name when it has no more), no last
    activity and a count of 0, and writes the files; with an address that is
    tracked it returns [False] with the already-tracked message and the
    wallets stay as they are. *)
Theorem add_wallet_outcomes (W : World) (st : State) (user_id : Z)
    (address name : string) :
  let ws := wallets_of (Text.str user_id) st in
  let r := add_wallet W user_id address name st in
  (length ws < 10)%nat ->
  (dict_get address ws = None ->
   fst r = Ok (true, "✅ *" +:+ name +:+ "* is now being tracked!") /\
   (exists ts, wallets_of (Text.str user_id) (snd r)
               = ws ++ [(address, Wallet (Text.slice_to 20 name) ts None 0)]) /\
   Text.len (Text.slice_to 20 name) = Nat.min 20 (Text.len name) /\
   ((Text.len name <= 20)%nat -> Text.slice_to 20 name = name) /\
   persisted (snd r)) /\
  (dict_get address ws <> None ->
   fst r = Ok (false, "❌ This wallet is already tracked") /\
   wallets_of (Text.str user_id) (snd r) = ws).
Proof.
  intros ws r Hlen. split.
  - intros Hnew. subst r.
    destruct (add_wallet_new W user_id address name st Hlen Hnew)
      as (ts & st' & -> & Hw & Hp & _).
    cbn [fst snd]. split; [reflexivity|]. split; [now exists ts|].
    split; [apply len_slice_to|]. split; [apply slice_to_short|exact Hp].
  - intros Hold. subst r.
    destruct (get_user_cases W user_id st) as (u & s1 & Hg & Hu & Hws & _).
    fold ws in Hws. rewrite (add_wallet_run W _ _ _ _ _ _ Hg), Hws.
    destruct (Nat.leb_spec 10 (length ws)) as [Hge|_]; [lia|].
    unfold dict_mem. destruct (dict_get address ws); [|contradiction].
    cbn [fst snd]. split; [reflexivity|]. unfold wallets_of. now rewrite Hu.
Qed.

Lemma add_wallet_outcomes_witness :
  let W := Examples.idle_world in
  let st := Examples.main_state in
  let r := add_wallet W 7 "ADDR2" "Mon portefeuille préféré" st in
  (length (wallets_of "7" st) < 10)%nat /\
  fst r = Ok (true, "✅ *Mon portefeuille préféré* is now being tracked!") /\
  map (fun aw => (fst aw, name (snd aw))) (wallets_of "7" (snd r))
  = [("ADDR1", "Main"); ("ADDR2", "Mon portefeuille pré")] /\
  fst (add_wallet W 7 "ADDR1" "Again" st)
  = Ok (false, "❌ This wallet is already tracked").
Proof.
  intros W st r.
  assert (Hlen : (length (wallets_of "7" st) < 10)%nat) by (vm_compute; lia).
  split; [exact Hlen|].
  destruct (add_wallet_outcomes W st 7 "ADDR2" "Mon portefeuille préféré" Hlen)
    as [Hnew _].
  destruct (Hnew eq_refl) as (H1 & (ts & H2) & _).
  split; [exact H1|]. split.
  - exact (eq_trans (f_equal (map (fun aw => (fst aw, name (snd aw)))) H2) eq_refl).
  - destruct (add_wallet_outcomes W st 7 "ADDR1" "Again" Hlen) as [_ Hold].
    apply Hold. discriminate.
Defined.

(** X5.  Adding a wallet and then removing it by its address gives back
    the wallets the tenant had, in the same order; both calls succeed, and
    the reply to the removal shows the first 20 characters of the name. *)
Theorem add_then_remove_by_address (W : World) (st : State) (user_id : Z)
    (address name : string) :
  let ws := wallets_of (Text.str user_id) st in
  (length ws < 10)%nat ->
  dict_get address ws = None ->
  let st1 := snd (add_wallet W user_id address name st) in
  let r := remove_wallet W user_id address st1 in
  fst r = Ok (true, "✅ Removed *" +:+ Text.slice_to 20 name +:+ "*") /\
  wallets_of (Text.str user_id) (snd r) = ws /\
  persisted (snd r).
Proof.
  intros ws Hlen Hnew st1 r.
  destruct (add_wallet_new W user_id address name st Hlen Hnew)
    as (ts & st' & Hrun & Hw & _ & _).
  subst st1 r. rewrite Hrun. cbn [snd].
  destruct (remove_wallet_cases W st' user_id address) as (Ha & _ & _).
  rewrite Hw in Ha.
  destruct (Ha (Wallet (Text.slice_to 20 name) ts None 0)) as (H1 & H2 & H3).
  - fold ws. clear -Hnew. induction ws as [|[k v] ws IH]; cbn in *.
    + destruct (decide (address = address)); [reflexivity|contradiction].
    + destruct (decide (address = k)); [discriminate|now apply IH].
  - split; [exact H1|]. split; [|exact H3].
    rewrite H2. fold ws. now apply dict_del_last.
Qed.

Lemma add_then_remove_by_address_witness :
  let W := Examples.idle_world in
  let st := Examples.main_state in
  let st1 := snd (add_wallet W 7 "ADDR2" "Mon portefeuille préféré" st) in
  (length (wallets_of "7" st) < 10)%nat /\
  dict_get "ADDR2" (wallets_of "7" st) = None /\
  fst (remove_wallet W 7 "ADDR2" st1) = Ok (true, "✅ Removed *Mon portefeuille pré*") /\
  wallets_of "7" (snd (remove_wallet W 7 "ADDR2" st1)) = wallets_of "7" st.
Proof.
  intros W st st1.
  assert (Hlen : (length (wallets_of "7" st) < 10)%nat) by (vm_compute; lia).
  assert (Hnew : dict_get "ADDR2" (wallets_of "7" st) = None) by reflexivity.
  split; [exact Hlen|]. split; [exact Hnew|].
  destruct (add_then_remove_by_address W st 7 "ADDR2" "Mon portefeuille préféré"
              Hlen Hnew) as (H1 & H2 & _).
  split; [exact H1|exact H2].
Defined.

(** X6.  Removing a freshly added wallet by the name given to [add_wallet],
    when that name is no address of the tenant and no other wallet bears it:
    a name of at most 20 characters removes the wallet and gives back the
    wallets the tenant had.  A name that its first 20 characters do not
    equal up to case is not found, because those 20 characters are the
    stored name, and the wallet stays; so it is for every ASCII name of more
    than 20 characters. *)
Theorem add_then_remove_by_name (W : World) (st : State) (user_id : Z)
    (address label : string) :
  let ws := wallets_of (Text.str user_id) st in
  (length ws < 10)%nat ->
  dict_get address ws = None ->
  dict_get label ws = None ->
  label <> address ->
  Forall (fun aw => str_lower W (name (snd aw)) <> str_lower W label) ws ->
  let st1 := snd (add_wallet W user_id address label st) in
  let r := remove_wallet W user_id label st1 in
  let not_found :=
    fst r = Ok (false, "❌ Wallet not found") /\
    wallets_of (Text.str user_id) (snd r) = wallets_of (Text.str user_id) st1 /\
    dict_get address (wallets_of (Text.str user_id) (snd r)) <> None in
  ((Text.len label <= 20)%nat ->
   fst r = Ok (true, "✅ Removed *" +:+ label +:+ "*") /\
   wallets_of (Text.str user_id) (snd r) = ws) /\
  (str_lower W (Text.slice_to 20 label) <> str_lower W label -> not_found) /\
  (Text.is_ascii label = true -> (20 < Text.len label)%nat -> not_found).
Proof.
  intros ws Hlen Hnew Hname Hne Hothers st1 r not_found.
  destruct (add_wallet_new W user_id address label st Hlen Hnew)
    as (ts & st' & Hrun & Hw & _ & _).
  subst not_found r st1. rewrite Hrun. cbn [snd]. fold ws in Hw.
  destruct (remove_wallet_cases W st' user_id label) as (_ & Hb & Hc).
  rewrite Hw in Hb, Hc.
  assert (Hkey : ~ In label (dict_keys (ws ++ [(address, Wallet (Text.slice_to 20 label) ts None 0)]))).
  { apply dict_get_None_keys. now apply dict_get_app_new. }
  assert (Hdiff : str_lower W (Text.slice_to 20 label) <> str_lower W label ->
            fst (remove_wallet W user_id label st') = Ok (false, "❌ Wallet not found") /\
            wallets_of (Text.str user_id) (snd (remove_wallet W user_id label st'))
            = wallets_of (Text.str user_id) st' /\
            dict_get address
              (wallets_of (Text.str user_id) (snd (remove_wallet W user_id label st')))
            <> None).
  { intros Hd. destruct Hc as (H1 & H2); [exact Hkey| |].
    - apply Forall_app. split; [exact Hothers|]. constructor; [|constructor].
      exact Hd.
    - split; [exact H1|]. rewrite Hw. split; [exact H2|].
      rewrite H2. clear. induction ws as [|[k v] ws IH]; cbn.
      + destruct (decide (address = address)); [discriminate|contradiction].
      + destruct (decide (address = k)); [discriminate|exact IH]. }
  split; [|split].
  - intros Hshort.
    destruct (Hb ws address (Wallet (Text.slice_to 20 label) ts None 0) [])
      as (H1 & H2 & _); [exact Hkey|reflexivity|exact Hothers| |].
    + cbn [snd name]. now rewrite slice_to_short.
    + cbn [name] in H1. rewrite slice_to_short in H1 by exact Hshort.
      split; [exact H1|]. rewrite H2. now apply dict_del_last.
  - exact Hdiff.
  - intros Ha Hlong. apply Hdiff. now apply long_ascii_name_differs.
Qed.

Lemma add_then_remove_by_name_witness :
  let W := Examples.idle_world in
  let st := Examples.main_state in
  let long := "A name of more than twenty characters" in
  let eleven := "ééééééééééé" in
  (length (wallets_of "7" st) < 10)%nat /\
  fst (remove_wallet W 7 "second" (snd (add_wallet W 7 "ADDR2" "second" st)))
  = Ok (true, "✅ Removed *second*") /\
  (String.length eleven = 22%nat /\ Text.len eleven = 11%nat /\
   fst (remove_wallet W 7 eleven (snd (add_wallet W 7 "ADDR2" eleven st)))
   = Ok (true, "✅ Removed *ééééééééééé*")) /\
  fst (remove_wallet W 7 long (snd (add_wallet W 7 "ADDR2" long st)))
  = Ok (false, "❌ Wallet not found").
Proof.
  intros W st long eleven.
  assert (Hlen : (length (wallets_of "7" st) < 10)%nat) by (vm_compute; lia).
  assert (Hothers : forall n, str_lower W n <> "main" ->
            Forall (fun aw => str_lower W (name (snd aw)) <> str_lower W n)
                   (wallets_of "7" st)).
  { intros n Hn. constructor; [|constructor].
    intros H. apply Hn. rewrite <- H. reflexivity. }
  split; [exact Hlen|]. split; [|split].
  - destruct (add_then_remove_by_name W st 7 "ADDR2" "second" Hlen)
      as [Hshort _]; [reflexivity|reflexivity|discriminate| |].
    + apply Hothers. vm_compute. discriminate.
    + apply Hshort. vm_compute. lia.
  - split; [reflexivity|]. split; [reflexivity|].
    destruct (add_then_remove_by_name W st 7 "ADDR2" eleven Hlen)
      as [Hshort _]; [reflexivity|reflexivity|discriminate| |].
    + apply Hothers. vm_compute. discriminate.
    + apply Hshort. vm_compute. lia.
  - destruct (add_then_remove_by_name W st 7 "ADDR2" long Hlen)
      as (_ & _ & Hlong); [reflexivity|reflexivity|discriminate| |].
    + apply Hothers. vm_compute. discriminate.
    + apply Hlong; [reflexivity|vm_compute; lia].
Defined.

(** ** The emoji of an alert *)

Lemma lower_is_not_upper (c : ascii) : Text.is_lower c = true -> Text.is_upper c = false.
Proof. destruct c as [[] [] [] [] [] [] [] []]; vm_compute; congruence. Qed.

Lemma to_lower_is_not_upper (c : ascii) : Text.is_upper (Text.to_lower c) = false.
Proof. destruct c as [[] [] [] [] [] [] [] []]; vm_compute; congruence. Qed.

Lemma starts_with_cons (a b : ascii) (p s : string) :
  Text.starts_with (String a p) (String b s)
  = bool_decide (a = b) && Text.starts_with p s.
Proof. reflexivity. Qed.

Lemma str_in_cons (p : string) (c : ascii) (s : string) :
  Text.str_in p (String c s) = Text.starts_with p (String c s) || Text.str_in p s.
Proof. reflexivity. Qed.

(** After a cased character [title] never puts an upper-case letter. *)
Lemma title_after_cased (p : ascii) (rest s : string) :
  Text.is_upper p = true ->
  Text.starts_with (String p rest) (Text.title_from true s) = false.
Proof.
  intros Hp. destruct s as [|c s]; [reflexivity|]. cbn [Text.title_from].
  destruct (Text.is_lower c) eqn:Hl; [|destruct (Text.is_upper c) eqn:Hu];
    rewrite starts_with_cons;
    (destruct (bool_decide (p = _)) eqn:E; [|reflexivity]);
    apply bool_decide_eq_true in E; subst p.
  - now rewrite (lower_is_not_upper c Hl) in Hp.
  - now rewrite to_lower_is_not_upper in Hp.
  - congruence.
Qed.

(** A text with two upper-case letters in a row does not occur in a
    title-cased string. *)
Lemma two_capitals_not_in_title (p1 p2 : ascii) (rest : string) (b : bool) (s : string) :
  Text.is_upper p1 = true -> Text.is_upper p2 = true ->
  Text.str_in (String p1 (String p2 rest)) (Text.title_from b s) = false.
Proof.
  intros H1 H2. revert b. induction s as [|c s IH]; intros b; [reflexivity|].
  cbn [Text.title_from].
  destruct (Text.is_lower c) eqn:Hl; [|destruct (Text.is_upper c) eqn:Hu];
    rewrite str_in_cons, starts_with_cons, IH, orb_false_r.
  - rewrite title_after_cased by exact H2. apply andb_false_r.
  - rewrite title_after_cased by exact H2. apply andb_false_r.
  - destruct (bool_decide (p1 = c)) eqn:E; [|reflexivity].
    apply bool_decide_eq_true in E. congruence.
Qed.

(** X7.  The tests for [SWAP], [NFT] and [TRANSFER] are made on the type
    after [title()], which leaves no two capitals in a row: none of them ever
    holds, and every alert, whatever the type of its record, begins with the
    magnifying-glass emoji. *)
Theorem format_alert_emoji (W : World) (t : tx) (wallet_name wallet_address : string) :
  let type := Text.title (Text.replace_char "_" " " (default "TRANSACTION" (tx_type t))) in
  Text.str_in "SWAP" type = false /\
  Text.str_in "NFT" type = false /\
  Text.str_in "TRANSFER" type = false /\
  exists rest,
    format_alert W t wallet_name wallet_address = "🔍 *New Activity*" +:+ rest.
Proof.
  intros type.
  assert (H1 : Text.str_in "SWAP" type = false)
    by (apply two_capitals_not_in_title; reflexivity).
  assert (H2 : Text.str_in "NFT" type = false)
    by (apply two_capitals_not_in_title; reflexivity).
  assert (H3 : Text.str_in "TRANSFER" type = false)
    by (apply two_capitals_not_in_title; reflexivity).
  repeat (split; [assumption|]).
  unfold format_alert. fold type. rewrite H1, H2, H3.
  eexists. reflexivity.
Qed.

(** ** Who is written to, and how often *)

Lemma trace_grows_refl P st : trace_grows P st st.
Proof. exists []. now rewrite app_nil_r. Qed.

Lemma trace_grows_trans P s1 s2 s3 :
  trace_grows P s1 s2 -> trace_grows P s2 s3 -> trace_grows P s1 s3.
Proof.
  intros (d1 & H1 & F1) (d2 & H2 & F2). exists (d1 ++ d2).
  rewrite H2, H1, <- app_assoc. split; [reflexivity|]. apply Forall_app. now split.
Qed.

Lemma trace_grows_impl (P Q : event -> Prop) st st' :
  (forall e, P e -> Q e) -> trace_grows P st st' -> trace_grows Q st st'.
Proof.
  intros H (d & Htr & F). exists d. split; [exact Htr|].
  revert F. now apply List.Forall_impl.
Qed.

Lemma sent_texts_app (d1 d2 : list event) :
  sent_texts (d1 ++ d2) = sent_texts d1 ++ sent_texts d2.
Proof. unfold sent_texts. apply flat_map_app. Qed.

Lemma sent_texts_fetch (evs : list event) :
  Forall fetch_event evs -> sent_texts evs = [].
Proof.
  intros H. induction H as [|e evs He _ IH]; [reflexivity|].
  destruct e; cbn in *; try contradiction; exact IH.
Qed.

Section Recipients.
Variable W : World.

Lemma send_message_to chat text :
  preserves (trace_grows (to_chat chat)) (send_message W chat text).
Proof.
  intros st. rewrite send_message_run. eexists. split; [reflexivity|].
  constructor; [reflexivity|constructor].
Qed.

Lemma get_user_to chat uid : preserves (trace_grows (to_chat chat)) (get_user W uid).
Proof.
  intros st. destruct (get_user_cases W uid st) as (u & s1 & Hg & _ & _ & _ & Htr & _).
  rewrite Hg. exists []. cbn. now rewrite app_nil_r.
Qed.

Lemma poll_to chat uid ws : preserves (trace_grows (to_chat chat)) (poll W uid ws).
Proof.
  intros st. destruct (poll_frame_poll W uid ws st) as (al & s1 & Hrun & Hf).
  rewrite Hrun. apply (trace_grows_impl fetch_event); [|exact (pf_trace _ _ _ Hf)].
  intros [ | | | ]; cbn; tauto.
Qed.

Lemma check_report_to update alerts :
  preserves (trace_grows (to_chat (chat_id update))) (check_report W update alerts).
Proof.
  pose proof (trace_grows_refl (to_chat (chat_id update))) as Hr.
  pose proof (trace_grows_trans (to_chat (chat_id update))) as Ht.
  unfold check_report, reply_text. destruct alerts as [|a alerts];
    [apply send_message_to|].
  apply preserves_bind; [assumption| |intros _].
  { intros st. exists []. cbn. now rewrite app_nil_r. }
  apply preserves_bind; [assumption| |intros _].
  - apply preserves_for_each; [assumption..|]. intros [[t n] addr].
    apply preserves_bind; [assumption|apply send_message_to|intros _].
    intros st. eexists. split; [reflexivity|]. now repeat constructor.
  - destruct (3 <? length (a :: alerts))%nat;
      [apply send_message_to|now apply preserves_ret].
Qed.

Lemma check_command_to update :
  preserves (trace_grows (to_chat (chat_id update))) (check_command W update).
Proof.
  pose proof (trace_grows_refl (to_chat (chat_id update))) as Hr.
  pose proof (trace_grows_trans (to_chat (chat_id update))) as Ht.
  unfold check_command, reply_text.
  apply preserves_bind; [assumption|apply get_user_to|intros u].
  destruct (wallets u) as [|aw ws]; [apply send_message_to|].
  apply preserves_bind; [assumption|apply send_message_to|intros _].
  apply preserves_bind; [assumption|apply poll_to|intros alerts].
  apply check_report_to.
Qed.

Lemma store_command_to update (r : request) :
  (exists args, r = Add update args \/ r = Remove update args) ->
  preserves (trace_grows (to_chat (chat_id update))) (handle W r).
Proof.
  pose proof (trace_grows_refl (to_chat (chat_id update))) as Hr.
  pose proof (trace_grows_trans (to_chat (chat_id update))) as Ht.
  assert (Hstore : forall A (m : M A),
             (forall st, trace (snd (m st)) = trace st) ->
             preserves (trace_grows (to_chat (chat_id update))) m).
  { intros A m H st. exists []. now rewrite app_nil_r, H. }
  intros (args & [-> | ->]); cbn [handle].
  - unfold add_command, reply_text.
    destruct args as [|address [|n names]]; try apply send_message_to.
    apply preserves_bind; [assumption| |intros r; apply send_message_to].
    apply Hstore. intros st.
    destruct (get_user_cases W (effective_user_id update) st)
      as (u & s1 & Hg & _ & _ & _ & Htr & _).
    rewrite (add_wallet_run W _ _ _ _ _ _ Hg).
    destruct (10 <=? length (wallets u))%nat; [exact Htr|].
    destruct (dict_mem address (wallets u)); exact Htr.
  - unfold remove_command, reply_text.
    destruct args as [|a args]; [apply send_message_to|].
    apply preserves_bind; [assumption| |intros r; apply send_message_to].
    apply Hstore. intros st.
    destruct (get_user_cases W (effective_user_id update) st)
      as (u & s1 & Hg & _ & _ & _ & Htr & _).
    rewrite (remove_wallet_run W _ _ _ _ _ Hg).
    destruct (dict_get _ (wallets u)); [exact Htr|].
    destruct (find _ _) as [[addr data]|]; exact Htr.
Qed.

(** The sends of the delivery loop: all to the tenant, and their texts are
    the texts of the first alerts, in order. *)
Lemma send_alerts_sends user_id user_id_str alerts st :
  exists delta k,
    trace (snd (send_alerts W user_id user_id_str alerts st)) = trace st ++ delta /\
    Forall (to_chat user_id) delta /\
    (k <= length alerts)%nat /\
    sent_texts delta = firstn k (map (alert_text W) alerts).
Proof.
  revert st. induction alerts as [|[[t n] addr] rest IH]; intros st.
  - exists [], 0%nat. cbn. rewrite app_nil_r. repeat split; constructor.
  - rewrite send_alerts_step. cbn zeta.
    destruct (telegram W (ticks st) user_id (format_alert W t n addr))
      as [msg|] eqn:Htg.
    + destruct (is_unreachable (TelegramError msg)).
      * eexists _, 1%nat. cbn [snd removed sent trace]. rewrite Htg, <- app_assoc.
        split; [reflexivity|]. split; [now repeat constructor|].
        split; [cbn; lia|reflexivity].
      * destruct (IH (sent W user_id (format_alert W t n addr) st))
          as (d & k & Htr & Hto & Hk & Htx).
        exists (EvSend user_id (format_alert W t n addr) (Some msg) :: d), (S k).
        rewrite Htr. cbn [sent trace]. rewrite Htg, <- app_assoc.
        split; [reflexivity|]. split; [now constructor|].
        split; [cbn; lia|]. cbn. now rewrite <- Htx.
    + destruct (IH (slept 1 (sent W user_id (format_alert W t n addr) st)))
        as (d & k & Htr & Hto & Hk & Htx).
      exists (EvSend user_id (format_alert W t n addr) None :: EvSleep 1 :: d), (S k).
      rewrite Htr. cbn [slept set_trace sent trace]. rewrite Htg, <- !app_assoc.
      split; [reflexivity|]. split; [now repeat constructor|].
      split; [cbn; lia|]. cbn. now rewrite <- Htx.
Qed.

End Recipients.

(** X8.  The scheduled step of a tenant that [get_user] created writes to
    the chat of that tenant only, at most three times, and what it sends are
    the texts of the first alerts of the poll, in their order. *)
Theorem monitor_writes_to_the_tenant (W : World) (user_id : Z) (user_data : user)
    (st : State) :
  let st' := snd (monitor_user W (Text.str user_id) user_data st) in
  exists alerts delta k,
    fst (poll W (Text.str user_id) (wallets user_data) st) = Ok alerts /\
    trace st' = trace st ++ delta /\
    Forall (to_chat user_id) delta /\
    (k <= 3)%nat /\
    sent_texts delta = firstn k (map (alert_text W) alerts).
Proof.
  cbn zeta.
  destruct (poll_frame_poll W (Text.str user_id) (wallets user_data) st)
    as (alerts & s1 & Hrun & Hf).
  rewrite (monitor_user_of_tenant W _ _ _ _ _ Hrun), Hrun.
  destruct (pf_trace _ _ _ Hf) as (evs & Htr & Hevs).
  exists alerts. destruct alerts as [|a alerts].
  - exists evs, 0%nat. cbn. repeat split; try assumption; try lia.
    + revert Hevs. apply List.Forall_impl. intros [ | | | ]; cbn; tauto.
    + now apply sent_texts_fetch.
  - rewrite monitor_report_cons.
    match goal with |- context [send_alerts W user_id ?k0 ?l ?s] =>
      destruct (send_alerts_sends W user_id k0 l s) as (d & k & Htr2 & Hto & Hk & Htx)
    end.
    exists (evs ++ d), k. cbn [trace] in Htr2. split; [reflexivity|].
    split; [now rewrite Htr2, Htr, <- app_assoc|]. split; [|split].
    + apply Forall_app. split; [|exact Hto].
      revert Hevs. apply List.Forall_impl. intros [ | | | ]; cbn; tauto.
    + rewrite length_firstn in Hk. lia.
    + rewrite sent_texts_app, (sent_texts_fetch _ Hevs), Htx. cbn [app].
      rewrite <- firstn_map, firstn_firstn. f_equal. rewrite length_firstn in Hk. lia.
Qed.

(** X9.  What [add_command], [remove_command] and [check_command] send goes
    to the chat the command came from, and to no other. *)
Theorem commands_answer_their_chat (W : World) (update : Update) (r : request)
    (st : State) :
  (exists args, r = Add update args \/ r = Remove update args) \/ r = Check update ->
  trace_grows (to_chat (chat_id update)) st (snd (handle W r st)).
Proof.
  intros [H| ->].
  - now apply store_command_to.
  - apply check_command_to.
Qed.

Lemma commands_answer_their_chat_witness :
  let W := Examples.busy_world in
  trace_grows (to_chat 7) Examples.two_tenants
    (snd (handle W (Check Examples.update7) Examples.two_tenants)) /\
  trace_grows (to_chat 8) Examples.two_tenants
    (snd (handle W (Add Examples.update8 ["ADDR2"; "Second"]) Examples.two_tenants)).
Proof.
  intros W. split.
  - apply (commands_answer_their_chat W Examples.update7). now right.
  - apply (commands_answer_their_chat W Examples.update8). left. eexists. now left.
Defined.

(** ** A pass of [auto_monitor] *)

Lemma length_dict_del_present {V} (k : string) (d : dict V) :
  In k (dict_keys d) -> (length (dict_del k d) < length d)%nat.
Proof.
  unfold dict_keys. induction d as [|[k' v'] d IH]; cbn [map fst In]; [intros []|].
  intros Hin. cbn [dict_del]. destruct (decide (k = k')) as [->|Hne].
  - pose proof (length_dict_del k' d). cbn. lia.
  - destruct Hin as [Heq|Hin]; [congruence|]. cbn. specialize (IH Hin). lia.
Qed.

Section Pass.
Variable W : World.

(** The trace of the delivery loop tells whether the tenant was removed. *)
Lemma send_alerts_users user_id user_id_str alerts st :
  let st' := snd (send_alerts W user_id user_id_str alerts st) in
  exists delta,
    trace st' = trace st ++ delta /\
    users st' = if existsb failed_unreachable delta
                then dict_del user_id_str (users st) else users st.
Proof.
  revert st. induction alerts as [|[[t n] addr] rest IH]; intros st.
  - exists []. cbn. now rewrite app_nil_r.
  - cbn zeta. rewrite send_alerts_step. cbn zeta.
    destruct (telegram W (ticks st) user_id (format_alert W t n addr))
      as [msg|] eqn:Htg.
    + destruct (is_unreachable (TelegramError msg)) eqn:Hun.
      * eexists. cbn [snd removed sent trace users]. rewrite Htg, <- app_assoc.
        split; [reflexivity|]. cbn. now rewrite Hun.
      * destruct (IH (sent W user_id (format_alert W t n addr) st)) as (d & Htr & Hu).
        eexists. rewrite Htr, Hu. cbn [sent trace users]. rewrite Htg, <- app_assoc.
        split; [reflexivity|]. cbn. now rewrite Hun.
    + destruct (IH (slept 1 (sent W user_id (format_alert W t n addr) st)))
        as (d & Htr & Hu).
      eexists. rewrite Htr, Hu. cbn [slept set_trace sent trace users].
      rewrite Htg, <- !app_assoc. split; [reflexivity|]. reflexivity.
Qed.

(** The poll requests the records of every address it is given. *)
Lemma poll_fetches uid ws st :
  exists alerts st' evs,
    poll W uid ws st = (Ok alerts, st') /\
    trace st' = trace st ++ evs /\ Forall fetch_event evs /\
    forall address, In address (dict_keys ws) -> fetched_in address evs.
Proof.
  destruct (foldM_invariant (poll_wallet W uid)
              (fun done _ st' =>
                 exists evs, trace st' = trace st ++ evs /\ Forall fetch_event evs /\
                   forall address, In address (dict_keys done) -> fetched_in address evs)
              ws) with (acc := @nil alert) (st := st)
    as (alerts & st' & Hrun & evs & Htr & Hev & Hall).
  - intros done aw rest acc0 st0 _ (evs & Htr & Hev & Hall).
    destruct (poll_wallet_frame W uid acc0 aw st0) as (acc1 & st1 & Hrun & _).
    exists acc1, st1. split; [exact Hrun|].
    unfold poll_wallet, bind in Hrun. rewrite fetch_transactions_run in Hrun.
    match type of Hrun with foldM ?b ?l ?a ?s = _ =>
      destruct (poll_txs_frame W uid (fst aw) (name (snd aw)) l a s)
        as (acc2 & st2 & Hrun2 & Hf2) end.
    rewrite Hrun2 in Hrun. injection Hrun as <- <-.
    destruct (pf_trace _ _ _ Hf2) as (evs2 & Htr2 & Hev2). cbn [trace] in Htr2.
    eexists. rewrite Htr2, Htr, <- !app_assoc. split; [reflexivity|]. split.
    + apply Forall_app. split; [exact Hev|]. apply Forall_app. split; [|exact Hev2].
      constructor; [exact I|].
      destruct (http_get W (ticks st0) (fst aw) 5); repeat constructor.
    + intros address Ha. unfold dict_keys in Ha. rewrite map_app in Ha.
      apply in_app_or in Ha as [Ha|[<-|[]]].
      * destruct (Hall address Ha) as (r & Hr). exists r. apply in_or_app. now left.
      * eexists. apply in_or_app. right. apply in_or_app. left. now left.
  - exists []. rewrite app_nil_r. repeat split; [constructor|intros a []].
  - now exists alerts, st', evs.
Qed.

Lemma monitor_loop_raises used k u rest st :
  length (users st) = used ->
  length (users (snd (monitor_user W k u st))) <> used ->
  monitor_loop W used ((k, u) :: rest) st
  = (Raised (RuntimeError "dictionary changed size during iteration"),
     snd (monitor_user W k u st)).
Proof.
  intros Hlen Hne. rewrite (monitor_loop_goes_on W used k u rest st Hlen).
  now apply monitor_loop_aborts.
Qed.

(** The users after the step of a tenant, read from its trace. *)
Lemma monitor_user_users k u st :
  let st' := snd (monitor_user W k u st) in
  exists delta,
    trace st' = trace st ++ delta /\
    dict_keys (users st')
    = dict_keys (if existsb failed_unreachable delta
                 then dict_del k (users st) else users st) /\
    (existsb failed_unreachable delta = true ->
     (length (users st') <= length (dict_del k (users st)))%nat).
Proof.
  cbn zeta. destruct (Text.py_int k) as [z|] eqn:Hint.
  - destruct (poll_frame_poll W k (wallets u) st) as (alerts & s1 & Hp & Hf).
    rewrite (monitor_user_parsed W _ _ _ _ _ _ Hint Hp).
    destruct (pf_trace _ _ _ Hf) as (evs & Htr & Hevs).
    destruct alerts as [|a alerts].
    + exists evs. cbn. split; [exact Htr|].
      destruct (stops_at_unreachable_app evs [] Hevs) as [_ He].
      rewrite app_nil_r in He. rewrite He. cbn.
      split; [exact (pf_keys _ _ _ Hf)|discriminate].
    + rewrite monitor_report_cons.
      match goal with |- context [send_alerts W z k ?l ?s] =>
        destruct (send_alerts_users z k l s) as (d & Htr2 & Hu) end.
      cbn [trace users] in Htr2, Hu.
      exists (evs ++ d). split; [now rewrite Htr2, Htr, <- app_assoc|].
      destruct (stops_at_unreachable_app evs d Hevs) as [_ ->].
      rewrite Hu. pose proof (pf_keys _ _ _ Hf) as Hk.
      assert (Hdel : dict_keys (dict_del k (users s1)) = dict_keys (dict_del k (users st))
                     /\ length (dict_del k (users s1)) = length (dict_del k (users st))).
      { clear -Hk. unfold dict_keys in *.
        generalize dependent (users st). induction (users s1) as [|[k1 v1] d1 IH];
          intros [|[k2 v2] d2] Hk; cbn in *; try discriminate; [now split|].
        injection Hk as -> Hk. destruct (IH d2 Hk) as [H1 H2].
        destruct (decide (k = k2)); cbn; [now split|]. split; congruence. }
      destruct (existsb failed_unreachable d).
      * split; [exact (proj1 Hdel)|]. intros _. rewrite (proj2 Hdel). lia.
      * split; [exact Hk|discriminate].
  - rewrite (monitor_user_unparsed W _ _ _ Hint).
    eexists. split; [reflexivity|]. cbn. split; [reflexivity|discriminate].
Qed.

End Pass.

(** X10.  In the tenant loop of [auto_monitor], when the step of a tenant
    of [db.users] has a send refused with an error of the unreachable class,
    the loop ends there with [RuntimeError]: the tenants that come after it
    are not polled in this pass, whoever they are. *)
Theorem removal_ends_the_pass (W : World) (used : nat) (user_id_str : string)
    (user_data : user) (rest : dict user) (st : State) (pre post : list event)
    (chat : Z) (text msg : string) :
  let st' := snd (monitor_user W user_id_str user_data st) in
  length (users st) = used ->
  In user_id_str (dict_keys (users st)) ->
  trace st' = trace st ++ pre ++ EvSend chat text (Some msg) :: post ->
  is_unreachable (TelegramError msg) = true ->
  monitor_loop W used ((user_id_str, user_data) :: rest) st
  = (Raised (RuntimeError "dictionary changed size during iteration"), st').
Proof.
  intros st' Hlen Hin Htr Hun. apply monitor_loop_raises; [exact Hlen|].
  destruct (monitor_user_users W user_id_str user_data st) as (delta & Htr' & _ & Hle).
  fold st' in Htr', Hle. rewrite Htr in Htr'. apply app_inv_head in Htr'. subst delta.
  pose proof (length_dict_del_present user_id_str (users st) Hin) as Hlt.
  assert (He : existsb failed_unreachable (pre ++ EvSend chat text (Some msg) :: post)
               = true).
  { rewrite existsb_app. cbn [existsb failed_unreachable]. rewrite Hun.
    now rewrite orb_true_r. }
  specialize (Hle He). subst st'. lia.
Qed.

Lemma removal_ends_the_pass_witness :
  let W := Examples.blocked_world in
  let st := Examples.two_tenants in
  is_unreachable (TelegramError "Forbidden: bot was blocked by the user") = true /\
  monitor_loop W 2 [("7", Examples.main_user); ("8", Examples.main_user)] st
  = (Raised (RuntimeError "dictionary changed size during iteration"),
     snd (monitor_user W "7" Examples.main_user st)).
Proof.
  intros W st.
  assert (Hun : is_unreachable
                  (TelegramError "Forbidden: bot was blocked by the user") = true)
    by reflexivity.
  split; [exact Hun|].
  apply (removal_ends_the_pass W 2 "7" Examples.main_user
           [("8", Examples.main_user)] st
           [EvFetch "ADDR1" 5 (HttpReply 200 [Examples.record "sigA"])]
           [EvPrint "User 7 blocked bot, removing..."]
           7 (format_alert W (Examples.record "sigA") "Main" "ADDR1")
           "Forbidden: bot was blocked by the user").
  - reflexivity.
  - left. reflexivity.
  - vm_compute. reflexivity.
  - exact Hun.
Defined.

Lemma fetched_in_app (address : string) (d1 d2 : list event) :
  fetched_in address d1 \/ fetched_in address d2 -> fetched_in address (d1 ++ d2).
Proof.
  intros [(r & H)|(r & H)]; exists r; apply in_or_app; [now left|now right].
Qed.

Section CompletePass.
Variable W : World.
Hypothesis Hnever : never_unreachable W.

Lemma send_alerts_keeps_users user_id user_id_str alerts st :
  users (snd (send_alerts W user_id user_id_str alerts st)) = users st.
Proof.
  revert st. induction alerts as [|[[t n] addr] rest IH]; intros st; [reflexivity|].
  rewrite send_alerts_step. cbn zeta.
  destruct (telegram W (ticks st) user_id (format_alert W t n addr))
    as [msg|] eqn:Htg.
  - rewrite (Hnever _ _ _ _ Htg). now rewrite IH.
  - now rewrite IH.
Qed.

Lemma monitor_user_pass k u st :
  let st' := snd (monitor_user W k u st) in
  dict_keys (users st') = dict_keys (users st) /\
  exists delta,
    trace st' = trace st ++ delta /\
    (Text.py_int k <> None ->
     forall address, In address (dict_keys (wallets u)) -> fetched_in address delta).
Proof.
  cbn zeta. destruct (Text.py_int k) as [z|] eqn:Hint.
  - destruct (poll_fetches W k (wallets u) st)
      as (alerts & s1 & evs & Hp & Htr & _ & Hall).
    destruct (poll_frame_poll W k (wallets u) st) as (al' & s1' & Hp' & Hf).
    rewrite Hp in Hp'. injection Hp' as <- <-.
    rewrite (monitor_user_parsed W _ _ _ _ _ _ Hint Hp).
    destruct alerts as [|a alerts].
    + cbn. split; [exact (pf_keys _ _ _ Hf)|]. exists evs. split; [exact Htr|].
      intros _. exact Hall.
    + rewrite monitor_report_cons, send_alerts_keeps_users. cbn [users].
      split; [exact (pf_keys _ _ _ Hf)|].
      match goal with |- context [send_alerts W z k ?l ?s] =>
        destruct (send_alerts_users W z k l s) as (d & Htr2 & _) end.
      cbn [trace] in Htr2. exists (evs ++ d).
      split; [now rewrite Htr2, Htr, <- app_assoc|].
      intros _ address Ha. apply fetched_in_app. left. now apply Hall.
  - rewrite (monitor_user_unparsed W _ _ _ Hint). split; [reflexivity|].
    eexists. split; [reflexivity|]. intros H. contradiction.
Qed.

Lemma monitor_loop_pass used items st :
  length (users st) = used ->
  let r := monitor_loop W used items st in
  fst r = Ok tt /\
  dict_keys (users (snd r)) = dict_keys (users st) /\
  exists delta, trace (snd r) = trace st ++ delta /\ all_fetched items delta.
Proof.
  revert st. induction items as [|[k u] rest IH]; intros st Hlen; cbn zeta.
  - cbn [monitor_loop]. unfold next_item, bind, get_state, ret.
    destruct (decide (length (users st) = used)); [|contradiction].
    cbn. repeat split. exists []. rewrite app_nil_r. split; [reflexivity|].
    intros k u a [].
  - rewrite (monitor_loop_goes_on W used k u rest st Hlen).
    destruct (monitor_user_pass k u st) as (Hk & d1 & Htr1 & Hf1).
    destruct (IH (snd (monitor_user W k u st))) as (Hok & Hk2 & d2 & Htr2 & Hf2).
    { rewrite <- Hlen. unfold dict_keys in Hk.
      now rewrite <- (length_map fst), Hk, length_map. }
    split; [exact Hok|]. split; [congruence|].
    exists (d1 ++ d2). split; [now rewrite Htr2, Htr1, <- app_assoc|].
    intros k' u' a [[= <- <-]|Hin] Hp Ha; apply fetched_in_app.
    + left. now apply Hf1.
    + right. exact (Hf2 k' u' a Hin Hp Ha).
Qed.

End CompletePass.



(** ** One key per tenant, address and record *)

Lemma before_underscore_plain (a x : string) :
  Text.str_in "_" a = false ->
  Text.before_underscore (a +:+ String "_" x) = a.
Proof.
  induction a as [|c a IH]; intros H.
  - rewrite append_empty_l. cbn [Text.before_underscore].
    destruct (decide _) as [_|Hne]; [reflexivity|now contradiction Hne].
  - rewrite str_in_cons in H. apply orb_false_iff in H as [Hc Ha].
    rewrite append_cons. cbn [Text.before_underscore].
    destruct (decide (c = "_"%char)) as [->|_]; [discriminate Hc|].
    now rewrite IH.
Qed.

Lemma cache_key_is_injective_aux (z : Z) (a a' s s' : string) :
  Text.str_in "_" a = false ->
  Text.str_in "_" a' = false ->
  cache_key (Text.str z) a s = cache_key (Text.str z) a' s' ->
  a = a' /\ s = s'.
Proof.
  intros Ha Ha' Hk. unfold cache_key in Hk.
  apply (inj (String.append (Text.str z))) in Hk.
  rewrite !append_cons, !append_empty_l in Hk. injection Hk as Hk.
  assert (Haa : a = a').
  { rewrite <- (before_underscore_plain a s Ha),
            <- (before_underscore_plain a' s' Ha'). now rewrite Hk. }
  subst a'. split; [reflexivity|]. apply (inj (String.append a)) in Hk.
  now injection Hk as ->.
Qed.

(** X12.  For tenants that [get_user] created and addresses without an
    underscore, the cache key determines the tenant, the address and the
    signature: two records are never taken for one another. *)
Theorem cache_key_is_injective (z z' : Z) (a a' s s' : string) :
  Text.str_in "_" a = false ->
  Text.str_in "_" a' = false ->
  cache_key (Text.str z) a s = cache_key (Text.str z') a' s' ->
  z = z' /\ a = a' /\ s = s'.
Proof.
  intros Ha Ha' Hk.
  assert (Hz : z = z') by exact (cache_key_tenant _ _ _ _ _ _ Hk). subst z'.
  split; [reflexivity|]. exact (cache_key_is_injective_aux z a a' s s' Ha Ha' Hk).
Qed.

Lemma cache_key_is_injective_witness :
  Text.str_in "_" "ADDR1" = false /\
  (forall s s', cache_key "7" "ADDR1" s = cache_key "7" "ADDR1" s' -> s = s').
Proof.
  assert (H : Text.str_in "_" "ADDR1" = false) by reflexivity.
  split; [exact H|]. intros s s' Hk.
  exact (proj2 (proj2 (cache_key_is_injective 7 7 "ADDR1" "ADDR1" s s' H H Hk))).
Defined.

(** ** A poll misses nothing *)

Lemma only_alert_keys_nil uid st : only_alert_keys uid st st [].
Proof. intros k H. now left. Qed.

Lemma only_alert_keys_app uid s1 s2 s3 n1 n2 :
  only_alert_keys uid s1 s2 n1 -> only_alert_keys uid s2 s3 n2 ->
  only_alert_keys uid s1 s3 (n1 ++ n2).
Proof.
  intros H1 H2 k Hk. rewrite map_app.
  destruct (H2 k Hk) as [H|H].
  - destruct (H1 k H) as [H'|H']; [now left|right; apply in_or_app; now left].
  - right. apply in_or_app. now right.
Qed.

Section PollComplete.
Variable W : World.

Lemma poll_only_alert_keys uid ws st :
  exists alerts st',
    poll W uid ws st = (Ok alerts, st') /\ only_alert_keys uid st st' alerts.
Proof.
  destruct (foldM_collect (only_alert_keys uid) (poll_wallet W uid) ws
              (only_alert_keys_nil uid) (only_alert_keys_app uid)) with
    (acc := @nil alert) (st := st) as (new & st' & Hrun & HJ).
  - intros acc aw st0 _. unfold poll_wallet, bind.
    rewrite fetch_transactions_run.
    match goal with |- context [foldM ?b ?l ?a ?s] =>
      destruct (foldM_collect (only_alert_keys uid) b l
                  (only_alert_keys_nil uid) (only_alert_keys_app uid)) with
        (acc := a) (st := s) as (new & st1 & Hrun1 & HJ) end.
    + intros acc0 t st1 _.
      destruct (poll_tx_cases W uid (fst aw) (name (snd aw)) acc0 t st1)
        as [[Hr _]|(s & Hid & _ & Hr)]; rewrite Hr.
      * exists [], st1. rewrite app_nil_r. split; [reflexivity|].
        apply only_alert_keys_nil.
      * eexists [_], _. split; [reflexivity|].
        intros k [v Hv]. cbn [tx_cache] in Hv.
        destruct (decide (cache_key uid (fst aw) s = k)) as [<-|Hne].
        -- right. left. unfold alert_key, tx_id_of in *. cbn [fst snd].
           destruct (signature t) as [s'|]; [|discriminate].
           destruct (decide (s' = EmptyString)); [discriminate|].
           now injection Hid as ->.
        -- left. rewrite lookup_insert_ne in Hv by exact Hne. now exists v.
    + exists new, st1. split; [exact Hrun1|]. exact HJ.
  - now exists new, st'.
Qed.

End PollComplete.

(** X13.  With a source that answers the same way each time, a poll misses
    nothing: for every address polled and every record of the source with an
    identifier whose key is not in the cache, the poll returns an alert with
    that key.  When the tenant was created by [get_user] and the addresses
    hold no underscore, that alert is on this very address and carries this
    very signature. *)
Theorem poll_misses_nothing (W : World) (user_id : Z) (ws : dict wallet) (st : State)
    (address s : string) (t : tx) :
  steady_source W ->
  In address (dict_keys ws) ->
  In t (fetched (http_get W 0 address 5)) ->
  tx_id_of t = Some s ->
  tx_cache st !! cache_key (Text.str user_id) address s = None ->
  exists alerts al,
    fst (poll W (Text.str user_id) ws st) = Ok alerts /\
    In al alerts /\
    alert_key (Text.str user_id) al = cache_key (Text.str user_id) address s /\
    (Forall (fun a => Text.str_in "_" a = false) (dict_keys ws) ->
     snd al = address /\ signature (fst (fst al)) = Some s).
Proof.
  intros Hsteady Ha Ht Hs Hnone.
  destruct (poll_covers W Hsteady (Text.str user_id) ws st) as (alerts & st' & Hrun & Hc).
  destruct (poll_only_alert_keys W (Text.str user_id) ws st)
    as (al1 & st1 & Hrun1 & Honly).
  destruct (poll_yields W (Text.str user_id) ws st) as (al2 & st2 & Hrun2 & Hy).
  rewrite Hrun in Hrun1, Hrun2. injection Hrun1 as <- <-. injection Hrun2 as <- <-.
  destruct (Honly _ (Hc address t s Ha Ht Hs)) as [[v Hv]|Hin]; [congruence|].
  apply in_map_iff in Hin as (al & Hkey & Hin).
  exists alerts, al. rewrite Hrun. cbn [fst].
  split; [reflexivity|]. split; [exact Hin|]. split; [exact Hkey|].
  intros Hplain. destruct Hy as (_ & _ & _ & Hgen).
  rewrite List.Forall_forall in Hgen, Hplain.
  destruct (Hgen al Hin) as ((w & Hw & _) & Hid & _).
  unfold alert_key in Hkey.
  apply cache_key_is_injective_aux in Hkey.
  - destruct Hkey as [Haddr Hsig]. split; [exact Haddr|].
    unfold tx_id_of in Hid. destruct (signature (fst (fst al))) as [s0|];
      [|contradiction]. cbn in Hsig. now rewrite Hsig.
  - apply Hplain. apply (in_map fst) in Hw. exact Hw.
  - now apply Hplain.
Qed.

Lemma poll_misses_nothing_witness :
  let W := Examples.busy_world in
  steady_source W /\
  exists alerts al,
    fst (poll W "7" (wallets Examples.main_user) Examples.main_state) = Ok alerts /\
    In al alerts /\ snd al = "ADDR1" /\ signature (fst (fst al)) = Some "sig5".
Proof.
  intros W.
  assert (Hs : steady_source W) by (intros i j a l; reflexivity).
  split; [exact Hs|].
  destruct (poll_misses_nothing W 7 (wallets Examples.main_user) Examples.main_state
              "ADDR1" "sig5" (Examples.record "sig5") Hs)
    as (alerts & al & Hrun & Hin & _ & Hplain).
  - left. reflexivity.
  - cbn. tauto.
  - reflexivity.
  - reflexivity.
  - exists alerts, al. split; [exact Hrun|]. split; [exact Hin|].
    apply Hplain. repeat constructor.
Defined.

(** ** The database stays in order *)

Lemma dict_update_update {V} (k : string) (f g : V -> V) (d : dict V) :
  dict_update k g (dict_update k f d) = dict_update k (fun v => g (f v)) d.
Proof.
  induction d as [|[k' v'] d IH]; [reflexivity|]. cbn [dict_update].
  destruct (decide (k = k')) as [->|Hne]; cbn [dict_update].
  - destruct (decide (k' = k')); [reflexivity|contradiction].
  - destruct (decide (k = k')); [contradiction|now rewrite IH].
Qed.

Lemma dict_keys_set_new {V} (k : string) (v : V) (d : dict V) :
  dict_get k d = None -> dict_keys (dict_set k v d) = dict_keys d ++ [k].
Proof.
  intros H. rewrite (dict_set_new _ _ _ H). unfold dict_keys. now rewrite map_app.
Qed.

Lemma NoDup_keys_set_new {V} (k : string) (v : V) (d : dict V) :
  dict_get k d = None -> List.NoDup (dict_keys d) ->
  List.NoDup (dict_keys (dict_set k v d)).
Proof.
  intros H Hnd. rewrite (dict_keys_set_new _ _ _ H).
  apply List.NoDup_app; [exact Hnd|repeat constructor; intros []|].
  intros k' Hin [<-|[]]. now apply dict_get_None_keys in H.
Qed.

Lemma In_keys_del {V} (k k' : string) (d : dict V) :
  In k' (dict_keys (dict_del k d)) -> In k' (dict_keys d).
Proof.
  unfold dict_keys. induction d as [|[k0 v0] d IH]; cbn [dict_del map fst]; [intros []|].
  destruct (decide (k = k0)); cbn [map fst In]; intuition.
Qed.

Lemma NoDup_keys_del {V} (k : string) (d : dict V) :
  List.NoDup (dict_keys d) -> List.NoDup (dict_keys (dict_del k d)).
Proof.
  unfold dict_keys. induction d as [|[k0 v0] d IH]; cbn [dict_del map fst];
    [intros; constructor|].
  intros Hnd. apply List.NoDup_cons_iff in Hnd as [Hk Hnd].
  destruct (decide (k = k0)); [now apply IH|]. cbn [map fst].
  constructor; [|now apply IH]. intros Hin. apply Hk. exact (In_keys_del _ _ _ Hin).
Qed.

Lemma total_tx_count_app (ws1 ws2 : dict wallet) :
  total_tx_count (ws1 ++ ws2) = total_tx_count ws1 + total_tx_count ws2.
Proof.
  induction ws1 as [|[k w] ws1 IH]; [reflexivity|].
  cbn [app]. rewrite !total_tx_count_cons, IH. lia.
Qed.

Lemma total_tx_count_del a (ws : dict wallet) :
  Forall (fun aw : string * wallet => 0 <= tx_count (snd aw)) ws ->
  total_tx_count (dict_del a ws) <= total_tx_count ws.
Proof.
  intros H. induction H as [|[k w] ws Hw _ IH]; [reflexivity|].
  cbn [dict_del]. destruct (decide (a = k)); rewrite !total_tx_count_cons;
    cbn [snd] in Hw; lia.
Qed.

Lemma total_tx_count_bump_le a (ws : dict wallet) :
  total_tx_count (dict_update a bump_tx_count ws) <= total_tx_count ws + 1.
Proof.
  induction ws as [|[k w] ws IH]; [cbn; lia|].
  cbn [dict_update]. destruct (decide (a = k)); rewrite !total_tx_count_cons;
    cbn [bump_tx_count tx_count]; lia.
Qed.

Lemma keeps_order_refl st : keeps_order st st.
Proof. intros H. exact H. Qed.

Lemma keeps_order_trans s1 s2 s3 :
  keeps_order s1 s2 -> keeps_order s2 s3 -> keeps_order s1 s3.
Proof. intros H1 H2 H. exact (H2 (H1 H)). Qed.

Lemma same_users_keeps_order st st' : users st' = users st -> keeps_order st st'.
Proof. unfold keeps_order, well_formed. now intros ->. Qed.

(** A write to one tenant that keeps the tenant in order. *)
Lemma update_keeps_order k (f : user -> user) st st' :
  users st' = dict_update k f (users st) ->
  (forall u, dict_get k (users st) = Some u -> user_ok (k, u) -> user_ok (k, f u)) ->
  keeps_order st st'.
Proof.
  intros Hu Hf [Hnd Hall]. unfold well_formed. rewrite Hu, dict_keys_update.
  split; [exact Hnd|]. now apply Forall_dict_update.
Qed.

Lemma del_keeps_order k st st' :
  users st' = dict_del k (users st) -> keeps_order st st'.
Proof.
  intros Hu [Hnd Hall]. unfold well_formed. rewrite Hu.
  split; [now apply NoDup_keys_del|now apply Forall_dict_del].
Qed.

Section Order.
Variable W : World.

Lemma get_user_keeps_order uid : preserves keeps_order (get_user W uid).
Proof.
  intros st. destruct (dict_get (Text.str uid) (users st)) as [u|] eqn:E.
  - rewrite (get_user_old W _ _ _ E). apply keeps_order_refl.
  - rewrite (get_user_new W _ _ E). cbn. intros [Hnd Hall]. split; cbn.
    + now apply NoDup_keys_set_new.
    + apply Forall_dict_set; [exact Hall|].
      repeat split; cbn; try lia; constructor.
Qed.

Lemma add_wallet_keeps_order uid address name :
  preserves keeps_order (add_wallet W uid address name).
Proof.
  intros st. pose proof (get_user_keeps_order uid st) as Hg0.
  destruct (get_user_cases W uid st) as (u & s1 & Hg & Hu & _).
  rewrite Hg in Hg0. cbn [snd] in Hg0. rewrite (add_wallet_run W _ _ _ _ _ _ Hg).
  destruct (Nat.leb_spec 10 (length (wallets u))) as [_|Hlen]; [exact Hg0|].
  unfold dict_mem. destruct (dict_get address (wallets u)) eqn:Hnew; [exact Hg0|].
  cbn [snd]. apply (keeps_order_trans _ _ _ Hg0).
  eapply update_keeps_order; [reflexivity|]. cbn [users].
  intros u' Hu'. rewrite Hu in Hu'. injection Hu' as <-.
  intros (H1 & H2 & H3 & H4). unfold user_ok.
  cbn [snd set_wallets wallets alert_count] in *.
  rewrite (dict_set_new _ _ _ Hnew). repeat split.
  - rewrite length_app. cbn. lia.
  - rewrite <- (dict_set_new _ (Wallet (Text.slice_to 20 name)
                                 (isoformat W (clock W (ticks s1))) None 0) _ Hnew).
    now apply NoDup_keys_set_new.
  - apply Forall_app. split; [exact H3|]. constructor; [cbn; lia|constructor].
  - rewrite total_tx_count_app, total_tx_count_cons. cbn [tx_count].
    change (total_tx_count []) with 0. lia.
Qed.

Lemma remove_wallet_keeps_order uid identifier :
  preserves keeps_order (remove_wallet W uid identifier).
Proof.
  intros st. pose proof (get_user_keeps_order uid st) as Hg0.
  destruct (get_user_cases W uid st) as (u & s1 & Hg & Hu & _).
  rewrite Hg in Hg0. cbn [snd] in Hg0. rewrite (remove_wallet_run W _ _ _ _ _ Hg).
  assert (Hdel : forall a, keeps_order s1 (after_write uid (dict_del a) s1)).
  { intros a. eapply update_keeps_order; [reflexivity|].
    intros u' _ (H1 & H2 & H3 & H4).
    unfold user_ok. cbn [snd set_wallets wallets alert_count] in *. repeat split.
    - pose proof (length_dict_del a (wallets u')). lia.
    - now apply NoDup_keys_del.
    - now apply Forall_dict_del.
    - pose proof (total_tx_count_del a _ H3). lia. }
  destruct (dict_get identifier (wallets u));
    [exact (keeps_order_trans _ _ _ Hg0 (Hdel _))|].
  destruct (find _ _) as [[addr data]|];
    [exact (keeps_order_trans _ _ _ Hg0 (Hdel _))|exact Hg0].
Qed.

Lemma poll_tx_keeps_order uid address wname acc t :
  preserves keeps_order (poll_tx W uid address wname acc t).
Proof.
  intros st.
  destruct (poll_tx_cases W uid address wname acc t st)
    as [[Hrun _]|(s & _ & _ & Hrun)]; rewrite Hrun; [apply keeps_order_refl|].
  cbn [snd]. eapply update_keeps_order.
  - cbn [users]. rewrite !dict_update_update. reflexivity.
  - intros u _ (H1 & H2 & H3 & H4). unfold user_ok.
    cbn [snd bump_alert_count set_wallets wallets alert_count] in *.
    rewrite !length_dict_update, !dict_keys_update, total_tx_count_last_tx.
    repeat split; [exact H1|exact H2| |].
    + apply Forall_dict_update;
        [apply Forall_dict_update; [exact H3|]|]; intros w _ Hw; cbn in *; lia.
    + pose proof (total_tx_count_bump_le address (wallets u)). lia.
Qed.

Lemma poll_keeps_order uid ws : preserves keeps_order (poll W uid ws).
Proof.
  apply preserves_foldM; [apply keeps_order_refl|apply keeps_order_trans|].
  intros acc aw. unfold poll_wallet.
  apply preserves_bind; [apply keeps_order_trans| |intros txs].
  - intros st. rewrite fetch_transactions_run. now apply same_users_keeps_order.
  - apply preserves_foldM; [apply keeps_order_refl|apply keeps_order_trans|].
    intros acc0 t. apply poll_tx_keeps_order.
Qed.

Lemma same_memory_keeps_order {A} (m : M A) :
  preserves same_memory m -> preserves keeps_order m.
Proof. intros H st. apply same_users_keeps_order. exact (proj1 (H st)). Qed.

Lemma check_command_keeps_order update : preserves keeps_order (check_command W update).
Proof.
  pose proof keeps_order_trans as Ht.
  unfold check_command, reply_text.
  apply preserves_bind; [assumption|apply get_user_keeps_order|intros u].
  destruct (wallets u) as [|aw ws];
    [apply same_memory_keeps_order, send_message_memory|].
  apply preserves_bind;
    [assumption|apply same_memory_keeps_order, send_message_memory|intros _].
  apply preserves_bind; [assumption|apply poll_keeps_order|intros alerts].
  apply same_memory_keeps_order, check_report_memory.
Qed.

Lemma send_alerts_keeps_order user_id user_id_str alerts :
  preserves keeps_order (send_alerts W user_id user_id_str alerts).
Proof.
  intros st. destruct (send_alerts_users W user_id user_id_str alerts st) as (d & _ & Hu).
  cbn zeta in Hu. destruct (existsb failed_unreachable d).
  - now apply (del_keeps_order user_id_str).
  - now apply same_users_keeps_order.
Qed.

Lemma monitor_user_keeps_order k u : preserves keeps_order (monitor_user W k u).
Proof.
  pose proof keeps_order_refl as Hr. pose proof keeps_order_trans as Ht.
  unfold monitor_user.
  apply preserves_try_except; [assumption| |].
  - apply preserves_bind; [assumption| |intros z].
    + unfold int_of. destruct (Text.py_int k);
        [now apply preserves_ret|now apply preserves_raise].
    + apply preserves_bind; [assumption|apply poll_keeps_order|intros alerts].
      unfold monitor_report. destruct alerts as [|a alerts];
        [now apply preserves_ret|].
      apply preserves_bind; [assumption| |intros _; apply send_alerts_keeps_order].
      apply same_memory_keeps_order, save_data_memory.
  - intros e. apply same_memory_keeps_order, print_memory.
Qed.

Lemma auto_monitor_keeps_order : preserves keeps_order (auto_monitor W).
Proof.
  pose proof keeps_order_refl as Hr. pose proof keeps_order_trans as Ht.
  assert (Hnext : forall used, preserves keeps_order (next_item used)).
  { intros used st. unfold next_item, bind, get_state.
    destruct (decide _); apply keeps_order_refl. }
  assert (Hloop : forall used items, preserves keeps_order (monitor_loop W used items)).
  { intros used items. induction items as [|[k u] rest IH]; cbn [monitor_loop];
      [apply Hnext|].
    apply preserves_bind; [assumption|apply Hnext|intros _].
    apply preserves_bind;
      [assumption|apply monitor_user_keeps_order|intros _; exact IH]. }
  intros st. assert (Hrun : auto_monitor W st
               = monitor_loop W (length (users st)) (users st)
                   (mkState (users st) (tx_cache st) (db_file st) (cache_file st)
                      (S (ticks st))
                      (trace st ++ [EvPrint ("⏰ Auto-check at "
                                             +:+ strftime_HMS W (clock W (ticks st)))])))
    by reflexivity.
  rewrite Hrun. intros Hwf. apply Hloop. exact Hwf.
Qed.

Lemma handle_keeps_order r : preserves keeps_order (handle W r).
Proof.
  pose proof keeps_order_trans as Ht.
  assert (Hreply : forall update text, preserves keeps_order (reply_text W update text))
    by (intros; apply same_memory_keeps_order, send_message_memory).
  destruct r as [update args|update args|update|]; cbn [handle].
  - unfold add_command. destruct args as [|address [|n names]]; try apply Hreply.
    apply preserves_bind;
      [assumption|apply add_wallet_keeps_order|intros r; apply Hreply].
  - unfold remove_command. destruct args as [|a args]; [apply Hreply|].
    apply preserves_bind;
      [assumption|apply remove_wallet_keeps_order|intros r; apply Hreply].
  - apply check_command_keeps_order.
  - apply auto_monitor_keeps_order.
Qed.

End Order.

(** X14.  Whatever requests the bot serves, a database in order stays in
    order (the empty database is): the tenant keys stay distinct, every
    tenant has at most 10 wallets under distinct addresses, no count is
    negative, and the alert count of a tenant is never less than the sum of
    the counts of the wallets it tracks. *)
Theorem database_stays_in_order (W : World) (rs : list request) (st : State) :
  well_formed st -> well_formed (after_requests W rs st).
Proof.
  revert st. induction rs as [|r rs IH]; intros st Hwf; [exact Hwf|].
  cbn. apply IH. now apply handle_keeps_order.
Qed.

Lemma database_stays_in_order_witness :
  let W := Examples.busy_world in
  let rs := [Add Examples.update7 ["ADDR1"; "Main"]; Check Examples.update7;
             Add Examples.update7 ["ADDR2"; "Second"]; Monitor;
             Remove Examples.update7 ["main"]] in
  let st' := after_requests W rs (Examples.state_of []) in
  well_formed (Examples.state_of []) /\ well_formed st' /\
  alert_count_of "7" st' = 14 /\ total_tx_count (wallets_of "7" st') = 7.
Proof.
  intros W rs st'.
  assert (H0 : well_formed (Examples.state_of [])) by (split; constructor).
  split; [exact H0|]. split; [exact (database_stays_in_order W rs _ H0)|].
  vm_compute. split; reflexivity.
Defined.

(** ** No entry ever leaves the cache *)

Lemma cache_grows_refl st : cache_grows st st.
Proof. unfold cache_grows. reflexivity. Qed.

Lemma cache_grows_trans s1 s2 s3 :
  cache_grows s1 s2 -> cache_grows s2 s3 -> cache_grows s1 s3.
Proof. unfold cache_grows. intros H1 H2. now transitivity (tx_cache s2). Qed.

Lemma same_cache_grows st st' : tx_cache st' = tx_cache st -> cache_grows st st'.
Proof. unfold cache_grows. now intros ->. Qed.

Section CacheGrows.
Variable W : World.

Lemma get_user_cache_grows uid : preserves cache_grows (get_user W uid).
Proof.
  intros st. destruct (get_user_cases W uid st) as (u & s1 & Hg & _ & _ & Hc & _).
  rewrite Hg. now apply same_cache_grows.
Qed.

Lemma add_wallet_cache_grows uid address name :
  preserves cache_grows (add_wallet W uid address name).
Proof.
  intros st. destruct (get_user_cases W uid st) as (u & s1 & Hg & _ & _ & Hc & _).
  rewrite (add_wallet_run W _ _ _ _ _ _ Hg). apply same_cache_grows.
  destruct (_ <=? _)%nat; [exact Hc|]. destruct (dict_mem _ _); exact Hc.
Qed.

Lemma remove_wallet_cache_grows uid identifier :
  preserves cache_grows (remove_wallet W uid identifier).
Proof.
  intros st. destruct (get_user_cases W uid st) as (u & s1 & Hg & _ & _ & Hc & _).
  rewrite (remove_wallet_run W _ _ _ _ _ Hg). apply same_cache_grows.
  destruct (dict_get _ _); [exact Hc|]. destruct (find _ _) as [[a d]|]; exact Hc.
Qed.

Lemma poll_cache_grows uid ws : preserves cache_grows (poll W uid ws).
Proof.
  intros st. destruct (poll_frame_poll W uid ws st) as (alerts & st' & Hrun & Hf).
  rewrite Hrun. exact (pf_cache_grows _ _ _ Hf).
Qed.

Lemma same_memory_cache_grows {A} (m : M A) :
  preserves same_memory m -> preserves cache_grows m.
Proof. intros H st. apply same_cache_grows. exact (proj2 (H st)). Qed.

Lemma check_command_cache_grows update : preserves cache_grows (check_command W update).
Proof.
  pose proof cache_grows_trans as Ht.
  unfold check_command, reply_text.
  apply preserves_bind; [assumption|apply get_user_cache_grows|intros u].
  destruct (wallets u) as [|aw ws];
    [apply same_memory_cache_grows, send_message_memory|].
  apply preserves_bind;
    [assumption|apply same_memory_cache_grows, send_message_memory|intros _].
  apply preserves_bind; [assumption|apply poll_cache_grows|intros alerts].
  apply same_memory_cache_grows, check_report_memory.
Qed.

Lemma monitor_user_cache_grows k u : preserves cache_grows (monitor_user W k u).
Proof.
  pose proof cache_grows_refl as Hr. pose proof cache_grows_trans as Ht.
  unfold monitor_user.
  apply preserves_try_except; [assumption| |].
  - apply preserves_bind; [assumption| |intros z].
    + unfold int_of. destruct (Text.py_int k);
        [now apply preserves_ret|now apply preserves_raise].
    + apply preserves_bind; [assumption|apply poll_cache_grows|intros alerts].
      intros st. apply same_cache_grows, monitor_report_cache.
  - intros e. apply same_memory_cache_grows, print_memory.
Qed.

Lemma auto_monitor_cache_grows : preserves cache_grows (auto_monitor W).
Proof.
  pose proof cache_grows_refl as Hr. pose proof cache_grows_trans as Ht.
  assert (Hnext : forall used, preserves cache_grows (next_item used)).
  { intros used st. unfold next_item, bind, get_state.
    destruct (decide _); apply cache_grows_refl. }
  assert (Hloop : forall used items, preserves cache_grows (monitor_loop W used items)).
  { intros used items. induction items as [|[k u] rest IH]; cbn [monitor_loop];
      [apply Hnext|].
    apply preserves_bind; [assumption|apply Hnext|intros _].
    apply preserves_bind;
      [assumption|apply monitor_user_cache_grows|intros _; exact IH]. }
  intros st. assert (Hrun : auto_monitor W st
               = monitor_loop W (length (users st)) (users st)
                   (mkState (users st) (tx_cache st) (db_file st) (cache_file st)
                      (S (ticks st))
                      (trace st ++ [EvPrint ("⏰ Auto-check at "
                                             +:+ strftime_HMS W (clock W (ticks st)))])))
    by reflexivity.
  rewrite Hrun.
  match goal with |- cache_grows _ (snd (_ ?s)) =>
    exact (cache_grows_trans st s _ (cache_grows_refl _) (Hloop _ _ s)) end.
Qed.

Lemma handle_cache_grows r : preserves cache_grows (handle W r).
Proof.
  pose proof cache_grows_trans as Ht.
  assert (Hreply : forall update text, preserves cache_grows (reply_text W update text))
    by (intros; apply same_memory_cache_grows, send_message_memory).
  destruct r as [update args|update args|update|]; cbn [handle].
  - unfold add_command. destruct args as [|address [|n names]]; try apply Hreply.
    apply preserves_bind;
      [assumption|apply add_wallet_cache_grows|intros r; apply Hreply].
  - unfold remove_command. destruct args as [|a args]; [apply Hreply|].
    apply preserves_bind;
      [assumption|apply remove_wallet_cache_grows|intros r; apply Hreply].
  - apply check_command_cache_grows.
  - apply auto_monitor_cache_grows.
Qed.

Lemma after_requests_cache_grows rs st : cache_grows st (after_requests W rs st).
Proof.
  revert st. induction rs as [|r rs IH]; intros st; [apply cache_grows_refl|].
  cbn. exact (cache_grows_trans _ _ _ (handle_cache_grows r st) (IH _)).
Qed.

End CacheGrows.

(** X15.  No request ever takes an entry out of the seen-cache or changes
    it: removing a wallet, or the removal of an unreachable tenant, keep the
    tenant's keys.  So a record that was cached for a tenant is never
    alerted to that tenant again, whatever requests were served in between,
    also after the wallet was removed and added again. *)
Theorem alerted_at_most_once (W : World) (rs : list request) (st : State)
    (uid : string) (ws : dict wallet) (k v : string) :
  tx_cache st !! k = Some v ->
  tx_cache (after_requests W rs st) !! k = Some v /\
  exists alerts,
    fst (poll W uid ws (after_requests W rs st)) = Ok alerts /\
    ~ In k (map (alert_key uid) alerts).
Proof.
  intros Hk.
  assert (Hk' : tx_cache (after_requests W rs st) !! k = Some v).
  { pose proof (after_requests_cache_grows W rs st) as Hg. unfold cache_grows in Hg.
    exact (lookup_weaken _ _ _ _ Hk Hg). }
  split; [exact Hk'|].
  destruct (poll_yields W uid ws (after_requests W rs st))
    as (alerts & st' & Hrun & _ & _ & _ & Hgen).
  exists alerts. rewrite Hrun. split; [reflexivity|].
  intros Hin. apply in_map_iff in Hin as (al & <- & Hal).
  rewrite List.Forall_forall in Hgen. destruct (Hgen al Hal) as (_ & _ & Hnone & _).
  rewrite Hnone in Hk'. discriminate.
Qed.

Lemma alerted_at_most_once_witness :
  let W := Examples.active_world in
  let st := after_requests W [Check Examples.update7] Examples.main_state in
  let rs := [Remove Examples.update7 ["main"];
             Add Examples.update7 ["ADDR1"; "Again"]; Monitor] in
  let ws := [("ADDR1", Examples.wallet_named "Again")] in
  tx_cache st !! "7_ADDR1_sigA" = Some "2" /\
  tx_cache (after_requests W rs st) !! "7_ADDR1_sigA" = Some "2" /\
  fst (poll W "7" ws (after_requests W rs st)) = Ok [].
Proof.
  intros W st rs ws.
  assert (Hk : tx_cache st !! "7_ADDR1_sigA" = Some "2") by (vm_compute; reflexivity).
  destruct (alerted_at_most_once W rs st "7" ws _ _ Hk) as [H1 _].
  split; [exact Hk|]. split; [exact H1|]. vm_compute. reflexivity.
Defined.
